(** * The post-to-audio pipeline: selection, synthesis failover, orchestration

    A shallow embedding of the TypeScript services of the repository
    (post analyzer, text formatter, TTS service with provider failover,
    post-to-audio orchestrator) together with the properties that the
    specification states about them.

    Conventions of the embedding.
    - A JavaScript string is a [string]; the text functions work on its
      list of 8-bit code units ([list ascii]), so the whitespace class
      [\s] is the class of the code units 9-13, 32 and 160.
    - Integer-valued numbers (counts, lengths, delays, HTTP status codes)
      are [nat] or [Z].
    - Scores are real numbers ([R]), the idealisation of binary64 values;
      the one place where the analyzer leaves the reals ([Math.log10] of a
      non-positive argument) is kept visible in the type [number].
    - Where binary64 rounding decides an integer result ([Math.ceil],
      [Math.floor], a comparison against [length * 0.7]) the computation is
      done on primitive binary64 floats, as JavaScript does it.
    - Calls to collaborators (providers, store, timers) are transitions of
      an abstract world, threaded through a state-and-exception monad that
      also records each call in a log.
    - The Reddit client (token cache, rate limiter), the two speech
      providers and the Supabase store are embedded the same way, each
      over its own collaborators ([fetch], the clock, the database
      client); the rewriting passes of the formatter are functions on
      code units, one rule per regular expression. *)

From Stdlib Require Import ZArith QArith List String Ascii Bool Lia.
From Stdlib Require Import Floats Uint63.
From Stdlib Require Import Reals Lra.
From Stdlib Require Import DecimalString.
Import ListNotations.

Set Implicit Arguments.

(* ================================================================== *)
(** ** JavaScript strings *)
(* ================================================================== *)

Module JS.

Definition chars := list ascii.

Definition codeUnit (c : ascii) : nat := nat_of_ascii c.

(** The class [\s] (WhiteSpace and LineTerminator), also what [trim] strips. *)
Definition isSpace (c : ascii) : bool :=
  let n := codeUnit c in
  ((9 <=? n) && (n <=? 13) || (n =? 32) || (n =? 160))%nat.

(** The class [[A-Z]]. *)
Definition isUpper (c : ascii) : bool :=
  let n := codeUnit c in ((65 <=? n) && (n <=? 90))%nat.

(** The class [[.!?]]. *)
Definition isSentenceEnd (c : ascii) : bool :=
  let n := codeUnit c in ((n =? 46) || (n =? 33) || (n =? 63))%nat.

Definition isNewline (c : ascii) : bool := (codeUnit c =? 10)%nat.

Definition countIf (p : ascii -> bool) (l : chars) : nat :=
  List.length (filter p l).

Fixpoint dropWhile (p : ascii -> bool) (l : chars) : chars :=
  match l with
  | [] => []
  | c :: l' => if p c then dropWhile p l' else l
  end.

Definition trimStart (l : chars) : chars := dropWhile isSpace l.
Definition trimEnd (l : chars) : chars := rev (dropWhile isSpace (rev l)).

(** [s.trim()] *)
Definition trim (l : chars) : chars := trimEnd (trimStart l).

(** [s.split(/[class]+/)] for a character class [p]: the separators are the
    maximal runs of [p]-characters; a separator at either end leaves an
    empty piece there, and the empty string splits into one empty piece.
    [cur] is the current piece, reversed; [insep] says that the previous
    character belonged to a separator. *)
Fixpoint splitRunsFrom (p : ascii -> bool) (cur : chars) (insep : bool)
  (l : chars) : list chars :=
  match l with
  | [] => [rev cur]
  | c :: l' =>
      if p c then
        if insep then splitRunsFrom p [] true l'
        else rev cur :: splitRunsFrom p [] true l'
      else splitRunsFrom p (c :: cur) false l'
  end.

Definition splitRuns (p : ascii -> bool) (l : chars) : list chars :=
  splitRunsFrom p [] false l.

(** [s.split(/\s+/)] *)
Definition splitSpaces (l : chars) : list chars := splitRuns isSpace l.

(** [a.join(sep)] *)
Fixpoint join (sep : chars) (ws : list chars) : chars :=
  match ws with
  | [] => []
  | [w] => w
  | w :: ws' => w ++ sep ++ join sep ws'
  end.

(** [s.startsWith(pre)] *)
Fixpoint startsWith (pre l : chars) : bool :=
  match pre, l with
  | [], _ => true
  | _ :: _, [] => false
  | a :: pre', c :: l' => Ascii.eqb a c && startsWith pre' l'
  end.

(** [s.lastIndexOf(c)] for a one-character needle: [-1] when absent. *)
Fixpoint lastIndexFrom (c : ascii) (i : Z) (best : Z) (l : chars) : Z :=
  match l with
  | [] => best
  | d :: l' => lastIndexFrom c (i + 1) (if Ascii.eqb d c then i else best) l'
  end.

Definition lastIndexOf (c : ascii) (l : chars) : Z := lastIndexFrom c 0 (-1) l.

(** [s.substring(0, n)] *)
Definition substring0 (n : Z) (l : chars) : chars := firstn (Z.to_nat n) l.

Definition ofString (s : string) : chars := list_ascii_of_string s.
Definition toString (l : chars) : string := string_of_list_ascii l.

(** A JavaScript string is truthy when it is not empty. *)
Definition truthy (s : string) : bool :=
  match s with EmptyString => false | _ => true end.

End JS.

(* ================================================================== *)
(** ** binary64 arithmetic with an integer result *)
(* ================================================================== *)

Module Binary64.

Definition ofZ (z : Z) : float :=
  if (z <? 0)%Z then PrimFloat.opp (PrimFloat.of_uint63 (Uint63.of_Z (- z)))
  else PrimFloat.of_uint63 (Uint63.of_Z z).

Definition ofNat (n : nat) : float := ofZ (Z.of_nat n).

(** The integer a finite float [(-1)^s * m * 2^e] is rounded to, downwards
    or upwards. The functions are used on finite values only. *)
Definition roundWith (up : bool) (f : float) : Z :=
  match Prim2SF f with
  | S754_finite s m e =>
      let n := if s then Z.neg m else Z.pos m in
      if (0 <=? e)%Z then (n * 2 ^ e)%Z
      else if up then (- ((- n) / 2 ^ (- e)))%Z
      else (n / 2 ^ (- e))%Z
  | _ => 0%Z
  end.

(** [Math.ceil] and [Math.floor] *)
Definition ceil (f : float) : Z := roundWith true f.
Definition floor (f : float) : Z := roundWith false f.

End Binary64.

(* ================================================================== *)
(** ** Data types ([types/reddit.ts], [types/database.ts]) *)
(* ================================================================== *)

Module Reddit.

Record RedditPost := {
  id : string;
  title : string;
  author : string;
  score : Z;
  num_comments : Z;
  created_utc : R;
  selftext : string;
  permalink : string;
  subreddit : string
}.

End Reddit.

(* ================================================================== *)
(** ** Text formatter ([TextFormatterService]) *)
(* ================================================================== *)

Module Formatter.
Import Reddit.

Record FormattedText := {
  text : string;
  wordCount : nat;
  estimatedDuration : Z
}.

Definition MAX_DURATION_SECONDS : Z := 90.
Definition WORDS_PER_MINUTE : Z := 150.

(** [Math.ceil((wordCount / WORDS_PER_MINUTE) * 60)], on binary64. *)
Definition estimateDuration (wordCount : nat) : Z :=
  Binary64.ceil
    (PrimFloat.mul
       (PrimFloat.div (Binary64.ofNat wordCount) (Binary64.ofZ WORDS_PER_MINUTE))
       (Binary64.ofZ 60)).

(** [text.trim().split(/\s+/).length] (no guard for the empty string:
    it counts one word). *)
Definition countWords (text : string) : nat :=
  List.length (JS.splitSpaces (JS.trim (JS.ofString text))).

(** [Math.floor((MAX_DURATION_SECONDS / 60) * WORDS_PER_MINUTE)] *)
Definition maxWordsForDuration : nat :=
  Z.to_nat
    (Binary64.floor
       (PrimFloat.mul
          (PrimFloat.div (Binary64.ofZ MAX_DURATION_SECONDS) (Binary64.ofZ 60))
          (Binary64.ofZ WORDS_PER_MINUTE))).

(** The literal [0.7], that is the binary64 value nearest to 7/10. *)
Definition seventy_percent : float := 0x1.6666666666666p-1%float.

Definition truncateToMaxDuration (text : string) (maxWords : nat) : string :=
  let words := JS.splitSpaces (JS.ofString text) in
  if (List.length words <=? maxWords)%nat then text
  else
    let truncated := JS.join (JS.ofString " ") (firstn maxWords words) in
    let lastSentenceEnd :=
      Z.max (Z.max (JS.lastIndexOf "."%char truncated)
                   (JS.lastIndexOf "!"%char truncated))
            (JS.lastIndexOf "?"%char truncated) in
    if PrimFloat.ltb
         (PrimFloat.mul (Binary64.ofNat (List.length truncated)) seventy_percent)
         (Binary64.ofZ lastSentenceEnd)
    then JS.toString (JS.substring0 (lastSentenceEnd + 1) truncated)
    else JS.toString (truncated ++ JS.ofString "...").

Section FormatForTTS.

(** The two regular-expression rewriting passes of the service are not
    unfolded here: every statement below holds whatever strings they
    return. *)
Variable cleanMarkdown : string -> string.
Variable addPauses : string -> string.

Definition formatForTTS (post : RedditPost) : FormattedText :=
  let title := cleanMarkdown post.(title) in
  let body :=
    if JS.truthy post.(selftext) then cleanMarkdown post.(selftext)
    else ""%string in
  let combinedText :=
    if JS.truthy body then (title ++ ". " ++ body)%string else title in
  let wordCount0 := countWords combinedText in
  let estimatedDuration0 := estimateDuration wordCount0 in
  let '(combinedText, wordCount, estimatedDuration) :=
    if (MAX_DURATION_SECONDS <? estimatedDuration0)%Z then
      let combinedText' := truncateToMaxDuration combinedText maxWordsForDuration in
      let wordCount' := countWords combinedText' in
      (combinedText', wordCount', estimateDuration wordCount')
    else (combinedText, wordCount0, estimatedDuration0) in
  {| text := addPauses combinedText;
     wordCount := wordCount;
     estimatedDuration := estimatedDuration |}.

End FormatForTTS.

End Formatter.

(* ================================================================== *)
(** ** Matching with the regular expressions of the analyzer *)
(* ================================================================== *)

Module Regex.
Import JS.

(** A matcher tells, for the rest of the string from some position on,
    how long the match that starts at this position is, if there is one.
    The expressions below never match the empty string. *)
Definition matcher := chars -> option nat.

Fixpoint takeWhile (p : ascii -> bool) (l : chars) : chars :=
  match l with
  | c :: l' => if p c then c :: takeWhile p l' else []
  | [] => []
  end.

(** [/\n\s*\n/]: a newline, then the longest run of whitespace that still
    ends in a newline. *)
Definition blankLine : matcher := fun l =>
  match l with
  | c :: rest =>
      if isNewline c then
        let j := lastIndexOf (ascii_of_nat 10) (takeWhile isSpace rest) in
        if (0 <=? j)%Z then Some (S (Z.to_nat j + 1)) else None
      else None
  | [] => None
  end.

(** [/https?:\/\/\S+/]: a scheme and at least one character that is not
    whitespace, up to the next whitespace. *)
Definition url : matcher := fun l =>
  let tail scheme :=
    match List.length (takeWhile (fun c => negb (isSpace c)) (skipn (List.length scheme) l)) with
    | O => None
    | S n => Some (List.length scheme + S n)%nat
    end in
  if startsWith (ofString "https://") l then tail (ofString "https://")
  else if startsWith (ofString "http://") l then tail (ofString "http://")
  else None.

(** [s.match(/re/g) || []]: the matches from left to right, each search
    resuming where the previous match ended. [skip] counts the characters
    of the current match that are still to be passed. *)
Fixpoint matchAllFrom (m : matcher) (skip : nat) (l : chars) : list chars :=
  match l with
  | [] => []
  | _ :: l' =>
      match skip with
      | S k => matchAllFrom m k l'
      | O =>
          match m l with
          | Some (S n) => firstn (S n) l :: matchAllFrom m n l'
          | _ => matchAllFrom m 0 l'
          end
      end
  end.

Definition matchAll (m : matcher) (l : chars) : list chars := matchAllFrom m 0 l.

(** [s.split(/re/)]: the pieces between the matches. *)
Fixpoint splitByFrom (m : matcher) (cur : chars) (skip : nat) (l : chars)
  : list chars :=
  match l with
  | [] => [rev cur]
  | c :: l' =>
      match skip with
      | S k => splitByFrom m cur k l'
      | O =>
          match m l with
          | Some (S n) => rev cur :: splitByFrom m [] n l'
          | _ => splitByFrom m (c :: cur) 0 l'
          end
      end
  end.

Definition splitBy (m : matcher) (l : chars) : list chars := splitByFrom m [] 0 l.

(** [pieces.filter(p => p.trim().length > 0)] *)
Definition nonBlank (pieces : list chars) : list chars :=
  filter (fun p => negb (Nat.eqb (List.length (trim p)) 0)) pieces.

End Regex.

(* ================================================================== *)
(** ** Post analyzer ([PostAnalyzerService]) *)
(* ================================================================== *)

Module Analyzer.
Import Reddit.

Local Open Scope R_scope.

(** The values that the analyzer's arithmetic produces: a real number, or
    what [Math.log10] returns outside the positive reals. *)
Inductive number :=
| Fin (r : R)
| NegInfinity
| NaN.

(** [Math.log10(x)] for a finite [x] *)
Definition Math_log10 (x : R) : number :=
  if Rlt_dec 0 x then Fin (ln x / ln 10)
  else if Req_dec_T x 0 then NegInfinity
  else NaN.

(** [x / c], [x * c] for a positive constant [c]; [x + r] for a finite [r];
    [Math.min(x, c)]. *)
Definition divBy (x : number) (c : R) : number :=
  match x with Fin r => Fin (r / c) | NegInfinity => NegInfinity | NaN => NaN end.

Definition timesBy (x : number) (c : R) : number :=
  match x with Fin r => Fin (r * c) | NegInfinity => NegInfinity | NaN => NaN end.

Definition plusFin (x : number) (r : R) : number :=
  match x with Fin a => Fin (a + r) | NegInfinity => NegInfinity | NaN => NaN end.

Definition Math_min (x : number) (c : R) : number :=
  match x with Fin r => Fin (Rmin r c) | NegInfinity => NegInfinity | NaN => NaN end.

(** The sign of [x - y] as a sort comparator reads it: [NaN] counts as 0. *)
Definition signOfDifference (x y : number) : Z :=
  match x, y with
  | Fin a, Fin b => if Rlt_dec a b then (-1)%Z else if Rlt_dec b a then 1%Z else 0%Z
  | Fin _, NegInfinity => 1%Z
  | NegInfinity, Fin _ => (-1)%Z
  | _, _ => 0%Z
  end.

Record PostScore := {
  post : RedditPost;
  engagementScore : number;
  textLength : nat;
  contentQuality : R;
  totalScore : number
}.

(** [POST_SELECTION_CONFIG] *)
Module Config.
Definition weights_engagement : R := 0.4.
Definition weights_textLength : R := 0.3.
Definition weights_quality : R := 0.3.
Definition textLength_min : nat := 50.
Definition textLength_ideal_min : nat := 100.
Definition textLength_ideal_max : nat := 500.
Definition textLength_max : nat := 800.
End Config.

Definition countWords (text : JS.chars) : nat :=
  match text with
  | [] => 0
  | _ =>
      if Nat.eqb (List.length (JS.trim text)) 0 then 0%nat
      else List.length (JS.splitSpaces (JS.trim text))
  end.

(** [now] is the reading [Date.now() / 1000] of the clock, in seconds. *)
Definition getPostAgeHours (now : R) (created_utc : R) : R :=
  let ageSeconds := now - created_utc in
  Rmax (ageSeconds / 3600) 0.1.

Definition calculateEngagementScore (now : R) (p : RedditPost) : number :=
  let ageHours := getPostAgeHours now p.(created_utc) in
  let rawEngagement := (IZR p.(score) + IZR p.(num_comments) * 0.3) / ageHours in
  let normalized := Math_min (divBy (Math_log10 (rawEngagement + 1)) 3) 1 in
  normalized.

Definition calculateTextLengthScore (wordCount : nat) : R :=
  let min := Config.textLength_min in
  let ideal_min := Config.textLength_ideal_min in
  let ideal_max := Config.textLength_ideal_max in
  let max := Config.textLength_max in
  if Nat.eqb wordCount 0 then 0
  else if Nat.ltb wordCount min then INR wordCount / INR min * 0.3
  else if Nat.leb ideal_min wordCount && Nat.leb wordCount ideal_max then 1.0
  else if Nat.ltb wordCount ideal_min then
    let range := INR ideal_min - INR min in
    let position := INR wordCount - INR min in
    0.3 + (position / range) * 0.7
  else if Nat.leb wordCount max then
    let range := INR max - INR ideal_max in
    let position := INR wordCount - INR ideal_max in
    1.0 - (position / range) * 0.5
  else 0.3.

(** [a / b > q] for two lengths; exact rational arithmetic, which agrees
    with binary64 on every pair of lengths below 2^50. The divisor is never
    zero where the analyzer uses it. *)
Definition ratioExceeds (a b : nat) (q : Q) : bool :=
  negb (Qle_bool (inject_Z (Z.of_nat a) / inject_Z (Z.of_nat b)) q).

(** The adjustments of the score are added as real numbers. On binary64
    the sum can differ from the real sum by a rounding error
    ([0.5 + 0.2 + 0.15 - 0.2 - 0.15] is [0.4999999999999999] there);
    the bounds that are proved of the score hold either way. *)
Definition calculateContentQuality (text : JS.chars) : R :=
  match text with
  | [] => 0
  | _ =>
      if Nat.eqb (List.length (JS.trim text)) 0 then 0
      else
        let score := 0.5 in
        let paragraphs := Regex.nonBlank (Regex.splitBy Regex.blankLine text) in
        let score :=
          if Nat.ltb 1 (List.length paragraphs) then score + 0.2 else score in
        let sentences := Regex.nonBlank (JS.splitRuns JS.isSentenceEnd text) in
        let score :=
          if Nat.ltb 2 (List.length sentences) then score + 0.15 else score in
        let score :=
          if ratioExceeds (JS.countIf JS.isUpper text) (List.length text) (3 # 10)
          then score - 0.2 else score in
        let urlCount := List.length (Regex.matchAll Regex.url text) in
        let score := if Nat.ltb 2 urlCount then score - 0.15 else score in
        Rmax 0 (Rmin 1 score)
  end.

Definition urlLength (body : JS.chars) : nat :=
  List.length (JS.join [] (Regex.matchAll Regex.url body)).

Definition hasUsableTextContent (p : RedditPost) : bool :=
  let text := JS.trim (JS.ofString (p.(title) ++ " " ++ p.(selftext))) in
  let wordCount := countWords text in
  if Nat.ltb wordCount 10 then false
  else if JS.truthy p.(selftext)
          && JS.startsWith (JS.ofString "http") (JS.trim (JS.ofString p.(selftext)))
          && ratioExceeds (urlLength (JS.ofString p.(selftext)))
               (List.length (JS.ofString p.(selftext))) (8 # 10)
  then false
  else true.

Definition scorePost (now : R) (p : RedditPost) : PostScore :=
  let fullText := JS.ofString (p.(title) ++ " " ++ p.(selftext)) in
  let wordCount := countWords fullText in
  let engagementScore := calculateEngagementScore now p in
  let textLengthScore := calculateTextLengthScore wordCount in
  let contentQualityScore := calculateContentQuality fullText in
  let totalScore :=
    plusFin
      (plusFin (timesBy engagementScore Config.weights_engagement)
               (textLengthScore * Config.weights_textLength))
      (contentQualityScore * Config.weights_quality) in
  {| post := p;
     engagementScore := engagementScore;
     textLength := wordCount;
     contentQuality := contentQualityScore;
     totalScore := totalScore |}.

(** [(a, b) => b.totalScore - a.totalScore] *)
Definition byTotalScoreDescending (a b : PostScore) : Z :=
  signOfDifference b.(totalScore) a.(totalScore).

(** [Array.prototype.sort] with a comparator: a stable sort (ECMAScript
    2019). An element moves behind the elements that the comparator puts
    strictly before it, and stays in front of the others. *)
Section Sort.
Variable A : Type.
Variable compareFn : A -> A -> Z.

Fixpoint insertSorted (x : A) (l : list A) : list A :=
  match l with
  | [] => [x]
  | y :: l' =>
      if (0 <? compareFn x y)%Z then y :: insertSorted x l' else x :: l
  end.

Fixpoint sort (l : list A) : list A :=
  match l with
  | [] => []
  | x :: l' => insertSorted x (sort l')
  end.
End Sort.

(** [usablePosts.map(post => this.scorePost(post))]: the clock is read once
    for each post; [clock i] is the reading for the post at index [i]. *)
Fixpoint scoreFrom (clock : nat -> R) (i : nat) (posts : list RedditPost)
  : list PostScore :=
  match posts with
  | [] => []
  | p :: posts' => scorePost (clock i) p :: scoreFrom clock (S i) posts'
  end.

(** [selectBestPost(posts)]. The order that the sort leaves is the order
    of the code where the comparator is consistent and no rounding
    decides a comparison. Two things are outside of that. Total scores
    are compared here as real numbers, and binary64 rounding can make
    two totals differ that are equal as reals, or the reverse. And a
    total score that is [NaN] ties with every other total; unless all
    totals of the batch tie, the comparator is then not consistent, and
    the order that [Array.prototype.sort] leaves is
    implementation-defined. What is stated below about which of several
    posts is selected concerns batches where neither matters: posts
    whose scores are computed from the same values, and batches of two
    posts with a [NaN] total. *)
Definition selectBestPost (clock : nat -> R) (posts : list RedditPost)
  : option PostScore :=
  match posts with
  | [] => None
  | _ =>
      let usablePosts := filter hasUsableTextContent posts in
      match usablePosts with
      | [] => None
      | _ =>
          let scoredPosts := scoreFrom clock 0 usablePosts in
          match sort byTotalScoreDescending scoredPosts with
          | best :: _ => Some best
          | [] => None
          end
      end
  end.

End Analyzer.

(* ================================================================== *)
(** ** Exceptions, collaborator calls and their log *)
(* ================================================================== *)

Module Effects.

(** The values that the services throw. [NotAnError] stands for a thrown
    value that is no instance of [Error]. *)
#[warnings="-register-all"]
Inductive Thrown :=
| ElevenLabsError (message : string) (statusCode : Z)
| InworldError (message : string) (statusCode : Z)
| TTSServiceError (message : string) (code : string)
| StorageError (message : string) (code : string)
| OrchestrationError (message : string) (code : string) (cause : option Thrown)
| PlainError (message : string)
| NotAnError.

(** [error instanceof Error] *)
Definition isError (e : Thrown) : bool :=
  match e with NotAnError => false | _ => true end.

(** [error.message] of an [Error] *)
Definition messageOf (e : Thrown) : string :=
  match e with
  | ElevenLabsError m _ | InworldError m _ | TTSServiceError m _
  | StorageError m _ | OrchestrationError m _ _ | PlainError m => m
  | NotAnError => ""
  end.

(** [error instanceof Error ? error : new Error('Unknown error')] *)
Definition asError (e : Thrown) : Thrown :=
  if isError e then e else PlainError "Unknown error".

(** [error instanceof Error ? error : undefined] *)
Definition asCause (e : Thrown) : option Thrown :=
  if isError e then Some e else None.

Inductive Outcome (A : Type) :=
| Returned (a : A)
| Threw (e : Thrown).
Arguments Threw {A} e.

(** One entry for each call that leaves the services. *)
Inductive Event :=
| IsAvailable (provider : string)
| GenerateSpeech (provider : string) (text : string)
| Wait (delayMs : Z)
| SaveSelectedPost (redditPostId : string)
| GetSelectedPostByRedditId (redditPostId : string)
| UploadAudioFile (fileName : string) (contentType : string)
| SaveAudioFile (fileUrl : string) (durationSeconds : Z)
| LinkAudioToPost (postId : string) (audioFileId : string).

Section Monad.
(** The state of everything outside the services. *)
Variable W : Type.

Record State := { world : W; log : list Event }.

Definition M (A : Type) : Type := State -> Outcome A * State.

Definition ret {A} (a : A) : M A := fun st => (Returned a, st).

Definition throw {A} (e : Thrown) : M A := fun st => (Threw e, st).

Definition bind {A B} (c : M A) (k : A -> M B) : M B := fun st =>
  match c st with
  | (Returned a, st') => k a st'
  | (Threw e, st') => (Threw e, st')
  end.

(** [try { c } catch (error) { handler }] *)
Definition tryCatch {A} (c : M A) (handler : Thrown -> M A) : M A := fun st =>
  match c st with
  | (Returned a, st') => (Returned a, st')
  | (Threw e, st') => handler e st'
  end.

(** A call to a collaborator: a transition of the world, logged. *)
Definition call {A} (ev : Event) (f : W -> Outcome A * W) : M A := fun st =>
  let '(r, w') := f st.(world) in
  (r, {| world := w'; log := st.(log) ++ [ev] |}).

Definition getWorld : M W := fun st => (Returned st.(world), st).

(** The state after the calls [evs], which left the world as [w]. *)
Definition after (st : State) (evs : list Event) (w : W) : State :=
  {| world := w; log := st.(log) ++ evs |}.

End Monad.

Arguments ret {W A} a.
Arguments throw {W A} e.
Arguments getWorld {W}.

Declare Scope effects_scope.
Delimit Scope effects_scope with effects.
Notation "x <- c ;; k" := (bind c (fun x => k))
  (at level 61, c at next level, right associativity) : effects_scope.
Notation "c ;; k" := (bind c (fun _ => k))
  (at level 61, right associativity) : effects_scope.

End Effects.

(* ================================================================== *)
(** ** TTS service with provider failover ([TTSService]) *)
(* ================================================================== *)

Module TTS.
Import Effects.
Local Open Scope effects_scope.
Local Open Scope string_scope.
Local Open Scope Z_scope.

Definition Buffer := list Byte.byte.

Record AudioGenerationResult := {
  audioBuffer : Buffer;
  provider : string;
  voice : string;
  duration : Z;
  sizeBytes : nat
}.

(** [RETRY_CONFIG] *)
Definition maxAttempts : Z := 3.
Definition initialDelayMs : Z := 1000.
Definition maxDelayMs : Z := 5000.
Definition backoffMultiplier : Z := 2.

(** The delay that [waitWithBackoff(attempt)] waits for. *)
Definition backoffDelay (attempt : Z) : Z :=
  Z.min (initialDelayMs * backoffMultiplier ^ (attempt - 1)) maxDelayMs.

(** [error instanceof ElevenLabsError || error instanceof InworldError],
    with the status code the error carries. *)
Definition providerStatusCode (e : Thrown) : option Z :=
  match e with
  | ElevenLabsError _ statusCode | InworldError _ statusCode => Some statusCode
  | _ => None
  end.

Section Service.
Variable W : Type.

(** The [TTSProvider] interface. Each call is a transition of the world;
    [isAvailable] of the two providers never rejects. *)
Record TTSProvider := {
  name : string;
  generateSpeech : string -> W -> Outcome Buffer * W;
  isAvailable : W -> bool * W
}.

(** What the world becomes while a timer of the given delay runs. *)
Variable sleep : Z -> W -> W.

(** [ELEVENLABS_CONFIG.voiceId] and [INWORLD_CONFIG.character], read from
    the environment when the modules load. *)
Variable elevenLabsVoiceId : string.
Variable inworldCharacter : string.

Variable cleanMarkdown : string -> string.
Variable addPauses : string -> string.

Definition waitWithBackoff (attempt : Z) : M W unit :=
  let delay := backoffDelay attempt in
  call (Wait delay) (fun w => (Returned tt, sleep delay w)).

Definition callIsAvailable (p : TTSProvider) : M W bool :=
  call (IsAvailable p.(name))
       (fun w => let '(b, w') := p.(isAvailable) w in (Returned b, w')).

Definition callGenerateSpeech (p : TTSProvider) (text : string) : M W Buffer :=
  call (GenerateSpeech p.(name) text) (p.(generateSpeech) text).

(** The body of [for (let attempt = 1; attempt <= maxAttempts; attempt++)]
    for the attempts that are still to run, and the [throw] behind the
    loop. *)
Fixpoint retryFrom (p : TTSProvider) (text : string) (attempts : list Z)
  (lastError : option Thrown) : M W Buffer :=
  match attempts with
  | [] =>
      throw (match lastError with
             | Some e => e
             | None => PlainError "All retry attempts failed"
             end)
  | attempt :: later =>
      tryCatch
        (available <- callIsAvailable p ;;
         if negb available
         then throw (PlainError ("Provider " ++ p.(name) ++ " is not available"))
         else callGenerateSpeech p text)
        (fun error =>
           let lastError := Some (asError error) in
           let waitBeforeRetry :=
             (if attempt <? maxAttempts then waitWithBackoff attempt else ret tt) ;;
             retryFrom p text later lastError in
           match providerStatusCode error with
           | Some statusCode =>
               if (statusCode =? 401) || (statusCode =? 403) then throw error
               else if (statusCode =? 429) && (attempt <? maxAttempts) then
                 waitWithBackoff (attempt + 1) ;;
                 retryFrom p text later lastError
               else waitBeforeRetry
           | None => waitBeforeRetry
           end)
  end.

Definition attemptNumbers : list Z :=
  map Z.of_nat (seq 1 (Z.to_nat maxAttempts)).

Definition generateWithRetry (p : TTSProvider) (text : string) : M W Buffer :=
  retryFrom p text attemptNumbers None.

Definition voiceOf (p : TTSProvider) : string :=
  if String.eqb p.(name) "elevenlabs" then elevenLabsVoiceId
  else if String.eqb p.(name) "inworld" then inworldCharacter
  else "unknown".

(** [lastError?.message || 'Unknown error'] *)
Definition lastErrorMessage (lastError : option Thrown) : string :=
  match lastError with
  | Some e => if JS.truthy (messageOf e) then messageOf e else "Unknown error"
  | None => "Unknown error"
  end.

Definition allProvidersFailed (lastError : option Thrown) : Thrown :=
  TTSServiceError
    ("All TTS providers failed. Last error: " ++ lastErrorMessage lastError)
    "ALL_PROVIDERS_FAILED".

(** The body of [for (let i = 0; i < this.providers.length; i++)] for the
    providers that are still to be tried, and the [throw] behind it. *)
Fixpoint tryProviders (providers : list TTSProvider)
  (formatted : Formatter.FormattedText) (lastError : option Thrown)
  : M W AudioGenerationResult :=
  match providers with
  | [] => throw (allProvidersFailed lastError)
  | p :: later =>
      tryCatch
        (audio <- generateWithRetry p formatted.(Formatter.text) ;;
         ret {| audioBuffer := audio;
                provider := p.(name);
                voice := voiceOf p;
                duration := formatted.(Formatter.estimatedDuration);
                sizeBytes := List.length audio |})
        (fun error => tryProviders later formatted (Some (asError error)))
  end.

Definition generateAudio (providers : list TTSProvider)
  (post : Reddit.RedditPost) : M W AudioGenerationResult :=
  let formatted := Formatter.formatForTTS cleanMarkdown addPauses post in
  tryProviders providers formatted None.

End Service.

End TTS.

(* ================================================================== *)
(** ** Post-to-audio orchestrator ([PostToAudioOrchestrator]) *)
(* ================================================================== *)

Module Database.

Record AudioFile := {
  id : string;
  file_url : string;
  duration_seconds : Z;
  file_size_bytes : nat;
  format : string;
  tts_provider : string;
  voice_used : string;
  created_at : string
}.

Record SelectedPost := {
  sp_id : string;
  reddit_post_id : string;
  subreddit : string;
  title : string;
  selftext : option string;
  score : Z;
  num_comments : Z;
  author : string;
  created_utc : string;
  selection_score : Analyzer.number;
  audio_file_id : option string;
  sp_created_at : string
}.

End Database.

Module Orchestrator.
Import Effects.
Local Open Scope effects_scope.
Local Open Scope string_scope.

(** The result of [uploadAudioFile]. *)
Record AudioUploadResult := {
  audioFileId : string;
  publicUrl : string;
  fileSize : nat
}.

(** The argument of [saveAudioFile]. *)
Record AudioData := {
  fileUrl : string;
  durationSeconds : Z;
  fileSizeBytes : nat;
  format : string;
  ttsProvider : string;
  voiceUsed : string
}.

Record PostToAudioResult := {
  selectedPost : Database.SelectedPost;
  audioFile : Database.AudioFile;
  audioUrl : string;
  duration : Z
}.

(** [if (existingPost.audio_file_id)]: the reference is neither [null] nor
    the empty string. An identifier that the store issues is never empty. *)
Definition audioReferenceSet (p : Database.SelectedPost) : bool :=
  match p.(Database.audio_file_id) with
  | Some ref => JS.truthy ref
  | None => false
  end.

(** [error instanceof StorageError && error.code === 'DUPLICATE_POST'] *)
Definition isDuplicatePost (e : Thrown) : bool :=
  match e with
  | StorageError _ code => String.eqb code "DUPLICATE_POST"
  | _ => false
  end.

Definition isOrchestrationError (e : Thrown) : bool :=
  match e with OrchestrationError _ _ _ => true | _ => false end.

Definition decimal (z : Z) : string := NilZero.string_of_int (Z.to_int z).

Section Service.
Variable W : Type.

(** The methods of [supabaseStorage] that the orchestrator calls. *)
Record StorageService := {
  saveSelectedPost :
    Reddit.RedditPost -> Analyzer.PostScore -> W -> Outcome Database.SelectedPost * W;
  getSelectedPostByRedditId :
    string -> W -> Outcome (option Database.SelectedPost) * W;
  uploadAudioFile :
    TTS.Buffer -> string -> string -> W -> Outcome AudioUploadResult * W;
  saveAudioFile : AudioData -> W -> Outcome Database.AudioFile * W;
  linkAudioToPost : string -> string -> W -> Outcome unit * W
}.

Variable supabaseStorage : StorageService.

(** The TTS service: its providers, timer and configuration. *)
Variable providers : list (TTS.TTSProvider W).
Variable sleep : Z -> W -> W.
Variable elevenLabsVoiceId : string.
Variable inworldCharacter : string.
Variable cleanMarkdown : string -> string.
Variable addPauses : string -> string.

(** The clock: [clock w i] is the reading [Date.now() / 1000] for the
    post that the analyzer scores at index [i] when it starts in [w];
    [nowMs w] is [Date.now()]. *)
Variable clock : W -> nat -> R.
Variable nowMs : W -> Z.

Definition ttsGenerateAudio (post : Reddit.RedditPost)
  : M W TTS.AudioGenerationResult :=
  TTS.generateAudio sleep elevenLabsVoiceId inworldCharacter
    cleanMarkdown addPauses providers post.

Definition generateAudioFileName (postId provider : string) : M W string :=
  w <- getWorld ;;
  let timestamp := nowMs w in
  ret (postId ++ "_" ++ provider ++ "_" ++ decimal timestamp ++ ".mp3").

(** Step 2: save the selected post, or take up the record of an earlier
    run. *)
Definition saveOrReuse (bestPost : Analyzer.PostScore)
  : M W Database.SelectedPost :=
  let post := bestPost.(Analyzer.post) in
  tryCatch
    (call (SaveSelectedPost post.(Reddit.id))
          (supabaseStorage.(saveSelectedPost) post bestPost))
    (fun error =>
       if isDuplicatePost error then
         existingPost <-
           call (GetSelectedPostByRedditId post.(Reddit.id))
                (supabaseStorage.(getSelectedPostByRedditId) post.(Reddit.id)) ;;
         match existingPost with
         | None =>
             throw (OrchestrationError
                      "Post marked as duplicate but not found in database"
                      "POST_SAVE_FAILED" (Some error))
         | Some existingPost =>
             if audioReferenceSet existingPost then
               throw (OrchestrationError
                        "Post has already been processed with audio"
                        "POST_ALREADY_PROCESSED" (Some error))
             else ret existingPost
         end
       else
         throw (OrchestrationError "Failed to save selected post"
                  "POST_SAVE_FAILED" (asCause error))).

(** Steps 3 to 6: synthesis, upload, metadata, link. *)
Definition generateAndStore (bestPost : Analyzer.PostScore)
  (savedPost : Database.SelectedPost) : M W PostToAudioResult :=
  let post := bestPost.(Analyzer.post) in
  audioResult <-
    tryCatch (ttsGenerateAudio post)
      (fun error =>
         throw (OrchestrationError "Failed to generate audio" "TTS_FAILED"
                  (asCause error))) ;;
  fileName <- generateAudioFileName post.(Reddit.id) audioResult.(TTS.provider) ;;
  uploadResult <-
    tryCatch
      (call (UploadAudioFile fileName "audio/mpeg")
            (supabaseStorage.(uploadAudioFile)
               audioResult.(TTS.audioBuffer) fileName "audio/mpeg"))
      (fun error =>
         throw (OrchestrationError "Failed to upload audio file" "UPLOAD_FAILED"
                  (asCause error))) ;;
  audioFile <-
    tryCatch
      (call (SaveAudioFile uploadResult.(publicUrl) audioResult.(TTS.duration))
            (supabaseStorage.(saveAudioFile)
               {| fileUrl := uploadResult.(publicUrl);
                  durationSeconds := audioResult.(TTS.duration);
                  fileSizeBytes := uploadResult.(fileSize);
                  format := "mp3";
                  ttsProvider := audioResult.(TTS.provider);
                  voiceUsed := audioResult.(TTS.voice) |}))
      (fun error =>
         throw (OrchestrationError "Failed to save audio metadata"
                  "METADATA_SAVE_FAILED" (asCause error))) ;;
  tryCatch
    (call (LinkAudioToPost savedPost.(Database.sp_id) audioFile.(Database.id))
          (supabaseStorage.(linkAudioToPost)
             savedPost.(Database.sp_id) audioFile.(Database.id)))
    (fun error =>
       throw (OrchestrationError "Failed to link audio to post" "LINK_FAILED"
                (asCause error))) ;;
  ret {| selectedPost := savedPost;
         audioFile := audioFile;
         audioUrl := uploadResult.(publicUrl);
         duration := audioResult.(TTS.duration) |}.

(** The outer [catch]: an [OrchestrationError] passes, anything else is
    wrapped. *)
Definition rethrowOrWrap {A} (error : Thrown) : M W A :=
  if isOrchestrationError error then throw error
  else
    throw (OrchestrationError
             ("Unexpected error during processing: "
              ++ (if isError error then messageOf error else "Unknown error"))
             "UNEXPECTED_ERROR" (asCause error)).

Definition processPostToAudio (posts : list Reddit.RedditPost)
  : M W PostToAudioResult :=
  match posts with
  | [] =>
      throw (OrchestrationError "No posts provided for processing"
               "EMPTY_POSTS_ARRAY" None)
  | _ =>
      tryCatch
        (w <- getWorld ;;
         match Analyzer.selectBestPost (clock w) posts with
         | None =>
             throw (OrchestrationError "No valid posts found after analysis"
                      "NO_VALID_POSTS" None)
         | Some bestPost =>
             savedPost <- saveOrReuse bestPost ;;
             generateAndStore bestPost savedPost
         end)
        rethrowOrWrap
  end.

(** [post !== null && post.audio_file_id !== null] *)
Definition existsWithAudio (post : option Database.SelectedPost) : bool :=
  match post with
  | Some p =>
      match p.(Database.audio_file_id) with Some _ => true | None => false end
  | None => false
  end.

Definition isPostProcessed (redditPostId : string) : M W bool :=
  tryCatch
    (post <-
       call (GetSelectedPostByRedditId redditPostId)
            (supabaseStorage.(getSelectedPostByRedditId) redditPostId) ;;
     ret (existsWithAudio post))
    (fun _ => ret false).

End Service.

Arguments rethrowOrWrap {W A} error.

End Orchestrator.

(* ================================================================== *)
(** ** Reddit client: rate limiter and subreddit names *)
(* ================================================================== *)

Module RateLimiter.
Local Open Scope Z_scope.

Definition maxRequests : nat := 60.
Definition windowMs : Z := 60 * 1000.

(** [canMakeRequest()] at the clock reading [now]: the answer, and the
    timestamps that the limiter keeps. *)
Definition canMakeRequest (now : Z) (requests : list Z) : bool * list Z :=
  let requests := filter (fun time => now - time <? windowMs) requests in
  ((List.length requests <? maxRequests)%nat, requests).

(** [recordRequest()] at the clock reading [now] *)
Definition recordRequest (now : Z) (requests : list Z) : list Z :=
  requests ++ [now].

(** [Math.min(...requests)] for timestamps [first :: others] *)
Definition oldestRequest (first : Z) (others : list Z) : Z :=
  fold_left Z.min others first.

(** [getTimeUntilReset()]; the clock is read only when there are
    timestamps. *)
Definition getTimeUntilReset (now : Z) (requests : list Z) : Z :=
  match requests with
  | [] => 0
  | first :: others => Z.max 0 (windowMs - (now - oldestRequest first others))
  end.

End RateLimiter.

Module Subreddit.
Import JS.

Definition between (low high : nat) (c : ascii) : bool :=
  ((low <=? codeUnit c) && (codeUnit c <=? high))%nat.

(** The class [[a-z0-9_]]. *)
Definition isLowerNameChar (c : ascii) : bool :=
  between 97 122 c || between 48 57 c || (codeUnit c =? 95)%nat.

(** The class [[a-zA-Z0-9_]]. *)
Definition isNameChar (c : ascii) : bool :=
  isLowerNameChar c || between 65 90 c.

(** [toLowerCase] on a code unit below 256: the letters A-Z and the
    capital letters of Latin-1. *)
Definition toLowerChar (c : ascii) : ascii :=
  if between 65 90 c || between 192 214 c || between 216 222 c
  then ascii_of_nat (codeUnit c + 32)
  else c.

Definition toLowerCase (l : chars) : chars := map toLowerChar l.

(** [/^[a-zA-Z0-9_]{3,21}$/.test(subreddit)] *)
Definition validateSubredditFormat (subreddit : chars) : bool :=
  forallb isNameChar subreddit
  && (3 <=? List.length subreddit)%nat && (List.length subreddit <=? 21)%nat.

(** [replace(/^\/?(r\/)?/, '')]: one slash, then one [r/], each if it is
    there. *)
Definition stripPrefix (l : chars) : chars :=
  let l := match l with
           | "/"%char :: rest => rest
           | _ => l
           end in
  match l with
  | "r"%char :: "/"%char :: rest => rest
  | _ => l
  end.

Definition sanitizeSubreddit (subreddit : chars) : chars :=
  firstn 21 (filter isLowerNameChar (stripPrefix (toLowerCase subreddit))).

End Subreddit.

(* ================================================================== *)
(** ** Reddit client: authentication and requests
       ([RedditAuthService], [RedditClientService]) *)
(* ================================================================== *)

Module RedditService.
Import JS.
Local Open Scope string_scope.
Local Open Scope Z_scope.

(** The values that the two services throw. [OtherError] is any other
    instance of [Error] (what [fetch] or [json()] reject with),
    [NotAnError] a thrown value that is no instance of [Error]. *)
Inductive Failure :=
| RedditAPIError (message : string) (statusCode : Z)
| RedditAuthError (message : string) (statusCode : option Z)
| OtherError (message : string)
| NotAnError.

Definition isRedditAuthError (e : Failure) : bool :=
  match e with RedditAuthError _ _ => true | _ => false end.

(** [error instanceof RedditAPIError || error instanceof RedditAuthError] *)
Definition isRedditError (e : Failure) : bool :=
  match e with
  | RedditAPIError _ _ | RedditAuthError _ _ => true
  | _ => false
  end.

(** [error instanceof Error ? error.message : 'Unknown error'] *)
Definition messageOrUnknown (e : Failure) : string :=
  match e with
  | RedditAPIError m _ | RedditAuthError m _ | OtherError m => m
  | NotAnError => "Unknown error"
  end.

Inductive Result (A : Type) :=
| Ok (a : A)
| Fail (e : Failure).
Arguments Fail {A} e.

Record Request := {
  url : string;
  method : string;
  headers : list (string * string);
  body : option string
}.

(** A response of [fetch], with what [response.json()] resolves to or
    rejects with. The body has the type that the caller declares. *)
Record Response (T : Type) := {
  ok : bool;
  status : Z;
  statusText : string;
  json : Result T
}.

Record RedditTokenResponse := { access_token : string; expires_in : Z }.

Record CachedToken := { accessToken : string; expiresAt : Z }.

(** A post as the API sends it; [selftext] may be missing. *)
Record ApiPost := {
  api_id : string;
  api_title : string;
  api_author : string;
  api_score : Z;
  api_num_comments : Z;
  api_created_utc : R;
  api_selftext : option string;
  api_permalink : string;
  api_subreddit : string
}.

Record Child := { kind : string; child_data : ApiPost }.

(** [children] is [None] when the field is no array. *)
Record Listing := {
  children : option (list Child);
  after : option string;
  before : option string
}.

(** [data] is [None] when the field is missing or [null]. *)
Record RedditApiResponse := { data : option Listing }.

Record SubredditValidation := {
  isValid : bool;
  exists_ : bool;
  isPublic : bool;
  reason : option string
}.

Definition tokenBufferMs : Z := 300000.

Definition transformPost (apiPost : ApiPost) : Reddit.RedditPost :=
  {| Reddit.id := apiPost.(api_id);
     Reddit.title := apiPost.(api_title);
     Reddit.author := apiPost.(api_author);
     Reddit.score := apiPost.(api_score);
     Reddit.num_comments := apiPost.(api_num_comments);
     Reddit.created_utc := apiPost.(api_created_utc);
     Reddit.selftext := match apiPost.(api_selftext) with
                        | Some text => text
                        | None => ""
                        end;
     Reddit.permalink := apiPost.(api_permalink);
     Reddit.subreddit := apiPost.(api_subreddit) |}.

Definition sanitizeSubreddit (subreddit : string) : string :=
  toString (Subreddit.sanitizeSubreddit (ofString subreddit)).

Definition validateSubredditFormat (subreddit : string) : bool :=
  Subreddit.validateSubredditFormat (ofString subreddit).

(** The posts of a listing: the children of kind [t3], transformed, and
    at most [requestLimit] of them; [None] when the response has not the
    structure of a listing. *)
Definition postsOf (requestLimit : Z) (response : RedditApiResponse)
  : option (list Reddit.RedditPost) :=
  match response.(data) with
  | Some listing =>
      match listing.(children) with
      | Some children =>
          Some (firstn (Z.to_nat requestLimit)
                  (map (fun child => transformPost child.(child_data))
                     (filter (fun child => String.eqb child.(kind) "t3")
                        children)))
      | None => None
      end
  | None => None
  end.

(** [Math.min(Math.max(1, limit), 25)] for an integer [limit] *)
Definition requestLimit (limit : Z) : Z := Z.min (Z.max 1 limit) 25.

(** [Math.ceil(waitTime / 1000)] *)
Definition waitSeconds (waitTime : Z) : Z :=
  Binary64.ceil (PrimFloat.div (Binary64.ofZ waitTime) (Binary64.ofZ 1000)).

Section Service.
(** The state of everything outside the two services: the clock and the
    network. *)
Variable W : Type.

(** [Date.now()]: the reading, and the world after it. *)
Variable dateNow : W -> Z * W.

(** [fetch], for the three kinds of body that the services read. *)
Variable fetchToken : Request -> W -> Result (Response RedditTokenResponse) * W.
Variable fetchListing : Request -> W -> Result (Response RedditApiResponse) * W.
Variable fetchAbout : Request -> W -> Result (Response unit) * W.

(** The credentials, which the constructor found in the environment, and
    base64 encoding. *)
Variable clientId clientSecret userAgent : string.
Variable base64 : string -> string.

(** The two singletons and the world. *)
Record Client := {
  cachedToken : option CachedToken;
  requests : list Z;
  world : W
}.

Definition C (A : Type) : Type := Client -> Result A * Client.

Definition ret {A} (a : A) : C A := fun c => (Ok a, c).

Definition throw {A} (e : Failure) : C A := fun c => (Fail e, c).

Definition bind {A B} (m : C A) (k : A -> C B) : C B := fun c =>
  match m c with
  | (Ok a, c') => k a c'
  | (Fail e, c') => (Fail e, c')
  end.

Definition tryCatch {A} (m : C A) (handler : Failure -> C A) : C A := fun c =>
  match m c with
  | (Ok a, c') => (Ok a, c')
  | (Fail e, c') => handler e c'
  end.

Local Notation "x <- m ;; k" := (bind m (fun x => k))
  (at level 61, m at next level, right associativity).
Local Notation "m ;; k" := (bind m (fun _ => k))
  (at level 61, right associativity).

Definition readClock : C Z := fun c =>
  let '(now, w) := dateNow c.(world) in
  (Ok now, {| cachedToken := c.(cachedToken); requests := c.(requests); world := w |}).

Definition callFetch {T} (fetch : Request -> W -> Result (Response T) * W)
  (request : Request) : C (Response T) := fun c =>
  let '(r, w) := fetch request c.(world) in
  (r, {| cachedToken := c.(cachedToken); requests := c.(requests); world := w |}).

(** [await response.json()] *)
Definition readJson {T} (response : Response T) : C T := fun c =>
  (response.(json), c).

Definition setCachedToken (token : option CachedToken) : C unit := fun c =>
  (Ok tt, {| cachedToken := token; requests := c.(requests); world := c.(world) |}).

Definition setRequests (requests : list Z) : C unit := fun c =>
  (Ok tt, {| cachedToken := c.(cachedToken); requests := requests; world := c.(world) |}).

(** *** [RedditAuthService] *)

Definition tokenRequest : Request :=
  {| url := "https://www.reddit.com/api/v1/access_token";
     method := "POST";
     headers :=
       [("Authorization", "Basic " ++ base64 (clientId ++ ":" ++ clientSecret));
        ("Content-Type", "application/x-www-form-urlencoded");
        ("User-Agent", userAgent)];
     body := Some "grant_type=client_credentials" |}.

(** [this.cachedToken && this.cachedToken.expiresAt > Date.now() + 300000]:
    the token to return, if the test holds. The clock is read only when
    there is a cached token. *)
Definition validCachedToken : C (option string) := fun c =>
  match c.(cachedToken) with
  | Some token =>
      (now <- readClock ;;
       ret (if now + tokenBufferMs <? token.(expiresAt)
            then Some token.(accessToken) else None)) c
  | None => (Ok None, c)
  end.

(** The request for a new token: the [try] block of [getAccessToken] and
    its [catch]. *)
Definition requestToken : C string :=
  response <- callFetch fetchToken tokenRequest ;;
  if negb response.(ok) then
    throw (RedditAuthError
             ("Authentication failed: "
              ++ Orchestrator.decimal response.(status) ++ " "
              ++ response.(statusText))
             (Some response.(status)))
  else
    data <- readJson response ;;
    now <- readClock ;;
    setCachedToken
      (Some {| accessToken := data.(access_token);
               expiresAt := now + data.(expires_in) * 1000 |}) ;;
    ret data.(access_token).

Definition rethrowAuthError {A} (error : Failure) : C A :=
  if isRedditAuthError error then throw error
  else
    throw (RedditAuthError
             ("Network error during authentication: "
              ++ messageOrUnknown error) None).

Definition getAccessToken : C string :=
  cached <- validCachedToken ;;
  match cached with
  | Some token => ret token
  | None => tryCatch requestToken rethrowAuthError
  end.

Definition getAuthenticatedHeaders : C (list (string * string)) :=
  accessToken <- getAccessToken ;;
  ret [("Authorization", "Bearer " ++ accessToken);
       ("User-Agent", userAgent);
       ("Content-Type", "application/json")].

Definition clearTokenCache : C unit := setCachedToken None.

(** *** [RedditClientService] *)

Definition baseUrl : string := "https://oauth.reddit.com".

Definition limiterCanMakeRequest : C bool := fun c =>
  (now <- readClock ;;
   let '(can, kept) := RateLimiter.canMakeRequest now c.(requests) in
   setRequests kept ;;
   ret can) c.

Definition limiterRecordRequest : C unit := fun c =>
  (now <- readClock ;;
   setRequests (RateLimiter.recordRequest now c.(requests))) c.

Definition limiterGetTimeUntilReset : C Z := fun c =>
  match c.(requests) with
  | [] => (Ok 0, c)
  | _ => (now <- readClock ;;
          ret (RateLimiter.getTimeUntilReset now c.(requests))) c
  end.

(** The [try] block of [makeRequest] and its [catch]. *)
Definition sendRequest {T} (fetch : Request -> W -> Result (Response T) * W)
  (endpoint : string) : C T :=
  headers <- getAuthenticatedHeaders ;;
  response <-
    callFetch fetch
      {| url := baseUrl ++ endpoint; method := "GET";
         headers := headers; body := None |} ;;
  limiterRecordRequest ;;
  if negb response.(ok) then
    if response.(status) =? 404 then
      throw (RedditAPIError "Subreddit not found or is private" 404)
    else if response.(status) =? 403 then
      throw (RedditAPIError
               "Access forbidden - subreddit may be private or banned" 403)
    else if response.(status) =? 429 then
      throw (RedditAPIError "Rate limit exceeded" 429)
    else
      throw (RedditAPIError
               ("Reddit API error: "
                ++ Orchestrator.decimal response.(status) ++ " "
                ++ response.(statusText))
               response.(status))
  else readJson response.

(** [catch (error)] of the client: an error of the two services passes,
    anything else becomes a [RedditAPIError] with status 500. *)
Definition rethrowOrWrap {A} (prefix : string) (error : Failure) : C A :=
  if isRedditError error then throw error
  else throw (RedditAPIError (prefix ++ messageOrUnknown error) 500).

Definition rateLimitExceeded {A} : C A :=
  waitTime <- limiterGetTimeUntilReset ;;
  throw (RedditAPIError
           ("Rate limit exceeded. Please wait "
            ++ Orchestrator.decimal (waitSeconds waitTime) ++ " seconds.")
           429).

Definition makeRequest {T} (fetch : Request -> W -> Result (Response T) * W)
  (endpoint : string) : C T :=
  can <- limiterCanMakeRequest ;;
  if negb can then rateLimitExceeded
  else tryCatch (sendRequest fetch endpoint) (rethrowOrWrap "Network error: ").

Definition validateSubreddit (subreddit : string) : C SubredditValidation :=
  let sanitized := sanitizeSubreddit subreddit in
  if negb (validateSubredditFormat sanitized) then
    ret {| isValid := false; exists_ := false; isPublic := false;
           reason := Some "Invalid subreddit name format" |}
  else
    tryCatch
      (makeRequest fetchAbout ("/r/" ++ sanitized ++ "/about.json") ;;
       ret {| isValid := true; exists_ := true; isPublic := true;
              reason := None |})
      (fun error =>
         match error with
         | RedditAPIError message statusCode =>
             ret {| isValid := true;
                    exists_ := negb (statusCode =? 404);
                    isPublic := negb (statusCode =? 403)
                                && negb (statusCode =? 404);
                    reason := Some message |}
         | _ =>
             ret {| isValid := false; exists_ := false; isPublic := false;
                    reason := Some (messageOrUnknown error) |}
         end).

(** [fetchTopPosts(subreddit, limit)] for an integer [limit]. *)
Definition fetchTopPosts (subreddit : string) (limit : Z)
  : C (list Reddit.RedditPost) :=
  let sanitized := sanitizeSubreddit subreddit in
  if negb (validateSubredditFormat sanitized) then
    throw (RedditAPIError "Invalid subreddit name format" 400)
  else
    let requestLimit := requestLimit limit in
    tryCatch
      (response <-
         makeRequest fetchListing
           ("/r/" ++ sanitized ++ "/hot.json?limit="
            ++ Orchestrator.decimal requestLimit) ;;
       match postsOf requestLimit response with
       | Some posts => ret posts
       | None =>
           throw (RedditAPIError "Invalid response format from Reddit API" 500)
       end)
      (rethrowOrWrap "Failed to fetch posts: ").

(** [getRateLimitStatus()]: [canMakeRequest] and [timeUntilReset]. *)
Definition getRateLimitStatus : C (bool * Z) :=
  can <- limiterCanMakeRequest ;;
  timeUntilReset <- limiterGetTimeUntilReset ;;
  ret (can, timeUntilReset).

End Service.

End RedditService.

(* ================================================================== *)
(** ** The TTS providers ([ElevenLabsService], [InworldService]) and the
       set-up of the TTS service *)
(* ================================================================== *)

Module Providers.
Import Effects TTS.
Local Open Scope string_scope.
Local Open Scope Z_scope.

(** The argument of [JSON.stringify] in a request. *)
#[warnings="-register-all"]
Inductive Json :=
| JString (s : string)
| JNumber (q : Q)
| JBool (b : bool)
| JObject (fields : list (string * Json)).

Record HttpRequest := {
  url : string;
  method : string;
  headers : list (string * string);
  body : option Json
}.

(** The body of [/user/subscription], as far as it is read; a field is
    [None] when it is missing. *)
Record Subscription := {
  character_limit : option Z;
  character_count : option Z
}.

(** A response of [fetch], with what the three ways of reading its body
    resolve to or reject with. *)
Record HttpResponse := {
  ok : bool;
  status : Z;
  statusText : string;
  text : Outcome string;
  arrayBuffer : Outcome Buffer;
  json : Outcome Subscription
}.

(** The messages that the providers look for in a parsed error body:
    [detail?.message], [error?.message] and [message]; a field is [None]
    when it is missing. *)
Record ErrorBody := {
  detail_message : option string;
  error_message : option string;
  message : option string
}.

(** [a || b || fallback] for optional strings *)
Definition firstTruthy (a b : option string) (fallback : string) : string :=
  match a with
  | Some s => if JS.truthy s then s
              else match b with
                   | Some t => if JS.truthy t then t else fallback
                   | None => fallback
                   end
  | None => match b with
            | Some t => if JS.truthy t then t else fallback
            | None => fallback
            end
  end.

(** [process.env.NAME || fallback] *)
Definition envOr (value : option string) (fallback : string) : string :=
  match value with
  | Some s => if JS.truthy s then s else fallback
  | None => fallback
  end.

Record Env := {
  ELEVENLABS_API_KEY : option string;
  ELEVENLABS_VOICE_ID : option string;
  INWORLD_API_KEY : option string;
  INWORLD_WORKSPACE_ID : option string;
  INWORLD_CHARACTER_ID : option string
}.

Section Service.
Variable W : Type.
Variable fetch : HttpRequest -> W -> Outcome HttpResponse * W.

(** [JSON.parse(errorText)] with the reads of the message fields: [None]
    when parsing or reading throws. *)
Variable parseErrorBody : string -> option ErrorBody.

Variable env : Env.

(** [error instanceof Error ? error.message : 'Unknown error'] *)
Definition messageOrUnknown (e : Thrown) : string :=
  if isError e then messageOf e else "Unknown error".

(** *** ElevenLabs *)

Definition ELEVENLABS_voiceId : string :=
  envOr env.(ELEVENLABS_VOICE_ID) "21m00Tcm4TlvDq8ikWAM".

Definition ELEVENLABS_model : string := "eleven_monolingual_v1".

Definition ELEVENLABS_voiceSettings : Json :=
  JObject [("stability", JNumber (1 # 2));
           ("similarity_boost", JNumber (3 # 4));
           ("style", JNumber (1 # 2));
           ("use_speaker_boost", JBool true)].

Definition elevenLabsBaseUrl : string := "https://api.elevenlabs.io/v1".

Definition isElevenLabsError (e : Thrown) : bool :=
  match e with ElevenLabsError _ _ => true | _ => false end.

Definition elevenLabsSpeechRequest (apiKey text : string) : HttpRequest :=
  {| url := elevenLabsBaseUrl ++ "/text-to-speech/" ++ ELEVENLABS_voiceId;
     method := "POST";
     headers := [("Accept", "audio/mpeg");
                 ("Content-Type", "application/json");
                 ("xi-api-key", apiKey)];
     body := Some (JObject [("text", JString text);
                            ("model_id", JString ELEVENLABS_model);
                            ("voice_settings", ELEVENLABS_voiceSettings)]) |}.

(** The message of the error for a response that is not [ok]. *)
Definition elevenLabsErrorMessage (response : HttpResponse) (errorText : string)
  : string :=
  match parseErrorBody errorText with
  | Some errorJson =>
      firstTruthy errorJson.(detail_message) errorJson.(message)
        ("ElevenLabs API error: " ++ Orchestrator.decimal response.(status))
  | None => if JS.truthy errorText then errorText else response.(statusText)
  end.

(** [catch (error)] of [generateSpeech] *)
Definition elevenLabsRethrow (error : Thrown) : Thrown :=
  if isElevenLabsError error then error
  else ElevenLabsError ("Failed to generate speech: " ++ messageOrUnknown error) 500.

Definition elevenLabsGenerateSpeech (apiKey text : string) (w : W)
  : Outcome Buffer * W :=
  match fetch (elevenLabsSpeechRequest apiKey text) w with
  | (Returned response, w') =>
      if negb response.(ok) then
        match response.(Providers.text) with
        | Returned errorText =>
            (Threw (ElevenLabsError (elevenLabsErrorMessage response errorText)
                      response.(status)), w')
        | Threw error => (Threw (elevenLabsRethrow error), w')
        end
      else
        match response.(arrayBuffer) with
        | Returned audio => (Returned audio, w')
        | Threw error => (Threw (elevenLabsRethrow error), w')
        end
  | (Threw error, w') => (Threw (elevenLabsRethrow error), w')
  end.

Definition elevenLabsUserRequest (apiKey : string) : HttpRequest :=
  {| url := elevenLabsBaseUrl ++ "/user"; method := "GET";
     headers := [("xi-api-key", apiKey)]; body := None |}.

Definition elevenLabsIsAvailable (apiKey : string) (w : W) : bool * W :=
  match fetch (elevenLabsUserRequest apiKey) w with
  | (Returned response, w') => (response.(ok), w')
  | (Threw _, w') => (false, w')
  end.

(** [value || 0] for an optional number *)
Definition orZero (value : option Z) : Z :=
  match value with Some n => n | None => 0 end.

Definition elevenLabsGetQuotaRemaining (apiKey : string) (w : W) : Z * W :=
  match fetch {| url := elevenLabsBaseUrl ++ "/user/subscription";
                 method := "GET";
                 headers := [("xi-api-key", apiKey)]; body := None |} w with
  | (Returned response, w') =>
      if negb response.(ok) then (-1, w')
      else
        match response.(json) with
        | Returned data =>
            let characterLimit := orZero data.(character_limit) in
            let characterCount := orZero data.(character_count) in
            (Z.max 0 (characterLimit - characterCount), w')
        | Threw _ => (-1, w')
        end
  | (Threw _, w') => (-1, w')
  end.

Definition elevenLabsService (apiKey : string) : TTSProvider W :=
  {| name := "elevenlabs";
     generateSpeech := elevenLabsGenerateSpeech apiKey;
     isAvailable := elevenLabsIsAvailable apiKey |}.

(** The value of a variable of the environment that is set and not
    empty. *)
Definition present (value : option string) : option string :=
  match value with
  | Some s => if JS.truthy s then Some s else None
  | None => None
  end.

(** [getElevenLabs()]: the constructor needs the key. *)
Definition getElevenLabs : Outcome (TTSProvider W) :=
  match present env.(ELEVENLABS_API_KEY) with
  | Some apiKey => Returned (elevenLabsService apiKey)
  | None => Threw (PlainError "ELEVENLABS_API_KEY environment variable is required")
  end.

(** *** Inworld *)

Definition INWORLD_character : string :=
  envOr env.(INWORLD_CHARACTER_ID) "narrator_01".

Definition INWORLD_emotions : Json :=
  JObject [("neutral", JNumber (7 # 10)); ("interested", JNumber (3 # 10))].

Definition inworldBaseUrl : string := "https://api.inworld.ai/v1".

Definition isInworldError (e : Thrown) : bool :=
  match e with InworldError _ _ => true | _ => false end.

Definition inworldSpeechRequest (apiKey workspaceId text : string) : HttpRequest :=
  {| url := inworldBaseUrl ++ "/workspaces/" ++ workspaceId
            ++ "/characters/" ++ INWORLD_character ++ "/tts";
     method := "POST";
     headers := [("Content-Type", "application/json");
                 ("Authorization", "Bearer " ++ apiKey)];
     body := Some (JObject [("text", JString text);
                            ("emotions", INWORLD_emotions);
                            ("output_format", JString "mp3")]) |}.

Definition inworldErrorMessage (response : HttpResponse) (errorText : string)
  : string :=
  match parseErrorBody errorText with
  | Some errorJson =>
      firstTruthy errorJson.(error_message) errorJson.(message)
        ("Inworld API error: " ++ Orchestrator.decimal response.(status))
  | None => if JS.truthy errorText then errorText else response.(statusText)
  end.

Definition inworldRethrow (error : Thrown) : Thrown :=
  if isInworldError error then error
  else InworldError ("Failed to generate speech: " ++ messageOrUnknown error) 500.

Definition inworldGenerateSpeech (apiKey workspaceId text : string) (w : W)
  : Outcome Buffer * W :=
  match fetch (inworldSpeechRequest apiKey workspaceId text) w with
  | (Returned response, w') =>
      if negb response.(ok) then
        match response.(Providers.text) with
        | Returned errorText =>
            (Threw (InworldError (inworldErrorMessage response errorText)
                      response.(status)), w')
        | Threw error => (Threw (inworldRethrow error), w')
        end
      else
        match response.(arrayBuffer) with
        | Returned audio => (Returned audio, w')
        | Threw error => (Threw (inworldRethrow error), w')
        end
  | (Threw error, w') => (Threw (inworldRethrow error), w')
  end.

Definition inworldWorkspaceRequest (apiKey workspaceId : string) : HttpRequest :=
  {| url := inworldBaseUrl ++ "/workspaces/" ++ workspaceId;
     method := "GET";
     headers := [("Authorization", "Bearer " ++ apiKey)];
     body := None |}.

Definition inworldIsAvailable (apiKey workspaceId : string) (w : W) : bool * W :=
  match fetch (inworldWorkspaceRequest apiKey workspaceId) w with
  | (Returned response, w') => (response.(ok), w')
  | (Threw _, w') => (false, w')
  end.

Definition inworldGetQuotaRemaining (w : W) : Z * W := (-1, w).

Definition inworldService (apiKey workspaceId : string) : TTSProvider W :=
  {| name := "inworld";
     generateSpeech := inworldGenerateSpeech apiKey workspaceId;
     isAvailable := inworldIsAvailable apiKey workspaceId |}.

Definition getInworld : Outcome (TTSProvider W) :=
  match present env.(INWORLD_API_KEY) with
  | None => Threw (PlainError "INWORLD_API_KEY environment variable is required")
  | Some apiKey =>
      match present env.(INWORLD_WORKSPACE_ID) with
      | None =>
          Threw (PlainError "INWORLD_WORKSPACE_ID environment variable is required")
      | Some workspaceId => Returned (inworldService apiKey workspaceId)
      end
  end.

(** *** [TTSService.initializeProviders] *)

(** [try { this.providers.push(get()) } catch { console.warn(...) }] *)
Definition pushIfAvailable (get : Outcome (TTSProvider W))
  (providers : list (TTSProvider W)) : list (TTSProvider W) :=
  match get with
  | Returned provider => providers ++ [provider]
  | Threw _ => providers
  end.

Definition initializeProviders : Outcome (list (TTSProvider W)) :=
  let providers := pushIfAvailable getElevenLabs [] in
  let providers := pushIfAvailable getInworld providers in
  match providers with
  | [] =>
      Threw (TTSServiceError
               "No TTS providers configured. Please set ELEVENLABS_API_KEY or INWORLD_API_KEY."
               "NO_PROVIDERS")
  | _ => Returned providers
  end.

(** [ttsService.generateAudio(post)] of the service that the constructor
    set up with [providers]. *)
Definition generateAudio (sleep : Z -> W -> W)
  (cleanMarkdown addPauses : string -> string)
  (providers : list (TTSProvider W)) (post : Reddit.RedditPost)
  : M W AudioGenerationResult :=
  TTS.generateAudio sleep ELEVENLABS_voiceId INWORLD_character
    cleanMarkdown addPauses providers post.

End Service.

End Providers.

(* ================================================================== *)
(** ** The store ([SupabaseStorageService]) *)
(* ================================================================== *)

Module SupabaseStorage.
Import Effects.
Local Open Scope string_scope.

(** The [error] of an answer of the Supabase client. *)
Record PostgrestError := { error_message : string; error_code : string }.

(** [{ data, error }] *)
Record Reply (A : Type) := {
  reply_data : option A;
  reply_error : option PostgrestError
}.

(** What a call of the client library rejects with: an [Error] with its
    message, or another value. The library does not throw the errors of
    the services. *)
Inductive Rejection :=
| RejectedError (message : string)
| RejectedValue.

Inductive Answer (A : Type) :=
| Answered (a : A)
| Rejected (r : Rejection).
Arguments Rejected {A} r.

(** [error instanceof Error ? error.message : 'Unknown error'] *)
Definition rejectionMessage (r : Rejection) : string :=
  match r with
  | RejectedError message => message
  | RejectedValue => "Unknown error"
  end.

Record SelectedPostInsert := {
  reddit_post_id : string;
  subreddit : string;
  title : string;
  selftext : option string;
  score : Z;
  num_comments : Z;
  author : string;
  created_utc : string;
  selection_score : Analyzer.number;
  audio_file_id : option string
}.

Record AudioFileInsert := {
  file_url : string;
  duration_seconds : Z;
  file_size_bytes : nat;
  format : string;
  tts_provider : string;
  voice_used : string
}.

Record UploadData := { path : string }.

Record UploadOptions := { contentType : string; upsert : bool }.

Definition AUDIO_BUCKET : string := "audio_files".

Definition missingSecretKey : Thrown :=
  PlainError "Missing SUPABASE_SECRET_PUBLISHABLE_KEY environment variable".

Section Service.
Variable W : Type.

(** The queries that the service sends through the client. *)
Record SupabaseClient := {
  insertSelectedPost :
    SelectedPostInsert -> W -> Answer (Reply Database.SelectedPost) * W;
  insertAudioFile :
    AudioFileInsert -> W -> Answer (Reply Database.AudioFile) * W;
  updateAudioFileId :
    string -> string -> W -> Answer (option PostgrestError) * W;
  upload :
    string -> string -> TTS.Buffer -> UploadOptions -> W
    -> Answer (Reply UploadData) * W;
  getPublicUrl : string -> string -> W -> Answer (option string);
  selectByRedditPostId :
    string -> W -> Answer (Reply Database.SelectedPost) * W
}.

(** [createServerClient()]: [None] when the secret key is not in the
    environment, and the call throws. *)
Variable createServerClient : option SupabaseClient.

(** [new Date(ms).toISOString()]: [None] when the date is not valid, and
    the call throws a [RangeError]. *)
Variable toISOString : R -> option string.

Definition invalidTime : Rejection := RejectedError "Invalid time value".

(** [catch (error)] of a method, for what the client library rejected
    with. *)
Definition wrapRejection (prefix code : string) (r : Rejection) : Thrown :=
  StorageError (prefix ++ rejectionMessage r) code.

(** The row that [saveSelectedPost] inserts; [created] is the creation
    time as an ISO string. *)
Definition postData (post : Reddit.RedditPost) (score : Analyzer.PostScore)
  (created : string) : SelectedPostInsert :=
  {| reddit_post_id := post.(Reddit.id);
     subreddit := post.(Reddit.subreddit);
     title := post.(Reddit.title);
     selftext := if JS.truthy post.(Reddit.selftext)
                 then Some post.(Reddit.selftext) else None;
     score := post.(Reddit.score);
     num_comments := post.(Reddit.num_comments);
     author := post.(Reddit.author);
     created_utc := created;
     selection_score := score.(Analyzer.totalScore);
     audio_file_id := None |}.

Definition saveSelectedPost (post : Reddit.RedditPost) (score : Analyzer.PostScore)
  (w : W) : Outcome Database.SelectedPost * W :=
  match createServerClient with
  | None => (Threw missingSecretKey, w)
  | Some supabase =>
      match toISOString (post.(Reddit.created_utc) * 1000)%R with
      | None => (Threw (wrapRejection "Database error: " "DB_ERROR" invalidTime), w)
      | Some created =>
          match supabase.(insertSelectedPost) (postData post score created) w with
          | (Answered reply, w') =>
              match reply.(reply_error) with
              | Some error =>
                  if String.eqb error.(error_code) "23505" then
                    (Threw (StorageError
                              ("Post " ++ post.(Reddit.id)
                               ++ " has already been selected")
                              "DUPLICATE_POST"), w')
                  else
                    (Threw (StorageError
                              ("Failed to save selected post: "
                               ++ error.(error_message))
                              "DB_INSERT_ERROR"), w')
              | None =>
                  match reply.(reply_data) with
                  | Some data => (Returned data, w')
                  | None =>
                      (Threw (StorageError "No data returned from insert"
                                "NO_DATA"), w')
                  end
              end
          | (Rejected r, w') =>
              (Threw (wrapRejection "Database error: " "DB_ERROR" r), w')
          end
      end
  end.

Definition saveAudioFile (audioData : Orchestrator.AudioData) (w : W)
  : Outcome Database.AudioFile * W :=
  match createServerClient with
  | None => (Threw missingSecretKey, w)
  | Some supabase =>
      let fileData :=
        {| file_url := audioData.(Orchestrator.fileUrl);
           duration_seconds := audioData.(Orchestrator.durationSeconds);
           file_size_bytes := audioData.(Orchestrator.fileSizeBytes);
           format := audioData.(Orchestrator.format);
           tts_provider := audioData.(Orchestrator.ttsProvider);
           voice_used := audioData.(Orchestrator.voiceUsed) |} in
      match supabase.(insertAudioFile) fileData w with
      | (Answered reply, w') =>
          match reply.(reply_error) with
          | Some error =>
              (Threw (StorageError
                        ("Failed to save audio file: " ++ error.(error_message))
                        "DB_INSERT_ERROR"), w')
          | None =>
              match reply.(reply_data) with
              | Some data => (Returned data, w')
              | None =>
                  (Threw (StorageError "No data returned from insert" "NO_DATA"),
                   w')
              end
          end
      | (Rejected r, w') =>
          (Threw (wrapRejection "Database error: " "DB_ERROR" r), w')
      end
  end.

Definition linkAudioToPost (postId audioFileId : string) (w : W)
  : Outcome unit * W :=
  match createServerClient with
  | None => (Threw missingSecretKey, w)
  | Some supabase =>
      match supabase.(updateAudioFileId) postId audioFileId w with
      | (Answered (Some error), w') =>
          (Threw (StorageError
                    ("Failed to link audio to post: " ++ error.(error_message))
                    "DB_UPDATE_ERROR"), w')
      | (Answered None, w') => (Returned tt, w')
      | (Rejected r, w') =>
          (Threw (wrapRejection "Database error: " "DB_ERROR" r), w')
      end
  end.

Definition uploadAudioFile (audioBuffer : TTS.Buffer)
  (fileName contentType : string) (w : W)
  : Outcome Orchestrator.AudioUploadResult * W :=
  match createServerClient with
  | None => (Threw missingSecretKey, w)
  | Some supabase =>
      match supabase.(upload) AUDIO_BUCKET fileName audioBuffer
              {| contentType := contentType; upsert := false |} w with
      | (Answered reply, w') =>
          match reply.(reply_error) with
          | Some uploadError =>
              (Threw (StorageError
                        ("Failed to upload audio file: "
                         ++ uploadError.(error_message))
                        "UPLOAD_ERROR"), w')
          | None =>
              match reply.(reply_data) with
              | None =>
                  (Threw (StorageError "No upload data returned" "NO_DATA"), w')
              | Some uploadData =>
                  match supabase.(getPublicUrl) AUDIO_BUCKET uploadData.(path) w' with
                  | Answered (Some publicUrl) =>
                      (Returned
                         {| Orchestrator.audioFileId := uploadData.(path);
                            Orchestrator.publicUrl := publicUrl;
                            Orchestrator.fileSize := List.length audioBuffer |},
                       w')
                  | Answered None =>
                      (Threw (StorageError "Failed to get public URL" "URL_ERROR"),
                       w')
                  | Rejected r =>
                      (Threw (wrapRejection "Storage error: " "STORAGE_ERROR" r),
                       w')
                  end
              end
          end
      | (Rejected r, w') =>
          (Threw (wrapRejection "Storage error: " "STORAGE_ERROR" r), w')
      end
  end.

Definition getSelectedPostByRedditId (redditPostId : string) (w : W)
  : Outcome (option Database.SelectedPost) * W :=
  match createServerClient with
  | None => (Threw missingSecretKey, w)
  | Some supabase =>
      match supabase.(selectByRedditPostId) redditPostId w with
      | (Answered reply, w') =>
          match reply.(reply_error) with
          | Some error =>
              if String.eqb error.(error_code) "PGRST116" then (Returned None, w')
              else
                (Threw (StorageError
                          ("Failed to get selected post: "
                           ++ error.(error_message))
                          "DB_SELECT_ERROR"), w')
          | None => (Returned reply.(reply_data), w')
          end
      | (Rejected r, w') =>
          (Threw (wrapRejection "Database error: " "DB_ERROR" r), w')
      end
  end.

(** The singleton [supabaseStorage], as the orchestrator uses it. *)
Definition supabaseStorage : Orchestrator.StorageService W :=
  {| Orchestrator.saveSelectedPost := saveSelectedPost;
     Orchestrator.getSelectedPostByRedditId := getSelectedPostByRedditId;
     Orchestrator.uploadAudioFile := uploadAudioFile;
     Orchestrator.saveAudioFile := saveAudioFile;
     Orchestrator.linkAudioToPost := linkAudioToPost |}.

End Service.

End SupabaseStorage.

(* ================================================================== *)
(** ** The rate limiter in use *)
(* ================================================================== *)

Module LimiterUse.
Import RateLimiter.
Local Open Scope Z_scope.

(** One call of [makeRequest], as the limiter sees it: the check at the
    clock reading [checked] and, when the check lets the request through
    and the request is answered, the record at the reading [answered].
    A request that is refused, or that is not answered, records nothing. *)
Record Use := { checked : Z; answered : option Z }.

(** The timestamps that the limiter holds after the call. *)
Definition useLimiter (use : Use) (requests : list Z) : list Z :=
  let '(can, kept) := canMakeRequest use.(checked) requests in
  if can then
    match use.(answered) with
    | Some now => recordRequest now kept
    | None => kept
    end
  else kept.

(** The timestamp that the call records, if any. *)
Definition recorded (use : Use) (requests : list Z) : list Z :=
  if fst (canMakeRequest use.(checked) requests) then
    match use.(answered) with
    | Some now => [now]
    | None => []
    end
  else [].

(** Calls made one after the other: the limiter after them, and all the
    timestamps that were recorded, oldest first. *)
Fixpoint useAll (uses : list Use) (requests history : list Z)
  : list Z * list Z :=
  match uses with
  | [] => (requests, history)
  | use :: later =>
      useAll later (useLimiter use requests) (history ++ recorded use requests)
  end.

(** The clock does not run backwards over the calls. *)
Fixpoint chronological (since : Z) (uses : list Use) : Prop :=
  match uses with
  | [] => True
  | use :: later =>
      since <= use.(checked)
      /\ match use.(answered) with
         | Some now => use.(checked) <= now /\ chronological now later
         | None => chronological use.(checked) later
         end
  end.

(** The timestamps of [history] in the window of 60 seconds from
    [start]. *)
Definition inWindow (start : Z) (history : list Z) : list Z :=
  filter (fun time => (start <=? time) && (time <? start + windowMs)) history.

End LimiterUse.

(* ================================================================== *)
(** ** The rewriting passes of the text formatter
       ([cleanMarkdown], [addPauses]) *)
(* ================================================================== *)

Module TextFormatter.
Import JS Regex.
Local Open Scope nat_scope.

Definition isChar (a c : ascii) : bool := Ascii.eqb a c.
Definition isNot (a c : ascii) : bool := negb (Ascii.eqb a c).
Definition notSpace (c : ascii) : bool := negb (isSpace c).

(** The class [\d]. *)
Definition isDigit (c : ascii) : bool :=
  ((48 <=? codeUnit c) && (codeUnit c <=? 57))%nat.

(** The characters behind which [^] matches under the flag [m]. *)
Definition isLineTerminator (c : ascii) : bool :=
  ((codeUnit c =? 10) || (codeUnit c =? 13))%nat.

(** A rule of [s.replace(/re/g, ...)]: for the rest of the string from
    some position on, how long the match that starts there is and what
    replaces it, if there is a match. The flag says whether the position
    is the start of a line. No expression below matches the empty
    string. *)
Definition rule := bool -> chars -> option (nat * chars).

(** [s.replace(/re/g, ...)]: the matches are replaced from left to
    right, each search resuming where the previous match ended. [skip]
    counts the characters of the current match that are still to be
    passed. *)
Fixpoint replaceFrom (r : rule) (skip : nat) (atLineStart : bool) (l : chars)
  : chars :=
  match l with
  | [] => []
  | c :: l' =>
      match skip with
      | S k => replaceFrom r k (isLineTerminator c) l'
      | O =>
          match r atLineStart l with
          | Some (S n, replacement) =>
              replacement ++ replaceFrom r n (isLineTerminator c) l'
          | _ => c :: replaceFrom r 0 (isLineTerminator c) l'
          end
      end
  end.

Definition replaceAll (r : rule) (l : chars) : chars := replaceFrom r 0 true l.

(** A run of at least one character of a class at the head of [l]. *)
Definition run (p : ascii -> bool) (l : chars) : option chars :=
  match takeWhile p l with
  | [] => None
  | found => Some found
  end.

(** [[^\s]+\.[^\s]+] on a whole run of characters that are not
    whitespace: there is a dot with a character before it and a
    character behind it. *)
Definition hasInnerDot (g : chars) : bool :=
  match g with
  | [] => false
  | _ :: g' => existsb (isChar ".") (removelast g')
  end.

(** [/https?:\/\/(www\.)?([^\s]+\.[^\s]+)/g], replaced by
    [domain.split('/')[0]]. The match runs to the next whitespace; the
    prefix [www.] is left out of the domain when a domain remains
    without it. *)
Definition urlRule : rule := fun _ l =>
  let behindScheme :=
    if startsWith (ofString "https://") l then Some (8%nat, skipn 8 l)
    else if startsWith (ofString "http://") l then Some (7%nat, skipn 7 l)
    else None in
  match behindScheme with
  | Some (n, rest) =>
      let found := takeWhile notSpace rest in
      let domain :=
        if startsWith (ofString "www.") found && hasInnerDot (skipn 4 found)
        then Some (skipn 4 found)
        else if hasInnerDot found then Some found
        else None in
      match domain with
      | Some domain =>
          Some (n + List.length found, takeWhile (isNot "/") domain)
      | None => None
      end
  | None => None
  end.

(** [/d([^x]+)d/g] replaced by ['$1'], for a delimiter [d] that consists
    of the character [x]. *)
Definition delimitedRule (delimiter : chars) (x : ascii) : rule := fun _ l =>
  if startsWith delimiter l then
    let rest := skipn (List.length delimiter) l in
    match run (isNot x) rest with
    | Some inner =>
        if startsWith delimiter (skipn (List.length inner) rest)
        then Some (List.length delimiter + List.length inner
                   + List.length delimiter, inner)
        else None
    | None => None
    end
  else None.

(** [/\^([^\s]+)/g] replaced by ['$1'] *)
Definition superscriptRule : rule := fun _ l =>
  match l with
  | "^"%char :: rest =>
      match run notSpace rest with
      | Some inner => Some (S (List.length inner), inner)
      | None => None
      end
  | _ => None
  end.

(** [/^[\s]*[-*+]\s+/gm] replaced by [''] *)
Definition unorderedListRule : rule := fun atLineStart l =>
  if atLineStart then
    let indent := takeWhile isSpace l in
    match skipn (List.length indent) l with
    | marker :: rest =>
        if isChar "-" marker || isChar "*" marker || isChar "+" marker then
          match run isSpace rest with
          | Some gap => Some (List.length indent + 1 + List.length gap, [])
          | None => None
          end
        else None
    | [] => None
    end
  else None.

(** [/^[\s]*\d+\.\s+/gm] replaced by [''] *)
Definition orderedListRule : rule := fun atLineStart l =>
  if atLineStart then
    let indent := takeWhile isSpace l in
    match run isDigit (skipn (List.length indent) l) with
    | Some digits =>
        match skipn (List.length indent + List.length digits) l with
        | "."%char :: rest =>
            match run isSpace rest with
            | Some gap =>
                Some (List.length indent + List.length digits + 1
                      + List.length gap, [])
            | None => None
            end
        | _ => None
        end
    | None => None
    end
  else None.

(** [/^>\s+/gm] replaced by [''] *)
Definition blockquoteRule : rule := fun atLineStart l =>
  if atLineStart then
    match l with
    | ">"%char :: rest =>
        match run isSpace rest with
        | Some gap => Some (S (List.length gap), [])
        | None => None
        end
    | _ => None
    end
  else None.

(** [/\s+/g] replaced by [' '] *)
Definition whitespaceRule : rule := fun _ l =>
  match run isSpace l with
  | Some gap => Some (List.length gap, [" "%char])
  | None => None
  end.

(** [/[#|]/g] replaced by [''] *)
Definition specialCharacterRule : rule := fun _ l =>
  match l with
  | c :: _ => if isChar "#" c || isChar "|" c then Some (1%nat, []) else None
  | [] => None
  end.

Definition cleanMarkdownChars (text : chars) : chars :=
  let cleaned := text in
  let cleaned := replaceAll urlRule cleaned in
  let cleaned := replaceAll (delimitedRule (ofString "**") "*") cleaned in
  let cleaned := replaceAll (delimitedRule (ofString "*") "*") cleaned in
  let cleaned := replaceAll (delimitedRule (ofString "~~") "~") cleaned in
  let cleaned := replaceAll superscriptRule cleaned in
  let cleaned := replaceAll (delimitedRule (ofString "`") "`") cleaned in
  let cleaned := replaceAll unorderedListRule cleaned in
  let cleaned := replaceAll orderedListRule cleaned in
  let cleaned := replaceAll blockquoteRule cleaned in
  let cleaned := replaceAll whitespaceRule cleaned in
  let cleaned := replaceAll specialCharacterRule cleaned in
  trim cleaned.

Definition cleanMarkdown (text : string) : string :=
  toString (cleanMarkdownChars (ofString text)).

(** [/\n\n+/g] replaced by ['.\n\n'] *)
Definition paragraphRule : rule := fun _ l =>
  let breaks := takeWhile isNewline l in
  if 2 <=? List.length breaks
  then Some (List.length breaks, ["."%char; ascii_of_nat 10; ascii_of_nat 10])
  else None.

(** [/([.!?])\s+/g] replaced by ['$1 '] *)
Definition sentenceRule : rule := fun _ l =>
  match l with
  | c :: rest =>
      if isSentenceEnd c then
        match run isSpace rest with
        | Some gap => Some (S (List.length gap), [c; " "%char])
        | None => None
        end
      else None
  | [] => None
  end.

Definition addPausesChars (text : chars) : chars :=
  let formatted := text in
  let formatted := replaceAll paragraphRule formatted in
  let formatted := replaceAll sentenceRule formatted in
  formatted.

Definition addPauses (text : string) : string :=
  toString (addPausesChars (ofString text)).

(** [textFormatter.formatForTTS(post)] *)
Definition formatForTTS (post : Reddit.RedditPost) : Formatter.FormattedText :=
  Formatter.formatForTTS cleanMarkdown addPauses post.

End TextFormatter.

(* ================================================================== *)
(** ** Properties of the string functions *)
(* ================================================================== *)

Module JSFacts.
Import JS.

Lemma ofString_toString (l : chars) : ofString (toString l) = l.
Proof. apply list_ascii_of_string_of_list_ascii. Qed.











End JSFacts.

Module RegexFacts.
Import JS Regex.

Example matchAll_url :
  map toString (matchAll url (ofString "see http://a.b/c and https://d.e now https:// x"))
  = ["http://a.b/c"; "https://d.e"]%string.
Proof. reflexivity. Qed.

Example splitBy_blankLine :
  map toString
    (splitBy blankLine
       (ofString (String (ascii_of_nat 10) "a"
                  ++ String (ascii_of_nat 10) (String " "%char (String (ascii_of_nat 10) ""))
                  ++ " b" ++ String (ascii_of_nat 10) "c")))
  = [String (ascii_of_nat 10) "a"; " b" ++ String (ascii_of_nat 10) "c"]%string.
Proof. reflexivity. Qed.

End RegexFacts.

(* ================================================================== *)
(** ** Properties of the formatter *)
(* ================================================================== *)

Module FormatterFacts.
Import Reddit Formatter.


Example countWords_title_only :
  countWords "Just a title here" = 4%nat /\ countWords "" = 1%nat.
Proof. split; reflexivity. Qed.

(** binary64 rounding is visible in the estimate: 155 words give 63
    seconds, one more than the exact quotient 155*60/150 = 62. *)
Example estimateDuration_155 :
  estimateDuration 155 = 63%Z /\ estimateDuration 150 = 60%Z.
Proof. split; vm_compute; reflexivity. Qed.

(** *** The word count after truncation *)













End FormatterFacts.

(* ================================================================== *)
(** ** Properties of the monad *)
(* ================================================================== *)

Module EffectsFacts.
Import Effects.

Section Monad.
Variable W : Type.

Lemma after_after (st : State W) evs1 (w1 : W) evs2 (w2 : W) :
  after (after st evs1 w1) evs2 w2 = after st (evs1 ++ evs2) w2.
Proof. unfold after; simpl. now rewrite app_assoc. Qed.

Lemma call_returns {A} ev (f : W -> Outcome A * W) (st : State W) r w' :
  f st.(world) = (r, w') -> call ev f st = (r, after st [ev] w').
Proof. unfold call, after. now intros ->. Qed.

End Monad.

End EffectsFacts.

(* ================================================================== *)
(** ** Properties of the analyzer *)
(* ================================================================== *)

Module AnalyzerFacts.
Import Reddit Analyzer.
Local Open Scope R_scope.

(** *** The order of scores *)

(** [x < y] and [x <= y] as binary64 compares them: nothing compares with
    [NaN]. *)
Definition numLt (x y : number) : Prop :=
  match x, y with
  | Fin a, Fin b => a < b
  | NegInfinity, Fin _ => True
  | _, _ => False
  end.

Definition numLe (x y : number) : Prop :=
  match x, y with
  | Fin a, Fin b => a <= b
  | NegInfinity, Fin _ | NegInfinity, NegInfinity => True
  | _, _ => False
  end.

(** A score in the unit interval. *)
Definition inUnitInterval (x : number) : Prop :=
  match x with Fin r => 0 <= r <= 1 | _ => False end.

Lemma signOfDifference_pos x y :
  x <> NaN -> y <> NaN -> ((0 < signOfDifference x y)%Z <-> numLt y x).
Proof.
  intros Hx Hy. destruct x as [a| |], y as [b| |]; simpl; try tauto;
    try (split; [lia | tauto]); try (split; [tauto | lia]).
  destruct (Rlt_dec a b); [|destruct (Rlt_dec b a)]; split; intros; try lia; lra.
Qed.

Lemma signOfDifference_nonpos x y :
  x <> NaN -> y <> NaN -> ((signOfDifference x y <= 0)%Z <-> numLe x y).
Proof.
  intros Hx Hy. destruct x as [a| |], y as [b| |]; simpl; try tauto;
    try (split; [lia | tauto]); try (split; [tauto | lia]).
  destruct (Rlt_dec a b); [|destruct (Rlt_dec b a)]; split; intros; try lia; lra.
Qed.

Lemma numLe_trans x y z : numLe x y -> numLe y z -> numLe x z.
Proof.
  destruct x, y, z; simpl; try tauto. lra.
Qed.

Lemma numLt_le x y : numLt x y -> numLe x y.
Proof. destruct x, y; simpl; try tauto. lra. Qed.

(** *** The head of a stable sort *)

Section SortHead.
Variable A : Type.
Variable compareFn : A -> A -> Z.

(** The elements on which the comparator is consistent. *)
Variable good : A -> Prop.
Hypothesis compare_trans :
  forall x y z, good x -> good y -> good z ->
    (compareFn x y <= 0)%Z -> (compareFn y z <= 0)%Z -> (compareFn x z <= 0)%Z.
Hypothesis compare_asym :
  forall x y, good x -> good y -> (0 < compareFn x y)%Z -> (compareFn y x <= 0)%Z.

(** [best] is the first of the elements that no other element beats. *)
Definition firstBest (l : list A) (best : A) : Prop :=
  exists before after,
    l = before ++ best :: after
    /\ Forall (fun s => (0 < compareFn s best)%Z) before
    /\ Forall (fun s => (compareFn best s <= 0)%Z) after.

Lemma insertSorted_head x l :
  exists tl,
    insertSorted compareFn x l
    = match l with
      | [] => x
      | y :: _ => if (0 <? compareFn x y)%Z then y else x
      end :: tl.
Proof.
  destruct l as [|y l]; simpl; [now exists []|].
  destruct (0 <? compareFn x y)%Z; eexists; reflexivity.
Qed.

Lemma sort_head l :
  Forall good l ->
  match sort compareFn l with
  | [] => l = []
  | best :: _ => firstBest l best
  end.
Proof.
  induction 1 as [|x l Hx Hl IH]; simpl; [reflexivity|].
  destruct (insertSorted_head x (sort compareFn l)) as [tl ->].
  destruct (sort compareFn l) as [|b sorted] eqn:Hsort.
  - subst l. exists [], []. repeat split; constructor.
  - destruct IH as (before & after & -> & Hbefore & Hafter).
    assert (Hb : good b).
    { rewrite Forall_forall in Hl. apply Hl, in_elt. }
    destruct (Z.ltb_spec 0 (compareFn x b)) as [Hlt|Hge].
    + exists (x :: before), after. repeat split; auto.
    + exists [], (before ++ b :: after). repeat split; [constructor|].
      rewrite Forall_forall in *. intros s Hs.
      assert (Hgs : good s) by auto.
      apply in_app_or in Hs. destruct Hs as [Hs|[<-|Hs]]; auto.
      * apply compare_trans with b; auto.
      * apply compare_trans with b; auto.
Qed.
End SortHead.

(** *** Selection *)

Definition isNumber (s : PostScore) : Prop := s.(totalScore) <> NaN.

Lemma byTotalScoreDescending_trans x y z :
  isNumber x -> isNumber y -> isNumber z ->
  (byTotalScoreDescending x y <= 0)%Z -> (byTotalScoreDescending y z <= 0)%Z ->
  (byTotalScoreDescending x z <= 0)%Z.
Proof.
  unfold byTotalScoreDescending, isNumber. intros Hx Hy Hz Hxy Hyz.
  apply signOfDifference_nonpos in Hxy; auto.
  apply signOfDifference_nonpos in Hyz; auto.
  apply signOfDifference_nonpos; auto.
  eapply numLe_trans; eauto.
Qed.

Lemma byTotalScoreDescending_asym x y :
  isNumber x -> isNumber y ->
  (0 < byTotalScoreDescending x y)%Z -> (byTotalScoreDescending y x <= 0)%Z.
Proof.
  unfold byTotalScoreDescending, isNumber. intros Hx Hy Hxy.
  apply signOfDifference_pos in Hxy; auto.
  apply signOfDifference_nonpos; auto.
  now apply numLt_le.
Qed.

Lemma scoreFrom_nil_inv clock i posts : scoreFrom clock i posts = [] -> posts = [].
Proof. destruct posts; [reflexivity | discriminate]. Qed.

(** The scores of the usable posts, in batch order. *)
Definition scoredPosts (clock : nat -> R) (posts : list RedditPost) : list PostScore :=
  scoreFrom clock 0 (filter hasUsableTextContent posts).

Lemma selectBestPost_unfold clock posts :
  selectBestPost clock posts
  = match sort byTotalScoreDescending (scoredPosts clock posts) with
    | best :: _ => Some best
    | [] => None
    end.
Proof.
  unfold selectBestPost, scoredPosts.
  destruct posts as [|p posts]; [reflexivity|].
  destruct (filter hasUsableTextContent (p :: posts)); reflexivity.
Qed.


Lemma selectBestPost_singleton clock p :
  hasUsableTextContent p = true ->
  selectBestPost clock [p] = Some (scorePost (clock 0%nat) p).
Proof.
  intros Hp. rewrite selectBestPost_unfold. unfold scoredPosts.
  cbn [filter]. now rewrite Hp.
Qed.


(** *** The range of the scores *)

Lemma INR_literal (n : nat) : INR n = IZR (Z.of_nat n).
Proof. apply INR_IZR_INZ. Qed.

Ltac inr_literals :=
  unfold Config.textLength_min, Config.textLength_ideal_min,
    Config.textLength_ideal_max, Config.textLength_max in *;
  repeat match goal with
    | |- context [INR (S ?n)] =>
        let z := eval vm_compute in (Z.of_nat (S n)) in
        replace (INR (S n)) with (IZR z) by (rewrite INR_literal; reflexivity)
    end.

Ltac nat_to_real H :=
  first [ apply lt_INR in H | apply le_INR in H ];
  repeat match type of H with
    | context [INR (S ?n)] =>
        let z := eval vm_compute in (Z.of_nat (S n)) in
        replace (INR (S n)) with (IZR z) in H by (rewrite INR_literal; reflexivity)
    end.

Lemma calculateTextLengthScore_range (wordCount : nat) :
  0 <= calculateTextLengthScore wordCount <= 1.
Proof.
  unfold calculateTextLengthScore.
  destruct (Nat.eqb_spec wordCount 0) as [|Hne]; [lra|].
  pose proof (pos_INR wordCount) as Hpos.
  destruct (Nat.ltb_spec wordCount Config.textLength_min) as [Hmin|Hmin].
  { inr_literals. nat_to_real Hmin. lra. }
  destruct (Nat.leb_spec Config.textLength_ideal_min wordCount) as [Hi|Hi];
    [destruct (Nat.leb_spec wordCount Config.textLength_ideal_max) as [Hj|Hj]|];
    simpl andb; cbv iota; try lra.
  - destruct (Nat.ltb_spec wordCount Config.textLength_ideal_min) as [Hk|Hk].
    { unfold Config.textLength_ideal_min in *. lia. }
    destruct (Nat.leb_spec wordCount Config.textLength_max) as [Hm|Hm]; [|lra].
    inr_literals. nat_to_real Hj. nat_to_real Hm. lra.
  - destruct (Nat.ltb_spec wordCount Config.textLength_ideal_min) as [Hk|Hk].
    + inr_literals. nat_to_real Hmin. nat_to_real Hk. lra.
    + unfold Config.textLength_ideal_min in *. lia.
Qed.

Lemma calculateContentQuality_range (text : JS.chars) :
  0 <= calculateContentQuality text <= 1.
Proof.
  unfold calculateContentQuality.
  destruct text as [|c text]; [lra|].
  destruct (Nat.eqb _ 0); [lra|].
  split; [apply Rmax_l|].
  apply Rmax_lub; [lra | apply Rmin_l].
Qed.

Lemma getPostAgeHours_pos now created : 0.1 <= getPostAgeHours now created.
Proof. unfold getPostAgeHours. apply Rmax_r. Qed.

Lemma ln_10_pos : 0 < ln 10.
Proof. rewrite <- ln_1. apply ln_increasing; lra. Qed.

(** With engagement counts that are not negative, the engagement score is
    a number of the unit interval. *)
Lemma calculateEngagementScore_range now (p : RedditPost) :
  (0 <= p.(score))%Z -> (0 <= p.(num_comments))%Z ->
  inUnitInterval (calculateEngagementScore now p).
Proof.
  intros Hs Hc. unfold calculateEngagementScore.
  pose proof (getPostAgeHours_pos now p.(created_utc)) as Hage.
  set (age := getPostAgeHours now p.(created_utc)) in *.
  apply IZR_le in Hs, Hc.
  set (raw := (IZR p.(score) + IZR p.(num_comments) * 0.3) / age).
  assert (Hraw : 0 <= raw).
  { unfold raw. apply Rmult_le_pos; [lra|].
    left. apply Rinv_0_lt_compat. lra. }
  unfold Math_log10. destruct (Rlt_dec 0 (raw + 1)) as [_|Hn]; [|lra].
  simpl. split.
  - apply Rmin_glb; [|lra].
    apply Rmult_le_pos; [|lra].
    apply Rmult_le_pos; [|left; apply Rinv_0_lt_compat, ln_10_pos].
    rewrite <- ln_1.
    destruct (Req_dec raw 0) as [->|Hne].
    + replace (0 + 1) with 1 by lra. lra.
    + left. apply ln_increasing; lra.
  - apply Rmin_r.
Qed.

Lemma scorePost_range now (p : RedditPost) :
  (0 <= p.(score))%Z -> (0 <= p.(num_comments))%Z ->
  inUnitInterval (scorePost now p).(engagementScore)
  /\ inUnitInterval (scorePost now p).(totalScore)
  /\ 0 <= (scorePost now p).(contentQuality) <= 1.
Proof.
  intros Hs Hc. simpl.
  pose proof (calculateEngagementScore_range now p Hs Hc) as He.
  pose proof (calculateTextLengthScore_range
                (countWords (JS.ofString (p.(title) ++ " " ++ p.(selftext))))) as Ht.
  pose proof (calculateContentQuality_range
                (JS.ofString (p.(title) ++ " " ++ p.(selftext)))) as Hq.
  split; [exact He|]. split; [|exact Hq].
  destruct (calculateEngagementScore now p) as [e| |]; simpl in *; try tauto.
  unfold Config.weights_engagement, Config.weights_textLength, Config.weights_quality.
  lra.
Qed.

Lemma scoreFrom_isNumber clock i (posts : list RedditPost) :
  Forall (fun p => (0 <= p.(score))%Z /\ (0 <= p.(num_comments))%Z) posts ->
  Forall isNumber (scoreFrom clock i posts).
Proof.
  intros H; revert i; induction H as [|p posts [Hs Hc] _ IH]; intros i; simpl;
    constructor; auto.
  destruct (scorePost_range (clock i) p Hs Hc) as (_ & Ht & _).
  unfold isNumber. destruct (totalScore (scorePost (clock i) p)); simpl in *;
    [discriminate | discriminate | tauto].
Qed.

End AnalyzerFacts.

(* ================================================================== *)
(** ** The statements of the specification: scoring and selection *)
(* ================================================================== *)

Section ScoringClaims.
Import Reddit Analyzer AnalyzerFacts.
Local Open Scope R_scope.

(** The straight line through [(x0, y0)] and [(x1, y1)]. *)
Definition linearRamp (x0 x1 y0 y1 x : R) : R :=
  y0 + (x - x0) / (x1 - x0) * (y1 - y0).

(** The text length score in the words of the specification, over the
    bounds min = 50, ideal_min = 100, ideal_max = 500, max = 800. *)
Definition textLengthScore_piecewise (w : nat) : R :=
  if Nat.eqb w 0 then 0
  else if Nat.ltb w 50 then (INR w / 50) * 0.3
  else if Nat.ltb w 100 then linearRamp 50 100 0.3 1.0 (INR w)
  else if Nat.leb w 500 then 1.0
  else if Nat.leb w 800 then linearRamp 500 800 1.0 0.5 (INR w)
  else 0.3.

(** C6: for every word count the text length score of the analyzer is the
    piecewise function of the specification; at exactly 50 words it is 0.3,
    the value of the too-short branch and of the ramp at that boundary. *)
Theorem textLengthScore_is_piecewise :
  (forall w : nat, calculateTextLengthScore w = textLengthScore_piecewise w)
  /\ calculateTextLengthScore 50 = 0.3
  /\ (INR 50 / 50) * 0.3 = 0.3
  /\ linearRamp 50 100 0.3 1.0 (INR 50) = 0.3.
Proof.
  assert (H50 : INR 50 = 50) by (rewrite INR_literal; reflexivity).
  assert (Hall : forall w : nat, calculateTextLengthScore w = textLengthScore_piecewise w).
  { intros w. unfold calculateTextLengthScore, textLengthScore_piecewise, linearRamp.
    unfold Config.textLength_min, Config.textLength_ideal_min,
      Config.textLength_ideal_max, Config.textLength_max.
    replace (INR 50) with 50 by (rewrite INR_literal; reflexivity).
    replace (INR 100) with 100 by (rewrite INR_literal; reflexivity).
    replace (INR 500) with 500 by (rewrite INR_literal; reflexivity).
    replace (INR 800) with 800 by (rewrite INR_literal; reflexivity).
    destruct (Nat.eqb_spec w 0); [reflexivity|].
    destruct (Nat.ltb_spec w 50); [reflexivity|].
    destruct (Nat.leb_spec 100 w), (Nat.leb_spec w 500),
      (Nat.ltb_spec w 100), (Nat.leb_spec w 800); simpl; try lia; lra. }
  split; [exact Hall|]. split; [|split].
  - rewrite Hall. unfold textLengthScore_piecewise, linearRamp.
    change (Nat.eqb 50 0) with false. change (Nat.ltb 50 50) with false.
    change (Nat.ltb 50 100) with true. cbv iota. rewrite H50. lra.
  - rewrite H50. lra.
  - unfold linearRamp. rewrite H50. lra.
Qed.

(** Two posts that were voted down. Each has a title of twelve words
    and is usable. The first stands one vote below zero and is scored
    two hours after it was created, the second stands five votes below
    zero and is scored one hour after it was created. *)
Definition downvotedPost : RedditPost :=
  {| id := "t3_down";
     title := "A post that nobody liked but that has enough words in it";
     author := "someone";
     score := -1; num_comments := 0; created_utc := 1736200800;
     selftext := ""; permalink := "/r/test/comments/down"; subreddit := "test" |}.

Definition buriedPost : RedditPost :=
  {| id := "t3_low";
     title := "Another post that nobody liked at all but with enough words";
     author := "someone";
     score := -5; num_comments := 0; created_utc := 1736204400;
     selftext := ""; permalink := "/r/test/comments/low"; subreddit := "test" |}.

(** The reading of the clock at which the two posts are scored. *)
Definition scoringTime : R := 1736208000.

Lemma calculateEngagementScore_downvotedPost :
  exists r : R,
    calculateEngagementScore scoringTime downvotedPost = Fin r /\ r < 0.
Proof.
  unfold calculateEngagementScore, getPostAgeHours, downvotedPost, scoringTime;
    simpl.
  replace (Rmax ((1736208000 - 1736200800) / 3600) 0.1) with 2
    by (rewrite Rmax_left; lra).
  replace ((-1 + 0 * 0.3) / 2 + 1) with (1 / 2) by lra.
  unfold Math_log10. destruct (Rlt_dec 0 (1 / 2)) as [_|Hn]; [|lra].
  simpl. eexists; split; [reflexivity|].
  apply Rle_lt_trans with (ln (1 / 2) / ln 10 / 3); [apply Rmin_l|].
  assert (Hln : ln (1 / 2) < 0) by (rewrite <- ln_1; apply ln_increasing; lra).
  pose proof ln_10_pos as H10.
  assert (Hq : ln (1 / 2) / ln 10 < 0).
  { unfold Rdiv. rewrite <- (Rmult_0_l (/ ln 10)).
    apply Rmult_lt_compat_r; [apply Rinv_0_lt_compat|]; assumption. }
  lra.
Qed.

Lemma scorePost_buriedPost :
  (scorePost scoringTime buriedPost).(engagementScore) = NaN
  /\ (scorePost scoringTime buriedPost).(totalScore) = NaN.
Proof.
  assert (H : calculateEngagementScore scoringTime buriedPost = NaN).
  { unfold calculateEngagementScore, getPostAgeHours, buriedPost, scoringTime;
      simpl.
    replace (Rmax ((1736208000 - 1736204400) / 3600) 0.1) with 1
      by (rewrite Rmax_left; lra).
    replace ((-5 + 0 * 0.3) / 1 + 1) with (-4) by lra.
    unfold Math_log10. destruct (Rlt_dec 0 (-4)); [lra|].
    destruct (Req_dec_T (-4) 0); [lra|reflexivity]. }
  unfold scorePost. cbv zeta. cbn [engagementScore totalScore].
  rewrite H. split; reflexivity.
Qed.

Lemma downvoted_posts_usable :
  hasUsableTextContent downvotedPost = true
  /\ hasUsableTextContent buriedPost = true.
Proof. split; vm_compute; reflexivity. Qed.

(** C4, at two usable items with a negative engagement count. Each is
    selected from a batch of its own, so the analyzer scores it. The
    engagement score of the first is a negative number, below the unit
    interval: the analyzer bounds the score from above only. The
    engagement score and the total score of the second are not numbers
    at all. *)
Theorem engagementScore_below_zero :
  (hasUsableTextContent downvotedPost = true
   /\ selectBestPost (fun _ => scoringTime) [downvotedPost]
      = Some (scorePost scoringTime downvotedPost)
   /\ exists r : R,
        (scorePost scoringTime downvotedPost).(engagementScore) = Fin r
        /\ r < 0)
  /\ (hasUsableTextContent buriedPost = true
      /\ selectBestPost (fun _ => scoringTime) [buriedPost]
         = Some (scorePost scoringTime buriedPost)
      /\ (scorePost scoringTime buriedPost).(engagementScore) = NaN
      /\ (scorePost scoringTime buriedPost).(totalScore) = NaN).
Proof.
  destruct downvoted_posts_usable as [Hdown Hburied].
  split.
  - split; [exact Hdown|]. split.
    + now apply (selectBestPost_singleton (fun _ => scoringTime)).
    + exact calculateEngagementScore_downvotedPost.
  - split; [exact Hburied|]. split.
    + now apply (selectBestPost_singleton (fun _ => scoringTime)).
    + exact scorePost_buriedPost.
Qed.

(** With engagement counts that are not negative, all four scores lie in
    the unit interval, whatever the creation time and the clock. *)
Theorem scores_in_unit_interval now (p : RedditPost) :
  (0 <= p.(score))%Z -> (0 <= p.(num_comments))%Z ->
  inUnitInterval (calculateEngagementScore now p)
  /\ 0 <= calculateTextLengthScore
            (countWords (JS.ofString (p.(title) ++ " " ++ p.(selftext)))) <= 1
  /\ 0 <= calculateContentQuality (JS.ofString (p.(title) ++ " " ++ p.(selftext))) <= 1
  /\ inUnitInterval (scorePost now p).(totalScore).
Proof.
  intros Hs Hc.
  destruct (scorePost_range now p Hs Hc) as (He & Ht & Hq).
  repeat split; try apply calculateTextLengthScore_range;
    try apply calculateContentQuality_range; assumption.
Qed.

(** The test post of the orchestrator test suite, with text of its own. *)
Definition popularPost : RedditPost :=
  {| id := "test123";
     title := "Test Post Title";
     author := "testuser"; score := 500; num_comments := 50; created_utc := 0;
     selftext := "This is test content for the post. It has more than ten words.";
     permalink := "/r/test/comments/test123"; subreddit := "test" |}.

Lemma scores_in_unit_interval_popularPost :
  inUnitInterval (calculateEngagementScore 3600 popularPost)
  /\ 0 <= calculateTextLengthScore
            (countWords (JS.ofString (popularPost.(title) ++ " " ++ popularPost.(selftext)))) <= 1
  /\ 0 <= calculateContentQuality
            (JS.ofString (popularPost.(title) ++ " " ++ popularPost.(selftext))) <= 1
  /\ inUnitInterval (scorePost 3600 popularPost).(totalScore).
Proof.
  apply (scores_in_unit_interval 3600 popularPost); simpl; lia.
Defined.

(** A usable post with engagement counts above zero, scored one hour
    after it was created. *)
Definition wellReceivedPost : RedditPost :=
  {| id := "t3_good";
     title := "A post that many people liked";
     author := "someone"; score := 500; num_comments := 50;
     created_utc := 1736204400;
     selftext := "This is test content for the post. It has more than ten words.";
     permalink := "/r/test/comments/good"; subreddit := "test" |}.

Lemma signOfDifference_NaN x :
  signOfDifference x NaN = 0%Z /\ signOfDifference NaN x = 0%Z.
Proof. destruct x; split; reflexivity. Qed.

(** Two usable posts, one of them with a total score that is not a
    number: the comparator ties them, and the earlier one is selected. *)
Lemma selectBestPost_beside_NaN (clock : nat -> R) (p q : RedditPost) :
  hasUsableTextContent p = true ->
  hasUsableTextContent q = true ->
  (scorePost (clock 0%nat) p).(totalScore) = NaN
  \/ (scorePost (clock 1%nat) q).(totalScore) = NaN ->
  selectBestPost clock [p; q] = Some (scorePost (clock 0%nat) p).
Proof.
  intros Hp Hq Hnan. rewrite selectBestPost_unfold. unfold scoredPosts.
  cbn [filter]. rewrite Hp, Hq. cbn [scoreFrom sort insertSorted].
  unfold byTotalScoreDescending.
  destruct Hnan as [-> | ->].
  - destruct (signOfDifference_NaN (scorePost (clock 1%nat) q).(totalScore))
      as [-> _]. reflexivity.
  - destruct (signOfDifference_NaN (scorePost (clock 0%nat) p).(totalScore))
      as [_ ->]. reflexivity.
Qed.

(** C5, at a batch of two usable items of which the first has a negative
    engagement count: its total score is not a number, the total score
    of the second is a number of the unit interval, and the first is
    what the selection returns. With the two items in the other order
    the selection returns the other one: the comparator
    [b.totalScore - a.totalScore] is [NaN] for the pair, the sort reads
    that as a tie, and the batch order decides. *)
Theorem selectBestPost_returns_not_a_number :
  let clock := fun _ : nat => scoringTime in
  hasUsableTextContent buriedPost = true
  /\ hasUsableTextContent wellReceivedPost = true
  /\ (scorePost scoringTime buriedPost).(totalScore) = NaN
  /\ inUnitInterval (scorePost scoringTime wellReceivedPost).(totalScore)
  /\ selectBestPost clock [buriedPost; wellReceivedPost]
     = Some (scorePost scoringTime buriedPost)
  /\ selectBestPost clock [wellReceivedPost; buriedPost]
     = Some (scorePost scoringTime wellReceivedPost).
Proof.
  intros clock.
  assert (Hburied : hasUsableTextContent buriedPost = true)
    by exact (proj2 downvoted_posts_usable).
  assert (Hgood : hasUsableTextContent wellReceivedPost = true)
    by (vm_compute; reflexivity).
  pose proof (proj2 scorePost_buriedPost) as Hnan.
  split; [exact Hburied|]. split; [exact Hgood|]. split; [exact Hnan|].
  split; [|split].
  - apply (scorePost_range scoringTime wellReceivedPost); simpl; lia.
  - apply (selectBestPost_beside_NaN clock); [exact Hburied|exact Hgood|].
    left. exact Hnan.
  - apply (selectBestPost_beside_NaN clock); [exact Hgood|exact Hburied|].
    right. exact Hnan.
Qed.

(** A short post: it has fewer than ten words and is not usable. *)
Definition shortPost : RedditPost :=
  {| id := "short1"; title := "Too short"; author := "someone";
     score := 900; num_comments := 10; created_utc := 0;
     selftext := "Nothing here."; permalink := "/r/test/comments/short1";
     subreddit := "test" |}.







(** A link-only post with a title of ten words. *)
Definition linkOnlyPost : RedditPost :=
  {| id := "link2";
     title := "one two three four five six seven eight nine ten";
     author := "someone"; score := 4000; num_comments := 900; created_utc := 0;
     selftext := "https://example.com/a/very/long/path/to/some/article wow";
     permalink := "/r/test/comments/link2"; subreddit := "test" |}.


(** Two usable posts with the same total score: the earlier one is
    selected. *)
Lemma selectBestPost_tie (clock : nat -> R) (p q : RedditPost) :
  hasUsableTextContent p = true ->
  hasUsableTextContent q = true ->
  (scorePost (clock 1%nat) q).(totalScore) = (scorePost (clock 0%nat) p).(totalScore) ->
  selectBestPost clock [p; q] = Some (scorePost (clock 0%nat) p).
Proof.
  intros Hp Hq Htie. rewrite selectBestPost_unfold. unfold scoredPosts.
  cbn [filter]. rewrite Hp, Hq. cbn [scoreFrom sort insertSorted].
  unfold byTotalScoreDescending. rewrite Htie.
  assert (Hsame : forall x, signOfDifference x x = 0%Z).
  { intros [a| |]; simpl; try reflexivity.
    destruct (Rlt_dec a a); [lra | reflexivity]. }
  now rewrite Hsame.
Qed.

(** The popular post, submitted a second time under another identifier. *)
Definition popularPostAgain : RedditPost :=
  {| id := "test124";
     title := popularPost.(title);
     author := popularPost.(author); score := popularPost.(score);
     num_comments := popularPost.(num_comments);
     created_utc := popularPost.(created_utc);
     selftext := popularPost.(selftext);
     permalink := "/r/test/comments/test124"; subreddit := "test" |}.

Example selectBestPost_tie_keeps_first :
  selectBestPost (fun _ => 3600) [popularPost; popularPostAgain]
  = Some (scorePost 3600 popularPost).
Proof.
  apply (selectBestPost_tie (fun _ => 3600)); [vm_compute | vm_compute | ];
    reflexivity.
Qed.

End ScoringClaims.

(* ================================================================== *)
(** ** Properties of the TTS service *)
(* ================================================================== *)

Module TTSFacts.
Import Effects EffectsFacts TTS.
Local Open Scope string_scope.
Local Open Scope Z_scope.

Example backoffDelay_values :
  map backoffDelay [1; 2; 3; 4] = [1000; 2000; 4000; 5000].
Proof. reflexivity. Qed.

Section Attempts.
Variable W : Type.
Variable sleep : Z -> W -> W.
Variable p : TTSProvider W.
Variable text : string.

(** [error] is no authentication failure of a provider. *)
Definition retryable (error : Thrown) : Prop :=
  providerStatusCode error <> Some 401 /\ providerStatusCode error <> Some 403.

(** The delay after a failed attempt that is not the last one: a rate
    limit (429) waits as if one attempt further. *)
Definition delayAfter (error : Thrown) (attempt : Z) : Z :=
  match providerStatusCode error with
  | Some 429 => backoffDelay (attempt + 1)
  | _ => backoffDelay attempt
  end.

Definition unavailableError : Thrown :=
  PlainError ("Provider " ++ p.(name) ++ " is not available").

Lemma waitWithBackoff_returns attempt st :
  waitWithBackoff sleep attempt st
  = (Returned tt,
     after st [Wait (backoffDelay attempt)] (sleep (backoffDelay attempt) st.(world))).
Proof. reflexivity. Qed.

(** An attempt on which the provider answers the probe with [false]. *)
Lemma attempt_unavailable attempt later lastError st w1 :
  p.(isAvailable) st.(world) = (false, w1) ->
  retryFrom sleep p text (attempt :: later) lastError st
  = bind (if attempt <? maxAttempts then waitWithBackoff sleep attempt else ret tt)
         (fun _ => retryFrom sleep p text later (Some unavailableError))
         (after st [IsAvailable p.(name)] w1).
Proof.
  intros Hprobe. cbn [retryFrom].
  unfold tryCatch at 1, bind at 1, callIsAvailable, call.
  rewrite Hprobe. reflexivity.
Qed.

(** An attempt on which synthesis succeeds. *)
Lemma attempt_success attempt later lastError st w1 audio w2 :
  p.(isAvailable) st.(world) = (true, w1) ->
  p.(generateSpeech) text w1 = (Returned audio, w2) ->
  retryFrom sleep p text (attempt :: later) lastError st
  = (Returned audio,
     after st [IsAvailable p.(name); GenerateSpeech p.(name) text] w2).
Proof.
  intros Hprobe Hspeech. cbn [retryFrom].
  unfold tryCatch, bind, callIsAvailable, callGenerateSpeech, call.
  rewrite Hprobe. cbn. rewrite Hspeech. unfold after. cbn.
  now rewrite <- app_assoc.
Qed.

(** An attempt on which synthesis fails with status 401 or 403. *)
Lemma attempt_authentication_failure attempt later lastError st w1 error w2 :
  p.(isAvailable) st.(world) = (true, w1) ->
  p.(generateSpeech) text w1 = (Threw error, w2) ->
  providerStatusCode error = Some 401 \/ providerStatusCode error = Some 403 ->
  retryFrom sleep p text (attempt :: later) lastError st
  = (Threw error,
     after st [IsAvailable p.(name); GenerateSpeech p.(name) text] w2).
Proof.
  intros Hprobe Hspeech Hauth. cbn [retryFrom].
  unfold tryCatch, bind, callIsAvailable, callGenerateSpeech, call.
  rewrite Hprobe. cbn. rewrite Hspeech. unfold after. cbn.
  rewrite <- app_assoc.
  destruct Hauth as [-> | ->]; reflexivity.
Qed.

(** An attempt before the last one on which synthesis fails otherwise. *)
Lemma attempt_failure attempt later lastError st w1 error w2 :
  p.(isAvailable) st.(world) = (true, w1) ->
  p.(generateSpeech) text w1 = (Threw error, w2) ->
  retryable error ->
  attempt < maxAttempts ->
  retryFrom sleep p text (attempt :: later) lastError st
  = retryFrom sleep p text later (Some (asError error))
      (after st [IsAvailable p.(name); GenerateSpeech p.(name) text;
                 Wait (delayAfter error attempt)]
             (sleep (delayAfter error attempt) w2)).
Proof.
  intros Hprobe Hspeech [H401 H403] Hlt. cbn [retryFrom].
  unfold tryCatch at 1, bind at 1, callIsAvailable, callGenerateSpeech, call.
  rewrite Hprobe. cbn. rewrite Hspeech.
  apply Z.ltb_lt in Hlt. rewrite Hlt. unfold delayAfter.
  destruct (providerStatusCode error) as [code|] eqn:Hcode.
  - destruct (Z.eqb_spec code 401) as [->|_]; [congruence|].
    destruct (Z.eqb_spec code 403) as [->|_]; [congruence|].
    destruct (Z.eqb_spec code 429) as [->|Hne].
    + cbn. unfold bind, waitWithBackoff, call, after. cbn.
      now rewrite <- !app_assoc.
    + cbn. unfold bind, waitWithBackoff, call, after. cbn.
      replace (match code with 429 => _ | _ => backoffDelay attempt end)
        with (backoffDelay attempt).
      * now rewrite <- !app_assoc.
      * destruct code as [|c|c]; try reflexivity.
        repeat (destruct c as [c|c|]; try reflexivity). congruence.
  - cbn. unfold bind, waitWithBackoff, call, after. cbn.
    now rewrite <- !app_assoc.
Qed.
End Attempts.

End TTSFacts.

(* ================================================================== *)
(** ** The statements of the specification: failover *)
(* ================================================================== *)

Section FailoverClaims.
Import Effects EffectsFacts TTS TTSFacts.
Local Open Scope string_scope.
Local Open Scope Z_scope.

Section AnyWorld.
Variable W : Type.
Variable sleep : Z -> W -> W.
Variable elevenLabsVoiceId inworldCharacter : string.
Variable cleanMarkdown addPauses : string -> string.

Local Abbreviation providersFrom :=
  (tryProviders sleep elevenLabsVoiceId inworldCharacter).
Local Abbreviation generate :=
  (generateAudio sleep elevenLabsVoiceId inworldCharacter cleanMarkdown addPauses).
Local Abbreviation formatOf := (Formatter.formatForTTS cleanMarkdown addPauses).

Lemma tryProviders_failed p later formatted lastError st error st' :
  generateWithRetry sleep p formatted.(Formatter.text) st = (Threw error, st') ->
  providersFrom (p :: later) formatted lastError st
  = providersFrom later formatted (Some (asError error)) st'.
Proof.
  intros H. cbn [tryProviders].
  unfold tryCatch at 1, bind at 1. now rewrite H.
Qed.

Lemma tryProviders_succeeded p later formatted lastError st audio st' :
  generateWithRetry sleep p formatted.(Formatter.text) st = (Returned audio, st') ->
  providersFrom (p :: later) formatted lastError st
  = (Returned {| audioBuffer := audio;
                 provider := p.(name);
                 voice := voiceOf elevenLabsVoiceId inworldCharacter p;
                 duration := formatted.(Formatter.estimatedDuration);
                 sizeBytes := List.length audio |}, st').
Proof.
  intros H. cbn [tryProviders].
  unfold tryCatch at 1, bind at 1. now rewrite H.
Qed.

(** C2: a synthesis call that fails with status 401 or 403 ends the work
    on its provider at once, on whichever attempt it happens: no further
    attempt and no wait. [generateAudio] goes on with the next provider
    from the state that the failed call left, be the provider the first
    of the list or a later one; when it is the only provider,
    [generateAudio] fails in that state. *)
Theorem authentication_failure_no_retry
  (p : TTSProvider W) (later : list (TTSProvider W))
  (post : Reddit.RedditPost) (st : State W) (w1 w2 : W) (error : Thrown) :
  let formatted := formatOf post in
  let text := formatted.(Formatter.text) in
  let st' := after st [IsAvailable p.(name); GenerateSpeech p.(name) text] w2 in
  p.(isAvailable) st.(world) = (true, w1) ->
  p.(generateSpeech) text w1 = (Threw error, w2) ->
  providerStatusCode error = Some 401 \/ providerStatusCode error = Some 403 ->
  (forall attempt attempts lastError,
      retryFrom sleep p text (attempt :: attempts) lastError st = (Threw error, st'))
  /\ (forall lastError,
        providersFrom (p :: later) formatted lastError st
        = providersFrom later formatted (Some error) st')
  /\ generate (p :: later) post st = providersFrom later formatted (Some error) st'
  /\ generate [p] post st = (Threw (allProvidersFailed (Some error)), st').
Proof.
  intros formatted text st' Hprobe Hspeech Hauth.
  assert (Hloop : forall attempt attempts lastError,
             retryFrom sleep p text (attempt :: attempts) lastError st
             = (Threw error, st')).
  { intros. now apply attempt_authentication_failure with (w1 := w1). }
  assert (Herr : asError error = error).
  { destruct error; try reflexivity. destruct Hauth; discriminate. }
  assert (Hnext : forall providers lastError,
             providersFrom (p :: providers) formatted lastError st
             = providersFrom providers formatted (Some error) st').
  { intros. erewrite tryProviders_failed by apply Hloop. now rewrite Herr. }
  split; [exact Hloop|]. split; [intros; apply Hnext|].
  split; unfold generateAudio; fold formatted; apply Hnext.
Qed.

(** The three probes of a provider that answers each of them with
    [false]. *)
Lemma generateWithRetry_unavailable_thrice
  (p : TTSProvider W) (text : string) (st : State W) (w1 w2 w3 : W) :
  p.(isAvailable) st.(world) = (false, w1) ->
  p.(isAvailable) (sleep 1000 w1) = (false, w2) ->
  p.(isAvailable) (sleep 2000 w2) = (false, w3) ->
  generateWithRetry sleep p text st
  = (Threw (unavailableError p),
     after st [IsAvailable p.(name); Wait 1000;
               IsAvailable p.(name); Wait 2000;
               IsAvailable p.(name)] w3).
Proof.
  intros H1 H2 H3.
  unfold generateWithRetry.
  change attemptNumbers with [1; 2; 3].
  rewrite (attempt_unavailable sleep p text 1 [2; 3] None st H1).
  change (1 <? maxAttempts) with true. cbv iota.
  unfold bind at 1. rewrite waitWithBackoff_returns.
  rewrite after_after.
  change (backoffDelay 1) with 1000.
  erewrite attempt_unavailable by exact H2.
  change (2 <? maxAttempts) with true. cbv iota.
  unfold bind at 1. rewrite waitWithBackoff_returns.
  rewrite !after_after.
  change (backoffDelay 2) with 2000.
  erewrite attempt_unavailable by exact H3.
  change (3 <? maxAttempts) with false. cbv iota.
  unfold bind, ret. cbn [retryFrom]. unfold throw.
  now rewrite after_after.
Qed.

(** C3, amended. The availability check belongs to each attempt of the
    retry loop: on whichever attempt the provider answers the probe with
    [false], that attempt makes no synthesis call and is used up, the
    loop goes on with the attempts that are left and with the error
    [Provider ... is not available] as the last error, and before it
    does so it waits for the backoff delay of the attempt, unless the
    attempt is the last one. So a provider that answers each probe with
    [false] is probed on all three attempts, with the waits of 1000 ms
    and 2000 ms in between, and is never asked to synthesize; only
    after the third probe does [generateAudio] go on with the next
    provider. *)
Theorem unavailable_provider_uses_all_attempts
  (p : TTSProvider W) (later : list (TTSProvider W))
  (post : Reddit.RedditPost) :
  let formatted := formatOf post in
  let text := formatted.(Formatter.text) in
  (forall (attempt : Z) (attempts : list Z) (lastError : option Thrown)
          (st : State W) (w : W),
      p.(isAvailable) st.(world) = (false, w) ->
      retryFrom sleep p text (attempt :: attempts) lastError st
      = retryFrom sleep p text attempts (Some (unavailableError p))
          (if attempt <? maxAttempts
           then after st [IsAvailable p.(name); Wait (backoffDelay attempt)]
                  (sleep (backoffDelay attempt) w)
           else after st [IsAvailable p.(name)] w))
  /\ (forall (st : State W) (w1 w2 w3 : W),
        let st' := after st [IsAvailable p.(name); Wait 1000;
                             IsAvailable p.(name); Wait 2000;
                             IsAvailable p.(name)] w3 in
        p.(isAvailable) st.(world) = (false, w1) ->
        p.(isAvailable) (sleep 1000 w1) = (false, w2) ->
        p.(isAvailable) (sleep 2000 w2) = (false, w3) ->
        generateWithRetry sleep p text st = (Threw (unavailableError p), st')
        /\ generate (p :: later) post st
           = providersFrom later formatted (Some (unavailableError p)) st').
Proof.
  intros formatted text. split.
  - intros attempt attempts lastError st w Hprobe.
    rewrite (attempt_unavailable sleep p text attempt attempts lastError st Hprobe).
    destruct (attempt <? maxAttempts).
    + unfold bind at 1. rewrite waitWithBackoff_returns.
      now rewrite after_after.
    + reflexivity.
  - intros st w1 w2 w3 st' H1 H2 H3.
    pose proof (generateWithRetry_unavailable_thrice p text st H1 H2 H3) as Hretry.
    split; [exact Hretry|].
    unfold generateAudio. fold formatted.
    now erewrite tryProviders_failed by exact Hretry.
Qed.

Definition isSynthesis (ev : Event) : bool :=
  match ev with GenerateSpeech _ _ => true | _ => false end.

(** C8: a provider that is available, fails its first two synthesis
    calls with errors other than 401 and 403, and succeeds on the third
    call gives the result of [generateAudio]: the audio of the third
    call, under the name of this provider. The calls of the run are the
    three probes and three synthesis calls on this provider and the two
    waits between them; no later provider is called. *)
Theorem third_attempt_succeeds
  (p : TTSProvider W) (later : list (TTSProvider W))
  (post : Reddit.RedditPost) (st : State W)
  (w1 w2 w3 w4 w5 w6 : W) (error1 error2 : Thrown) (audio : Buffer) :
  let formatted := formatOf post in
  let text := formatted.(Formatter.text) in
  let calls := [IsAvailable p.(name); GenerateSpeech p.(name) text;
                Wait (delayAfter error1 1);
                IsAvailable p.(name); GenerateSpeech p.(name) text;
                Wait (delayAfter error2 2);
                IsAvailable p.(name); GenerateSpeech p.(name) text] in
  p.(isAvailable) st.(world) = (true, w1) ->
  p.(generateSpeech) text w1 = (Threw error1, w2) ->
  retryable error1 ->
  p.(isAvailable) (sleep (delayAfter error1 1) w2) = (true, w3) ->
  p.(generateSpeech) text w3 = (Threw error2, w4) ->
  retryable error2 ->
  p.(isAvailable) (sleep (delayAfter error2 2) w4) = (true, w5) ->
  p.(generateSpeech) text w5 = (Returned audio, w6) ->
  generate (p :: later) post st
  = (Returned {| audioBuffer := audio;
                 provider := p.(name);
                 voice := voiceOf elevenLabsVoiceId inworldCharacter p;
                 duration := formatted.(Formatter.estimatedDuration);
                 sizeBytes := List.length audio |},
     after st calls w6)
  /\ List.length (filter isSynthesis calls) = 3%nat.
Proof.
  intros formatted text calls Ha1 Hs1 Hr1 Ha2 Hs2 Hr2 Ha3 Hs3.
  split; [|reflexivity].
  unfold generateAudio. fold formatted.
  apply tryProviders_succeeded.
  unfold generateWithRetry. change attemptNumbers with [1; 2; 3].
  rewrite (attempt_failure sleep p text [2; 3] None st Ha1 Hs1 Hr1)
    by reflexivity.
  erewrite attempt_failure; [|exact Ha2|exact Hs2|exact Hr2|reflexivity].
  erewrite attempt_success; [|exact Ha3|exact Hs3].
  now rewrite !after_after.
Qed.

(** Whatever the service returns was returned by a synthesis call of one
    of its providers, on the text that the service was given. *)
Lemma retryFrom_returned p text attempts lastError st audio st' :
  retryFrom sleep p text attempts lastError st = (Returned audio, st') ->
  exists w w', p.(generateSpeech) text w = (Returned audio, w').
Proof.
  revert lastError st.
  induction attempts as [|attempt attempts IH]; intros lastError st.
  - cbn. discriminate.
  - cbn [retryFrom].
    unfold tryCatch at 1, bind at 1, callIsAvailable, callGenerateSpeech, call.
    destruct (p.(isAvailable) st.(world)) as [[|] w1]; cbn.
    + destruct (p.(generateSpeech) text w1) as [[a|e] w2] eqn:Hs.
      * intros [= <- <-]. eauto.
      * destruct (providerStatusCode e) as [code|].
        -- destruct ((code =? 401) || (code =? 403)); [discriminate|].
           destruct ((code =? 429) && (attempt <? maxAttempts)).
           ++ unfold bind at 1. rewrite waitWithBackoff_returns. apply IH.
           ++ unfold bind at 1.
              destruct (attempt <? maxAttempts);
                [rewrite waitWithBackoff_returns|]; apply IH.
        -- unfold bind at 1.
           destruct (attempt <? maxAttempts);
             [rewrite waitWithBackoff_returns|]; apply IH.
    + unfold bind at 1.
      destruct (attempt <? maxAttempts);
        [rewrite waitWithBackoff_returns|]; apply IH.
Qed.


End AnyWorld.

(** *** Sample providers and runs *)

(** A timer that leaves the world as it is. *)
Definition idle {W : Type} : Z -> W -> W := fun _ w => w.

Definition start {W : Type} (w : W) : State W := {| world := w; log := [] |}.

Definition sampleAudio : Buffer := [Byte.x49; Byte.x44; Byte.x33].

(** On the text of this post the two rewriting passes of the formatter
    change nothing, so they are taken to be the identity below. *)
Definition helloPost : Reddit.RedditPost :=
  {| Reddit.id := "hello1"; Reddit.title := "Hello world";
     Reddit.author := "someone"; Reddit.score := 1; Reddit.num_comments := 0;
     Reddit.created_utc := 0%R; Reddit.selftext := "";
     Reddit.permalink := "/r/test/comments/hello1"; Reddit.subreddit := "test" |}.

Definition unchanged (s : string) : string := s.

Definition helloFormatted : Formatter.FormattedText :=
  Formatter.formatForTTS unchanged unchanged helloPost.

Definition defaultVoiceId : string := "21m00Tcm4TlvDq8ikWAM".
Definition defaultCharacter : string := "narrator_01".

Definition inworldReady : TTSProvider unit :=
  {| name := "inworld";
     generateSpeech := fun _ w => (Returned sampleAudio, w);
     isAvailable := fun w => (true, w) |}.

Definition elevenLabsDown : TTSProvider unit :=
  {| name := "elevenlabs";
     generateSpeech := fun _ w => (Returned sampleAudio, w);
     isAvailable := fun w => (false, w) |}.

Definition elevenLabsUnauthorized : TTSProvider unit :=
  {| name := "elevenlabs";
     generateSpeech := fun _ w => (Threw (ElevenLabsError "Invalid API key" 401), w);
     isAvailable := fun w => (true, w) |}.

(** The world counts the synthesis calls; the first two fail. *)
Definition elevenLabsFlaky : TTSProvider nat :=
  {| name := "elevenlabs";
     generateSpeech := fun _ calls =>
       (if (calls <? 2)%nat
        then Threw (ElevenLabsError "Service Unavailable" 503)
        else Returned sampleAudio, S calls);
     isAvailable := fun calls => (true, calls) |}.

Definition inworldCounting : TTSProvider nat :=
  {| name := "inworld";
     generateSpeech := fun _ calls => (Returned sampleAudio, S calls);
     isAvailable := fun calls => (true, calls) |}.

Example helloFormatted_value :
  helloFormatted
  = {| Formatter.text := "Hello world"; Formatter.wordCount := 2;
       Formatter.estimatedDuration := 1 |}.
Proof. vm_compute. reflexivity. Qed.

(** C3, as the claim words it, fails: with a first provider that reports
    itself unavailable, the run probes it three times and waits 1000 ms
    and 2000 ms before it turns to the second provider. *)
Lemma unavailable_provider_is_retried :
  fst (elevenLabsDown.(isAvailable) tt) = false
  /\ generateAudio idle defaultVoiceId defaultCharacter unchanged unchanged
       [elevenLabsDown; inworldReady] helloPost (start tt)
     = (Returned {| audioBuffer := sampleAudio; provider := "inworld";
                    voice := defaultCharacter; duration := 1; sizeBytes := 3 |},
        {| world := tt;
           log := [IsAvailable "elevenlabs"; Wait 1000;
                   IsAvailable "elevenlabs"; Wait 2000;
                   IsAvailable "elevenlabs";
                   IsAvailable "inworld"; GenerateSpeech "inworld" "Hello world"] |}).
Proof. split; vm_compute; reflexivity. Qed.

Lemma unavailable_provider_uses_all_attempts_down :
  (retryFrom idle elevenLabsDown "Hello world" [2; 3] None (start tt)
   = retryFrom idle elevenLabsDown "Hello world" [3]
       (Some (unavailableError elevenLabsDown))
       (after (start tt) [IsAvailable "elevenlabs"; Wait 2000] tt))
  /\ (let st' := after (start tt)
                   [IsAvailable "elevenlabs"; Wait 1000;
                    IsAvailable "elevenlabs"; Wait 2000;
                    IsAvailable "elevenlabs"] tt in
      generateWithRetry idle elevenLabsDown "Hello world" (start tt)
      = (Threw (unavailableError elevenLabsDown), st')
      /\ generateAudio idle defaultVoiceId defaultCharacter unchanged unchanged
           [elevenLabsDown; inworldReady] helloPost (start tt)
         = tryProviders idle defaultVoiceId defaultCharacter
             [inworldReady] helloFormatted
             (Some (unavailableError elevenLabsDown)) st').
Proof.
  pose proof (@unavailable_provider_uses_all_attempts unit idle defaultVoiceId
                defaultCharacter unchanged unchanged elevenLabsDown
                [inworldReady] helloPost) as [Hattempt Hrun].
  split.
  - apply (Hattempt 2 [3] None (start tt) tt). reflexivity.
  - apply (Hrun (start tt) tt tt tt); reflexivity.
Defined.

Lemma authentication_failure_no_retry_unauthorized :
  let error := ElevenLabsError "Invalid API key" 401 in
  let st' := after (start tt)
               [IsAvailable "elevenlabs"; GenerateSpeech "elevenlabs" "Hello world"]
               tt in
  (forall attempt attempts lastError,
      retryFrom idle elevenLabsUnauthorized "Hello world" (attempt :: attempts)
        lastError (start tt) = (Threw error, st'))
  /\ (forall lastError,
        tryProviders idle defaultVoiceId defaultCharacter
          [elevenLabsUnauthorized; inworldReady] helloFormatted lastError (start tt)
        = tryProviders idle defaultVoiceId defaultCharacter
            [inworldReady] helloFormatted (Some error) st')
  /\ generateAudio idle defaultVoiceId defaultCharacter unchanged unchanged
       [elevenLabsUnauthorized; inworldReady] helloPost (start tt)
     = tryProviders idle defaultVoiceId defaultCharacter
         [inworldReady] helloFormatted (Some error) st'
  /\ generateAudio idle defaultVoiceId defaultCharacter unchanged unchanged
       [elevenLabsUnauthorized] helloPost (start tt)
     = (Threw (allProvidersFailed (Some error)), st').
Proof.
  apply (@authentication_failure_no_retry unit idle defaultVoiceId
           defaultCharacter unchanged unchanged elevenLabsUnauthorized
           [inworldReady] helloPost (start tt) tt tt
           (ElevenLabsError "Invalid API key" 401));
    [reflexivity | reflexivity | left; reflexivity].
Defined.

Lemma third_attempt_succeeds_flaky :
  generateAudio idle defaultVoiceId defaultCharacter unchanged unchanged
    [elevenLabsFlaky; inworldCounting] helloPost (start 0%nat)
  = (Returned {| audioBuffer := sampleAudio; provider := "elevenlabs";
                 voice := defaultVoiceId; duration := 1; sizeBytes := 3 |},
     after (start 0%nat)
       [IsAvailable "elevenlabs"; GenerateSpeech "elevenlabs" "Hello world";
        Wait 1000;
        IsAvailable "elevenlabs"; GenerateSpeech "elevenlabs" "Hello world";
        Wait 2000;
        IsAvailable "elevenlabs"; GenerateSpeech "elevenlabs" "Hello world"]
       3%nat)
  /\ List.length
       (filter isSynthesis
          [IsAvailable "elevenlabs"; GenerateSpeech "elevenlabs" "Hello world";
           Wait 1000;
           IsAvailable "elevenlabs"; GenerateSpeech "elevenlabs" "Hello world";
           Wait 2000;
           IsAvailable "elevenlabs"; GenerateSpeech "elevenlabs" "Hello world"])
     = 3%nat.
Proof.
  apply (@third_attempt_succeeds nat idle defaultVoiceId defaultCharacter
           unchanged unchanged elevenLabsFlaky [inworldCounting] helloPost
           (start 0%nat)
           0%nat 1%nat 1%nat 2%nat 2%nat 3%nat
           (ElevenLabsError "Service Unavailable" 503)
           (ElevenLabsError "Service Unavailable" 503) sampleAudio);
    try reflexivity; split; discriminate.
Defined.

End FailoverClaims.

(* ================================================================== *)
(** ** The statements of the specification: orchestration *)
(* ================================================================== *)

Section OrchestrationClaims.
Import Effects EffectsFacts Orchestrator.
Local Open Scope string_scope.

Section AnyWorld.
Variable W : Type.
Variable supabaseStorage : StorageService W.
Variable providers : list (TTS.TTSProvider W).
Variable sleep : Z -> W -> W.
Variable elevenLabsVoiceId inworldCharacter : string.
Variable cleanMarkdown addPauses : string -> string.
Variable clock : W -> nat -> R.
Variable nowMs : W -> Z.

Local Abbreviation run :=
  (processPostToAudio supabaseStorage providers sleep elevenLabsVoiceId
     inworldCharacter cleanMarkdown addPauses clock nowMs).
Local Abbreviation remainingSteps :=
  (generateAndStore supabaseStorage providers sleep elevenLabsVoiceId
     inworldCharacter cleanMarkdown addPauses nowMs).

(** The record that the remaining steps return is the one they were
    given. *)
Lemma generateAndStore_selectedPost bestPost savedPost st result st' :
  remainingSteps bestPost savedPost st = (Returned result, st') ->
  result.(selectedPost) = savedPost.
Proof.
  unfold generateAndStore, bind, tryCatch, ret, throw.
  repeat match goal with
    | |- context [match ?c with (_, _) => _ end] =>
        let o := fresh "o" in let s := fresh "s" in
        destruct c as [o s]; destruct o; try discriminate
    end.
  now intros [= <- _].
Qed.

(** The run after a duplicate error and a lookup that returned. *)
Lemma processPostToAudio_duplicate
  (posts : list Reddit.RedditPost) (st : State W)
  (bestPost : Analyzer.PostScore) (message : string) (w1 w2 : W)
  (lookup : option Database.SelectedPost) :
  let sourceId := bestPost.(Analyzer.post).(Reddit.id) in
  let duplicate := StorageError message "DUPLICATE_POST" in
  let st' := after st [SaveSelectedPost sourceId;
                       GetSelectedPostByRedditId sourceId] w2 in
  Analyzer.selectBestPost (clock st.(world)) posts = Some bestPost ->
  supabaseStorage.(saveSelectedPost) bestPost.(Analyzer.post) bestPost st.(world)
    = (Threw duplicate, w1) ->
  supabaseStorage.(getSelectedPostByRedditId) sourceId w1 = (Returned lookup, w2) ->
  run posts st
  = match lookup with
    | None =>
        (Threw (OrchestrationError
                  "Post marked as duplicate but not found in database"
                  "POST_SAVE_FAILED" (Some duplicate)), st')
    | Some existing =>
        if audioReferenceSet existing
        then (Threw (OrchestrationError
                       "Post has already been processed with audio"
                       "POST_ALREADY_PROCESSED" (Some duplicate)), st')
        else tryCatch (remainingSteps bestPost existing) rethrowOrWrap st'
    end.
Proof.
  intros sourceId duplicate st' Hbest Hsave Hlookup.
  assert (Hstep : saveOrReuse supabaseStorage bestPost st
                  = match lookup with
                    | None =>
                        (Threw (OrchestrationError
                                  "Post marked as duplicate but not found in database"
                                  "POST_SAVE_FAILED" (Some duplicate)), st')
                    | Some existing =>
                        if audioReferenceSet existing
                        then (Threw (OrchestrationError
                                       "Post has already been processed with audio"
                                       "POST_ALREADY_PROCESSED" (Some duplicate)), st')
                        else (Returned existing, st')
                    end).
  { unfold saveOrReuse, tryCatch, bind.
    rewrite (@call_returns W _ (SaveSelectedPost _) _ st _ _ Hsave).
    unfold duplicate at 1. cbn [isDuplicatePost].
    change (String.eqb "DUPLICATE_POST" "DUPLICATE_POST") with true. cbv beta iota.
    rewrite (@call_returns W _ (GetSelectedPostByRedditId _) _
               (after st [SaveSelectedPost sourceId] w1) _ _ Hlookup).
    rewrite after_after. cbn [app]. fold st'.
    destruct lookup as [existing|]; [|reflexivity].
    destruct (audioReferenceSet existing); reflexivity. }
  unfold processPostToAudio. destruct posts as [|p0 posts']; [discriminate Hbest|].
  unfold tryCatch at 1, bind at 1, getWorld. rewrite Hbest.
  unfold bind at 1. rewrite Hstep.
  destruct lookup as [existing|]; [|reflexivity].
  destruct (audioReferenceSet existing); reflexivity.
Qed.

(** Any other failure of the save step is reported under the same code
    [POST_SAVE_FAILED], with a message of its own. *)
Lemma save_failure_other
  (posts : list Reddit.RedditPost) (st : State W)
  (bestPost : Analyzer.PostScore) (error : Thrown) (w1 : W) :
  Analyzer.selectBestPost (clock st.(world)) posts = Some bestPost ->
  supabaseStorage.(saveSelectedPost) bestPost.(Analyzer.post) bestPost st.(world)
    = (Threw error, w1) ->
  isDuplicatePost error = false ->
  run posts st
  = (Threw (OrchestrationError "Failed to save selected post" "POST_SAVE_FAILED"
              (asCause error)),
     after st [SaveSelectedPost bestPost.(Analyzer.post).(Reddit.id)] w1).
Proof.
  intros Hbest Hsave Hother.
  unfold processPostToAudio. destruct posts as [|p0 posts']; [discriminate Hbest|].
  unfold tryCatch at 1, bind at 1, getWorld. rewrite Hbest.
  unfold bind at 1, saveOrReuse, tryCatch.
  rewrite (@call_returns W _ (SaveSelectedPost _) _ st _ _ Hsave).
  now rewrite Hother.
Qed.

(** C1, amended: when saving the selected post fails with the duplicate
    error, the run looks the post up by its source identifier; what it
    does next is decided by what the lookup returns. No record: the run
    fails with the message of an inconsistency and the duplicate error
    as cause, under the code [POST_SAVE_FAILED], which is the code of
    every other failure of the save step (last part); the orchestrator
    has no code for the inconsistency alone. A record whose audio
    reference is set: the run fails with [POST_ALREADY_PROCESSED]. A
    record without audio reference: the run is the remaining steps on
    that record, and what they return is the result of the run, with
    that record as its selected post. *)
Theorem duplicate_post_cases
  (posts : list Reddit.RedditPost) (st : State W)
  (bestPost : Analyzer.PostScore) (message : string) (w1 w2 : W)
  (lookup : option Database.SelectedPost) :
  let sourceId := bestPost.(Analyzer.post).(Reddit.id) in
  let duplicate := StorageError message "DUPLICATE_POST" in
  let st' := after st [SaveSelectedPost sourceId;
                       GetSelectedPostByRedditId sourceId] w2 in
  Analyzer.selectBestPost (clock st.(world)) posts = Some bestPost ->
  supabaseStorage.(saveSelectedPost) bestPost.(Analyzer.post) bestPost st.(world)
    = (Threw duplicate, w1) ->
  supabaseStorage.(getSelectedPostByRedditId) sourceId w1 = (Returned lookup, w2) ->
  (lookup = None ->
     run posts st
     = (Threw (OrchestrationError
                 "Post marked as duplicate but not found in database"
                 "POST_SAVE_FAILED" (Some duplicate)), st'))
  /\ (forall existing,
        lookup = Some existing -> audioReferenceSet existing = true ->
        run posts st
        = (Threw (OrchestrationError
                    "Post has already been processed with audio"
                    "POST_ALREADY_PROCESSED" (Some duplicate)), st'))
  /\ (forall existing,
        lookup = Some existing -> audioReferenceSet existing = false ->
        run posts st
        = tryCatch (remainingSteps bestPost existing) rethrowOrWrap st'
        /\ forall result st'',
             remainingSteps bestPost existing st' = (Returned result, st'') ->
             run posts st = (Returned result, st'')
             /\ result.(selectedPost) = existing)
  /\ (forall (posts0 : list Reddit.RedditPost) (st0 : State W)
             (best0 : Analyzer.PostScore) (error : Thrown) (w : W),
        Analyzer.selectBestPost (clock st0.(world)) posts0 = Some best0 ->
        supabaseStorage.(saveSelectedPost) best0.(Analyzer.post) best0 st0.(world)
          = (Threw error, w) ->
        isDuplicatePost error = false ->
        run posts0 st0
        = (Threw (OrchestrationError "Failed to save selected post"
                    "POST_SAVE_FAILED" (asCause error)),
           after st0 [SaveSelectedPost best0.(Analyzer.post).(Reddit.id)] w)).
Proof.
  intros sourceId duplicate st' Hbest Hsave Hlookup.
  rewrite (@processPostToAudio_duplicate posts st bestPost message w1 w2 lookup
             Hbest Hsave Hlookup).
  fold sourceId duplicate st'.
  split; [|split; [|split]].
  - intros ->. reflexivity.
  - intros existing -> Hset. rewrite Hset. reflexivity.
  - intros existing -> Hset. rewrite Hset.
    split; [reflexivity|].
    intros result st'' Hrest. unfold tryCatch. rewrite Hrest.
    split; [reflexivity|]. eapply generateAndStore_selectedPost; eauto.
  - intros posts0 st0 best0 error w Hbest0 Hsave0 Hother.
    now apply save_failure_other.
Qed.

(** When the lookup behind a duplicate fails itself, the failure is
    reported as an unexpected error. *)
Lemma duplicate_post_lookup_failure
  (posts : list Reddit.RedditPost) (st : State W)
  (bestPost : Analyzer.PostScore) (message message' code' : string) (w1 w2 : W) :
  let sourceId := bestPost.(Analyzer.post).(Reddit.id) in
  Analyzer.selectBestPost (clock st.(world)) posts = Some bestPost ->
  supabaseStorage.(saveSelectedPost) bestPost.(Analyzer.post) bestPost st.(world)
    = (Threw (StorageError message "DUPLICATE_POST"), w1) ->
  supabaseStorage.(getSelectedPostByRedditId) sourceId w1
    = (Threw (StorageError message' code'), w2) ->
  run posts st
  = (Threw (OrchestrationError
              ("Unexpected error during processing: " ++ message')
              "UNEXPECTED_ERROR" (Some (StorageError message' code'))),
     after st [SaveSelectedPost sourceId; GetSelectedPostByRedditId sourceId] w2).
Proof.
  intros sourceId Hbest Hsave Hlookup.
  unfold processPostToAudio. destruct posts as [|p0 posts']; [discriminate Hbest|].
  unfold tryCatch at 1, bind at 1, getWorld. rewrite Hbest.
  unfold bind at 1, saveOrReuse, tryCatch, bind.
  rewrite (@call_returns W _ (SaveSelectedPost _) _ st _ _ Hsave).
  cbn [isDuplicatePost].
  change (String.eqb "DUPLICATE_POST" "DUPLICATE_POST") with true. cbv beta iota.
  rewrite (@call_returns W _ (GetSelectedPostByRedditId _) _
             (after st [SaveSelectedPost sourceId] w1) _ _ Hlookup).
  now rewrite after_after.
Qed.

(** C9: [isPostProcessed] returns a boolean and never throws. It is
    [true] exactly when the lookup returns a record whose audio reference
    is not [null]; when the lookup throws it is [false]. *)
Theorem isPostProcessed_meaning (redditPostId : string) (st : State W) :
  exists processed : bool,
    fst (isPostProcessed supabaseStorage redditPostId st) = Returned processed
    /\ (processed = true <->
        exists record reference,
          fst (supabaseStorage.(getSelectedPostByRedditId) redditPostId st.(world))
          = Returned (Some record)
          /\ record.(Database.audio_file_id) = Some reference)
    /\ (forall error,
          fst (supabaseStorage.(getSelectedPostByRedditId) redditPostId st.(world))
          = Threw error ->
          processed = false).
Proof.
  unfold isPostProcessed, tryCatch, bind, call, ret.
  destruct (supabaseStorage.(getSelectedPostByRedditId) redditPostId st.(world))
    as [[lookup|error] w1]; cbn.
  - exists (existsWithAudio lookup). split; [reflexivity|]. split.
    + unfold existsWithAudio. split.
      * destruct lookup as [record|]; [|discriminate].
        destruct (Database.audio_file_id record) as [reference|] eqn:Href;
          [|discriminate].
        intros _. now exists record, reference.
      * intros (record & reference & [= ->] & ->). reflexivity.
    + discriminate.
  - exists false. split; [reflexivity|]. split.
    + split; [discriminate|]. intros (record & reference & H & _). discriminate.
    + reflexivity.
Qed.

End AnyWorld.

(** *** A sample store and run *)

Definition storedWithoutAudio : Database.SelectedPost :=
  {| Database.sp_id := "post-uuid";
     Database.reddit_post_id := "test123";
     Database.subreddit := "test";
     Database.title := "Test Post Title";
     Database.selftext :=
       Some "This is test content for the post. It has more than ten words.";
     Database.score := 500;
     Database.num_comments := 50;
     Database.author := "testuser";
     Database.created_utc := "1970-01-01T00:00:00.000Z";
     Database.selection_score := Analyzer.Fin 0.85;
     Database.audio_file_id := None;
     Database.sp_created_at := "2025-01-07T00:00:00.000Z" |}.

Definition savedAudioFile (data : AudioData) : Database.AudioFile :=
  {| Database.id := "audio-uuid";
     Database.file_url := data.(fileUrl);
     Database.duration_seconds := data.(durationSeconds);
     Database.file_size_bytes := data.(fileSizeBytes);
     Database.format := data.(format);
     Database.tts_provider := data.(ttsProvider);
     Database.voice_used := data.(voiceUsed);
     Database.created_at := "2025-01-07T00:00:01.000Z" |}.

(** A store that already holds the post of an interrupted run. *)
Definition storeWithInterruptedRun : StorageService unit :=
  {| saveSelectedPost := fun _ _ w =>
       (Threw (StorageError "Post test123 has already been selected"
                 "DUPLICATE_POST"), w);
     getSelectedPostByRedditId := fun _ w => (Returned (Some storedWithoutAudio), w);
     uploadAudioFile := fun audio fileName _ w =>
       (Returned {| audioFileId := fileName;
                    publicUrl := "https://example.com/audio.mp3";
                    fileSize := List.length audio |}, w);
     saveAudioFile := fun data w => (Returned (savedAudioFile data), w);
     linkAudioToPost := fun _ _ w => (Returned tt, w) |}.

Definition sampleRun :=
  processPostToAudio storeWithInterruptedRun [inworldReady] idle
    defaultVoiceId defaultCharacter unchanged unchanged
    (fun _ _ => 3600%R) (fun _ => 1736208000000%Z).

Definition sampleRemainingSteps :=
  generateAndStore storeWithInterruptedRun [inworldReady] idle
    defaultVoiceId defaultCharacter unchanged unchanged
    (fun _ => 1736208000000%Z).

Lemma duplicate_post_cases_interrupted_run :
  let bestPost := Analyzer.scorePost 3600 popularPost in
  let lookup := Some storedWithoutAudio in
  let duplicate :=
    StorageError "Post test123 has already been selected" "DUPLICATE_POST" in
  let st' := after (start tt) [SaveSelectedPost "test123";
                               GetSelectedPostByRedditId "test123"] tt in
  (lookup = None ->
     sampleRun [popularPost] (start tt)
     = (Threw (OrchestrationError
                 "Post marked as duplicate but not found in database"
                 "POST_SAVE_FAILED" (Some duplicate)), st'))
  /\ (forall existing,
        lookup = Some existing -> audioReferenceSet existing = true ->
        sampleRun [popularPost] (start tt)
        = (Threw (OrchestrationError
                    "Post has already been processed with audio"
                    "POST_ALREADY_PROCESSED" (Some duplicate)), st'))
  /\ (forall existing,
        lookup = Some existing -> audioReferenceSet existing = false ->
        sampleRun [popularPost] (start tt)
        = tryCatch (sampleRemainingSteps bestPost existing) rethrowOrWrap st'
        /\ forall result st'',
             sampleRemainingSteps bestPost existing st' = (Returned result, st'') ->
             sampleRun [popularPost] (start tt) = (Returned result, st'')
             /\ result.(selectedPost) = existing)
  /\ (forall (posts0 : list Reddit.RedditPost) (st0 : State unit)
             (best0 : Analyzer.PostScore) (error : Thrown) (w : unit),
        Analyzer.selectBestPost (fun _ => 3600%R) posts0 = Some best0 ->
        storeWithInterruptedRun.(saveSelectedPost) best0.(Analyzer.post) best0
          st0.(world) = (Threw error, w) ->
        isDuplicatePost error = false ->
        sampleRun posts0 st0
        = (Threw (OrchestrationError "Failed to save selected post"
                    "POST_SAVE_FAILED" (asCause error)),
           after st0 [SaveSelectedPost best0.(Analyzer.post).(Reddit.id)] w)).
Proof.
  apply (@duplicate_post_cases unit storeWithInterruptedRun [inworldReady] idle
           defaultVoiceId defaultCharacter unchanged unchanged
           (fun _ _ => 3600%R) (fun _ => 1736208000000%Z)
           [popularPost] (start tt) (Analyzer.scorePost 3600 popularPost)
           "Post test123 has already been selected" tt tt (Some storedWithoutAudio)).
  - apply AnalyzerFacts.selectBestPost_singleton. vm_compute. reflexivity.
  - reflexivity.
  - reflexivity.
Defined.

(** The sample run takes up the stored post and completes: the calls
    are the save that fails, the lookup, one probe and one synthesis call,
    the upload, the metadata and the link. *)
Example sampleRun_resumes :
  sampleRun [popularPost] (start tt)
  = (Returned
       {| selectedPost := storedWithoutAudio;
          audioFile :=
            savedAudioFile
              {| fileUrl := "https://example.com/audio.mp3";
                 durationSeconds := 7;
                 fileSizeBytes := 3;
                 format := "mp3";
                 ttsProvider := "inworld";
                 voiceUsed := defaultCharacter |};
          audioUrl := "https://example.com/audio.mp3";
          duration := 7 |},
     {| world := tt;
        log := [SaveSelectedPost "test123";
                GetSelectedPostByRedditId "test123";
                IsAvailable "inworld";
                GenerateSpeech "inworld"
                  "Test Post Title. This is test content for the post. It has more than ten words.";
                UploadAudioFile "test123_inworld_1736208000000.mp3" "audio/mpeg";
                SaveAudioFile "https://example.com/audio.mp3" 7;
                LinkAudioToPost "post-uuid" "audio-uuid"] |}).
Proof.
  unfold sampleRun.
  rewrite (@processPostToAudio_duplicate unit storeWithInterruptedRun
             [inworldReady] idle defaultVoiceId defaultCharacter unchanged
             unchanged (fun _ _ => 3600%R) (fun _ => 1736208000000%Z)
             [popularPost] (start tt) (Analyzer.scorePost 3600 popularPost)
             "Post test123 has already been selected" tt tt
             (Some storedWithoutAudio));
    [| apply AnalyzerFacts.selectBestPost_singleton; vm_compute; reflexivity
     | reflexivity | reflexivity].
  change (audioReferenceSet storedWithoutAudio) with false. cbv iota.
  unfold generateAndStore.
  change (Analyzer.post (Analyzer.scorePost 3600 popularPost)) with popularPost.
  generalize storedWithoutAudio
    (eq_refl : Database.sp_id storedWithoutAudio = "post-uuid").
  intros saved Hid. rewrite Hid.
  vm_compute. reflexivity.
Qed.

(** The same store when the lookup finds nothing, and when it finds the
    post with its audio linked. *)
Definition storeWithLookup (found : option Database.SelectedPost)
  : StorageService unit :=
  {| saveSelectedPost := storeWithInterruptedRun.(saveSelectedPost);
     getSelectedPostByRedditId := fun _ w => (Returned found, w);
     uploadAudioFile := storeWithInterruptedRun.(uploadAudioFile);
     saveAudioFile := storeWithInterruptedRun.(saveAudioFile);
     linkAudioToPost := storeWithInterruptedRun.(linkAudioToPost) |}.

Definition storedWithAudio : Database.SelectedPost :=
  {| Database.sp_id := storedWithoutAudio.(Database.sp_id);
     Database.reddit_post_id := storedWithoutAudio.(Database.reddit_post_id);
     Database.subreddit := storedWithoutAudio.(Database.subreddit);
     Database.title := storedWithoutAudio.(Database.title);
     Database.selftext := storedWithoutAudio.(Database.selftext);
     Database.score := storedWithoutAudio.(Database.score);
     Database.num_comments := storedWithoutAudio.(Database.num_comments);
     Database.author := storedWithoutAudio.(Database.author);
     Database.created_utc := storedWithoutAudio.(Database.created_utc);
     Database.selection_score := storedWithoutAudio.(Database.selection_score);
     Database.audio_file_id := Some "existing-audio-uuid";
     Database.sp_created_at := storedWithoutAudio.(Database.sp_created_at) |}.

Example sampleRun_other_cases :
  let run store :=
    processPostToAudio store [inworldReady] idle defaultVoiceId defaultCharacter
      unchanged unchanged (fun _ _ => 3600%R) (fun _ => 1736208000000%Z)
      [popularPost] (start tt) in
  let duplicate :=
    StorageError "Post test123 has already been selected" "DUPLICATE_POST" in
  let st' := after (start tt) [SaveSelectedPost "test123";
                               GetSelectedPostByRedditId "test123"] tt in
  run (storeWithLookup None)
  = (Threw (OrchestrationError
              "Post marked as duplicate but not found in database"
              "POST_SAVE_FAILED" (Some duplicate)), st')
  /\ run (storeWithLookup (Some storedWithAudio))
     = (Threw (OrchestrationError
                 "Post has already been processed with audio"
                 "POST_ALREADY_PROCESSED" (Some duplicate)), st').
Proof.
  split.
  - rewrite (@processPostToAudio_duplicate unit (storeWithLookup None)
               [inworldReady] idle defaultVoiceId defaultCharacter unchanged
               unchanged (fun _ _ => 3600%R) (fun _ => 1736208000000%Z)
               [popularPost] (start tt) (Analyzer.scorePost 3600 popularPost)
               "Post test123 has already been selected" tt tt None);
      [reflexivity
      | apply AnalyzerFacts.selectBestPost_singleton; vm_compute; reflexivity
      | reflexivity | reflexivity].
  - rewrite (@processPostToAudio_duplicate unit
               (storeWithLookup (Some storedWithAudio))
               [inworldReady] idle defaultVoiceId defaultCharacter unchanged
               unchanged (fun _ _ => 3600%R) (fun _ => 1736208000000%Z)
               [popularPost] (start tt) (Analyzer.scorePost 3600 popularPost)
               "Post test123 has already been selected" tt tt
               (Some storedWithAudio));
      [reflexivity
      | apply AnalyzerFacts.selectBestPost_singleton; vm_compute; reflexivity
      | reflexivity | reflexivity].
Qed.

(** A store on which the save fails for another reason, as in the test
    suite of the orchestrator. *)
Definition storeWithFailingSave : StorageService unit :=
  {| saveSelectedPost := fun _ _ w =>
       (Threw (StorageError "Database error" "DB_ERROR"), w);
     getSelectedPostByRedditId := storeWithInterruptedRun.(getSelectedPostByRedditId);
     uploadAudioFile := storeWithInterruptedRun.(uploadAudioFile);
     saveAudioFile := storeWithInterruptedRun.(saveAudioFile);
     linkAudioToPost := storeWithInterruptedRun.(linkAudioToPost) |}.

(** [error.code] of an [OrchestrationError] *)
Definition orchestrationCode (outcome : Outcome PostToAudioResult)
  : option string :=
  match outcome with
  | Threw (OrchestrationError _ code _) => Some code
  | _ => None
  end.

(** C1, as the claim words it, fails: a duplicate error behind which the
    lookup finds no record is not reported as an error kind of its own.
    The run fails under the code [POST_SAVE_FAILED], and that is the
    code under which it reports a save that failed for any other
    reason; the two failures differ in message and cause only. *)
Lemma duplicate_not_found_is_save_failure :
  fst (processPostToAudio (storeWithLookup None) [inworldReady] idle
         defaultVoiceId defaultCharacter unchanged unchanged
         (fun _ _ => 3600%R) (fun _ => 1736208000000%Z)
         [popularPost] (start tt))
  = Threw (OrchestrationError
             "Post marked as duplicate but not found in database"
             "POST_SAVE_FAILED"
             (Some (StorageError "Post test123 has already been selected"
                      "DUPLICATE_POST")))
  /\ fst (processPostToAudio storeWithFailingSave [inworldReady] idle
            defaultVoiceId defaultCharacter unchanged unchanged
            (fun _ _ => 3600%R) (fun _ => 1736208000000%Z)
            [popularPost] (start tt))
     = Threw (OrchestrationError "Failed to save selected post"
                "POST_SAVE_FAILED"
                (Some (StorageError "Database error" "DB_ERROR")))
  /\ orchestrationCode
       (fst (processPostToAudio (storeWithLookup None) [inworldReady] idle
               defaultVoiceId defaultCharacter unchanged unchanged
               (fun _ _ => 3600%R) (fun _ => 1736208000000%Z)
               [popularPost] (start tt)))
     = orchestrationCode
         (fst (processPostToAudio storeWithFailingSave [inworldReady] idle
                 defaultVoiceId defaultCharacter unchanged unchanged
                 (fun _ _ => 3600%R) (fun _ => 1736208000000%Z)
                 [popularPost] (start tt))).
Proof.
  assert (Hbest : Analyzer.selectBestPost (fun _ => 3600%R) [popularPost]
                  = Some (Analyzer.scorePost 3600 popularPost)).
  { apply AnalyzerFacts.selectBestPost_singleton. vm_compute. reflexivity. }
  rewrite (@processPostToAudio_duplicate unit (storeWithLookup None)
             [inworldReady] idle defaultVoiceId defaultCharacter unchanged
             unchanged (fun _ _ => 3600%R) (fun _ => 1736208000000%Z)
             [popularPost] (start tt) (Analyzer.scorePost 3600 popularPost)
             "Post test123 has already been selected" tt tt None
             Hbest eq_refl eq_refl).
  rewrite (@save_failure_other unit storeWithFailingSave [inworldReady] idle
             defaultVoiceId defaultCharacter unchanged unchanged
             (fun _ _ => 3600%R) (fun _ => 1736208000000%Z)
             [popularPost] (start tt) (Analyzer.scorePost 3600 popularPost)
             (StorageError "Database error" "DB_ERROR") tt Hbest eq_refl eq_refl).
  repeat split.
Qed.

(** The four cases of the test suite for [isPostProcessed]. *)
Example isPostProcessed_samples :
  fst (isPostProcessed (storeWithLookup (Some storedWithAudio)) "test123" (start tt))
  = Returned true
  /\ fst (isPostProcessed (storeWithLookup (Some storedWithoutAudio)) "test123" (start tt))
     = Returned false
  /\ fst (isPostProcessed (storeWithLookup None) "test123" (start tt))
     = Returned false
  /\ fst (isPostProcessed
            {| saveSelectedPost := storeWithInterruptedRun.(saveSelectedPost);
               getSelectedPostByRedditId := fun _ w =>
                 (Threw (PlainError "Database error"), w);
               uploadAudioFile := storeWithInterruptedRun.(uploadAudioFile);
               saveAudioFile := storeWithInterruptedRun.(saveAudioFile);
               linkAudioToPost := storeWithInterruptedRun.(linkAudioToPost) |}
            "test123" (start tt))
     = Returned false.
Proof. repeat split. Qed.

(** A store on which the lookup behind the duplicate error times out. *)
Definition storeWithFailingLookup : StorageService unit :=
  {| saveSelectedPost := storeWithInterruptedRun.(saveSelectedPost);
     getSelectedPostByRedditId := fun _ w =>
       (Threw (StorageError "Failed to get selected post: timeout"
                 "DB_SELECT_ERROR"), w);
     uploadAudioFile := storeWithInterruptedRun.(uploadAudioFile);
     saveAudioFile := storeWithInterruptedRun.(saveAudioFile);
     linkAudioToPost := storeWithInterruptedRun.(linkAudioToPost) |}.

Lemma duplicate_post_lookup_failure_timeout :
  processPostToAudio storeWithFailingLookup [inworldReady] idle
    defaultVoiceId defaultCharacter unchanged unchanged
    (fun _ _ => 3600%R) (fun _ => 1736208000000%Z) [popularPost] (start tt)
  = (Threw (OrchestrationError
              "Unexpected error during processing: Failed to get selected post: timeout"
              "UNEXPECTED_ERROR"
              (Some (StorageError "Failed to get selected post: timeout"
                       "DB_SELECT_ERROR"))),
     after (start tt) [SaveSelectedPost "test123";
                       GetSelectedPostByRedditId "test123"] tt).
Proof.
  apply (@duplicate_post_lookup_failure unit storeWithFailingLookup [inworldReady]
           idle defaultVoiceId defaultCharacter unchanged unchanged
           (fun _ _ => 3600%R) (fun _ => 1736208000000%Z)
           [popularPost] (start tt) (Analyzer.scorePost 3600 popularPost)
           "Post test123 has already been selected"
           "Failed to get selected post: timeout" "DB_SELECT_ERROR" tt tt).
  - apply AnalyzerFacts.selectBestPost_singleton. vm_compute. reflexivity.
  - reflexivity.
  - reflexivity.
Defined.

End OrchestrationClaims.

(* ================================================================== *)
(** ** What a run of the TTS service can cost, and how it fails *)
(* ================================================================== *)

Section FailoverBounds.
Import Effects EffectsFacts TTS TTSFacts.
Local Open Scope string_scope.
Local Open Scope Z_scope.

Definition isProbe (ev : Event) : bool :=
  match ev with IsAvailable _ => true | _ => false end.

Definition waited (ev : Event) : Z :=
  match ev with Wait delayMs => delayMs | _ => 0 end.

(** The time that the timers of the calls [evs] run, in milliseconds. *)
Definition totalWait (evs : list Event) : Z :=
  fold_right (fun ev total => waited ev + total) 0 evs.

(** The longest wait that can follow the given attempt. *)
Definition waitAllowance (attempt : Z) : Z :=
  if attempt <? maxAttempts
  then Z.max (backoffDelay attempt) (backoffDelay (attempt + 1))
  else 0.

Definition waitBound (attempts : list Z) : Z :=
  fold_right (fun attempt total => waitAllowance attempt + total) 0 attempts.

(** A call that an attempt on the provider [name] makes for [text]. *)
Definition attemptEvent (name text : string) (ev : Event) : Prop :=
  ev = IsAvailable name \/ ev = GenerateSpeech name text \/ exists d, ev = Wait d.

Record withinBudget (name text : string) (attempts : list Z)
  (evs : list Event) : Prop := {
  probes_bounded :
    (List.length (filter isProbe evs) <= List.length attempts)%nat;
  synthesis_after_probe :
    (List.length (filter isSynthesis evs) <= List.length (filter isProbe evs))%nat;
  wait_bounded : totalWait evs <= waitBound attempts;
  calls_of_provider : Forall (attemptEvent name text) evs
}.

Lemma backoffDelay_nonneg attempt : 0 <= backoffDelay attempt.
Proof.
  unfold backoffDelay, initialDelayMs, backoffMultiplier, maxDelayMs.
  pose proof (Z.pow_nonneg 2 (attempt - 1)). lia.
Qed.

Lemma waitAllowance_nonneg attempt : 0 <= waitAllowance attempt.
Proof.
  unfold waitAllowance. pose proof (backoffDelay_nonneg attempt).
  destruct (attempt <? maxAttempts); lia.
Qed.

Lemma waitBound_nonneg attempts : 0 <= waitBound attempts.
Proof.
  induction attempts as [|attempt attempts IH]; cbn; [lia|].
  pose proof (waitAllowance_nonneg attempt). fold (waitBound attempts). lia.
Qed.

Lemma totalWait_app evs1 evs2 :
  totalWait (evs1 ++ evs2) = totalWait evs1 + totalWait evs2.
Proof.
  induction evs1 as [|ev evs1 IH]; cbn; [reflexivity|].
  unfold totalWait in IH. rewrite IH. unfold totalWait. lia.
Qed.

(** The calls of one attempt: the probe, perhaps the synthesis call,
    perhaps a wait. *)
Inductive attemptCalls (name text : string) (attempt : Z) : list Event -> Prop :=
| probe_only : attemptCalls name text attempt [IsAvailable name]
| probe_wait d :
    0 <= d <= waitAllowance attempt ->
    attemptCalls name text attempt [IsAvailable name; Wait d]
| probe_synthesis :
    attemptCalls name text attempt [IsAvailable name; GenerateSpeech name text]
| probe_synthesis_wait d :
    0 <= d <= waitAllowance attempt ->
    attemptCalls name text attempt
      [IsAvailable name; GenerateSpeech name text; Wait d].

Lemma withinBudget_none name text attempts : withinBudget name text attempts [].
Proof.
  split; cbn; try lia; [apply waitBound_nonneg|constructor].
Qed.

Lemma withinBudget_one name text attempt later calls evs :
  attemptCalls name text attempt calls ->
  withinBudget name text later evs ->
  withinBudget name text (attempt :: later) (calls ++ evs).
Proof.
  intros Hcalls [Hp Hs Hw Hf].
  pose proof (waitAllowance_nonneg attempt) as Hnn.
  assert (Hev : Forall (attemptEvent name text) calls).
  { destruct Hcalls;
      repeat (apply Forall_cons; [unfold attemptEvent; eauto|]);
      apply Forall_nil. }
  split.
  - rewrite filter_app, length_app. destruct Hcalls; cbn; lia.
  - rewrite !filter_app, !length_app. destruct Hcalls; cbn; lia.
  - rewrite totalWait_app. cbn [waitBound fold_right]. fold (waitBound later).
    destruct Hcalls; cbn; lia.
  - apply Forall_app. now split.
Qed.

Lemma attemptCalls_probe_first name text attempt calls evs :
  attemptCalls name text attempt calls ->
  exists rest, (calls ++ evs)%list = IsAvailable name :: rest.
Proof. intros []; cbn; eauto. Qed.

Lemma waitAllowance_covers attempt :
  (attempt <? maxAttempts) = true ->
  (0 <= backoffDelay attempt <= waitAllowance attempt)
  /\ (0 <= backoffDelay (attempt + 1) <= waitAllowance attempt).
Proof.
  intros H. unfold waitAllowance. rewrite H.
  pose proof (backoffDelay_nonneg attempt).
  pose proof (backoffDelay_nonneg (attempt + 1)). lia.
Qed.

Section AnyWorld.
Variable W : Type.
Variable sleep : Z -> W -> W.
Variable elevenLabsVoiceId inworldCharacter : string.
Variable cleanMarkdown addPauses : string -> string.

Local Abbreviation providersFrom :=
  (tryProviders sleep elevenLabsVoiceId inworldCharacter).
Local Abbreviation generate :=
  (generateAudio sleep elevenLabsVoiceId inworldCharacter cleanMarkdown addPauses).
Local Abbreviation formatOf := (Formatter.formatForTTS cleanMarkdown addPauses).

(** The calls that the retry loop adds to the log stay within the budget
    of its attempts, whatever the provider does, and begin with a probe. *)
Lemma retryFrom_withinBudget (p : TTSProvider W) text attempts lastError st :
  exists evs,
    (snd (retryFrom sleep p text attempts lastError st)).(log)
    = (st.(log) ++ evs)%list
    /\ withinBudget p.(name) text attempts evs
    /\ (attempts <> [] -> exists rest, evs = IsAvailable p.(name) :: rest).
Proof.
  revert lastError st.
  induction attempts as [|attempt attempts IH]; intros lastError st.
  - exists []. cbn. rewrite app_nil_r.
    split; [reflexivity|]. split; [apply withinBudget_none|congruence].
  - assert (Hnext : forall calls lastError' st1,
               st1.(log) = (st.(log) ++ calls)%list ->
               attemptCalls p.(name) text attempt calls ->
               exists evs,
                 (snd (retryFrom sleep p text attempts lastError' st1)).(log)
                 = (st.(log) ++ evs)%list
                 /\ withinBudget p.(name) text (attempt :: attempts) evs
                 /\ (attempt :: attempts <> [] ->
                     exists rest, evs = IsAvailable p.(name) :: rest)).
    { intros calls lastError' st1 Hst1 Hcalls.
      destruct (IH lastError' st1) as (evs & Hlog & Hb & _).
      exists (calls ++ evs)%list. split; [|split].
      - rewrite Hlog, Hst1. now rewrite app_assoc.
      - now apply withinBudget_one.
      - intros _. eapply attemptCalls_probe_first; eassumption. }
    assert (Hstop : forall calls,
               attemptCalls p.(name) text attempt calls ->
               withinBudget p.(name) text (attempt :: attempts) calls
               /\ (attempt :: attempts <> [] ->
                   exists rest, calls = IsAvailable p.(name) :: rest)).
    { intros calls Hcalls. rewrite <- (app_nil_r calls). split.
      - apply withinBudget_one; [exact Hcalls|apply withinBudget_none].
      - intros _. eapply attemptCalls_probe_first; eassumption. }
    pose proof (waitAllowance_covers attempt) as Hcover.
    cbn [retryFrom].
    unfold tryCatch at 1, bind at 1, callIsAvailable, callGenerateSpeech, call.
    destruct (p.(isAvailable) st.(world)) as [[|] w1]; cbn.
    + destruct (p.(generateSpeech) text w1) as [[a|e] w2] eqn:Hs.
      * cbn. rewrite <- app_assoc. eexists. split; [reflexivity|].
        apply Hstop. constructor.
      * destruct (providerStatusCode e) as [code|].
        -- destruct ((code =? 401) || (code =? 403)).
           ++ cbn. rewrite <- app_assoc. eexists. split; [reflexivity|].
              apply Hstop. constructor.
           ++ destruct (code =? 429); cbn [andb].
              ** destruct (attempt <? maxAttempts) eqn:Hlt.
                 --- unfold bind at 1. rewrite waitWithBackoff_returns.
                     eapply Hnext;
                       [cbn; rewrite <- !app_assoc; reflexivity|].
                     apply probe_synthesis_wait. now apply Hcover.
                 --- unfold bind at 1. cbn.
                     eapply Hnext;
                       [cbn; rewrite <- !app_assoc; reflexivity|].
                     apply probe_synthesis.
              ** unfold bind at 1.
                 destruct (attempt <? maxAttempts) eqn:Hlt.
                 --- rewrite waitWithBackoff_returns.
                     eapply Hnext;
                       [cbn; rewrite <- !app_assoc; reflexivity|].
                     apply probe_synthesis_wait. now apply Hcover.
                 --- eapply Hnext;
                       [cbn; rewrite <- !app_assoc; reflexivity|].
                     apply probe_synthesis.
        -- unfold bind at 1.
           destruct (attempt <? maxAttempts) eqn:Hlt.
           ++ rewrite waitWithBackoff_returns.
              eapply Hnext; [cbn; rewrite <- !app_assoc; reflexivity|].
              apply probe_synthesis_wait. now apply Hcover.
           ++ eapply Hnext; [cbn; rewrite <- !app_assoc; reflexivity|].
              apply probe_synthesis.
    + unfold bind at 1.
      destruct (attempt <? maxAttempts) eqn:Hlt.
      * rewrite waitWithBackoff_returns.
        eapply Hnext; [cbn; rewrite <- !app_assoc; reflexivity|].
        apply probe_wait. now apply Hcover.
      * eapply Hnext; [cbn; reflexivity|]. apply probe_only.
Qed.

Lemma attemptNumbers_budget :
  List.length attemptNumbers = 3%nat /\ waitBound attemptNumbers = 6000.
Proof. split; reflexivity. Qed.

(** The same for the loop over the providers: three probes and six
    seconds of waiting for each provider that is tried. *)
Lemma tryProviders_withinBudget (providers : list (TTSProvider W))
  formatted lastError st :
  exists evs,
    (snd (providersFrom providers formatted lastError st)).(log)
    = (st.(log) ++ evs)%list
    /\ (List.length (filter isProbe evs) <= 3 * List.length providers)%nat
    /\ (List.length (filter isSynthesis evs)
        <= List.length (filter isProbe evs))%nat
    /\ totalWait evs <= 6000 * Z.of_nat (List.length providers)
    /\ Forall (fun ev => exists p, In p providers
                 /\ attemptEvent p.(name) formatted.(Formatter.text) ev) evs.
Proof.
  revert lastError st.
  induction providers as [|p providers IH]; intros lastError st.
  - exists []. cbn. rewrite app_nil_r. repeat split; try lia. constructor.
  - cbn [tryProviders]. unfold tryCatch at 1, bind at 1.
    destruct (retryFrom_withinBudget p formatted.(Formatter.text)
                attemptNumbers None st) as (evs1 & Hlog1 & [Hp Hs Hw Hf] & _).
    fold (generateWithRetry sleep p formatted.(Formatter.text)) in Hlog1.
    destruct attemptNumbers_budget as [Hthree Hsix].
    rewrite Hthree in Hp. rewrite Hsix in Hw.
    assert (Hf' : Forall (fun ev => exists q, In q (p :: providers)
                   /\ attemptEvent q.(name) formatted.(Formatter.text) ev) evs1).
    { eapply Forall_impl; [|exact Hf]. intros ev Hev. exists p.
      split; [now left|exact Hev]. }
    destruct (generateWithRetry sleep p formatted.(Formatter.text) st)
      as [[audio|error] st1]; cbn [snd] in Hlog1.
    + exists evs1. cbn [ret snd]. cbn [List.length].
      split; [exact Hlog1|]. repeat split; try lia. exact Hf'.
    + destruct (IH (Some (asError error)) st1)
        as (evs2 & Hlog2 & Hp2 & Hs2 & Hw2 & Hf2).
      exists (evs1 ++ evs2)%list.
      rewrite Hlog2, Hlog1, !filter_app, !length_app, totalWait_app.
      cbn [List.length].
      split; [now rewrite app_assoc|]. repeat split; try lia.
      apply Forall_app. split; [exact Hf'|].
      eapply Forall_impl; [|exact Hf2]. intros ev (q & Hq & Hev).
      exists q. split; [now right|exact Hev].
Qed.

(** The calls of a run fall into one run of calls for each provider that
    was tried, in the order of the list; each stays within the budget of
    its provider and begins with a probe of it. The providers that were
    tried are all providers when the run fails, and end with the
    provider that answered when it returns. *)
Lemma tryProviders_segments (providers : list (TTSProvider W))
  formatted lastError st :
  exists tried notTried segments,
    providers = (tried ++ notTried)%list
    /\ (snd (providersFrom providers formatted lastError st)).(log)
       = (st.(log) ++ List.concat segments)%list
    /\ Forall2 (fun (p : TTSProvider W) calls =>
                  withinBudget p.(name) formatted.(Formatter.text)
                    attemptNumbers calls
                  /\ exists rest, calls = IsAvailable p.(name) :: rest)
         tried segments
    /\ (forall error,
          fst (providersFrom providers formatted lastError st) = Threw error ->
          notTried = [])
    /\ (forall result,
          fst (providersFrom providers formatted lastError st) = Returned result ->
          exists earlier p,
            tried = (earlier ++ [p])%list /\ result.(provider) = p.(name)).
Proof.
  revert lastError st.
  induction providers as [|p providers IH]; intros lastError st.
  - exists [], [], []. cbn. rewrite app_nil_r.
    repeat split; try constructor. discriminate.
  - cbn [tryProviders]. unfold tryCatch, bind.
    destruct (retryFrom_withinBudget p formatted.(Formatter.text)
                attemptNumbers None st) as (evs1 & Hlog1 & Hbudget & Hfirst).
    fold (generateWithRetry sleep p formatted.(Formatter.text)) in Hlog1.
    specialize (Hfirst ltac:(discriminate)).
    destruct (generateWithRetry sleep p formatted.(Formatter.text) st)
      as [[audio|failure] st1]; cbn [snd] in Hlog1.
    + exists [p], providers, [evs1]. unfold ret. cbn [fst snd List.concat app].
      rewrite app_nil_r.
      split; [reflexivity|]. split; [exact Hlog1|].
      split; [constructor; [now split|constructor]|].
      split; [intros error Herror; cbn in Herror; discriminate Herror|].
      intros result Hresult. cbn in Hresult. injection Hresult as <-.
      exists [], p. now split.
    + destruct (IH (Some (asError failure)) st1)
        as (tried & notTried & segments & Hsplit & Hlog2 & Hall & Hthrew & Hret).
      exists (p :: tried), notTried, (evs1 :: segments).
      cbn [List.concat app]. rewrite Hsplit.
      split; [reflexivity|].
      split; [rewrite Hsplit in Hlog2; rewrite Hlog2, Hlog1; now rewrite app_assoc|].
      split; [constructor; [now split|exact Hall]|].
      rewrite Hsplit in Hthrew, Hret.
      split; [exact Hthrew|].
      intros result Hresult. destruct (Hret result Hresult) as (earlier & q & -> & Hq).
      exists (p :: earlier), q. now split.
Qed.

(** X4: whatever the providers do, the calls of a run of [generateAudio]
    fall into one run of calls for each provider that it tries, in the
    order of the list. The calls for a provider begin with a probe of
    it; they hold at most three probes and never more synthesis calls
    than probes; their timers run for at most six seconds; and each of
    them is a probe of this provider, a synthesis call of this provider
    on the formatted text of the post, or a wait. A run that fails has
    tried every provider, a run that returns ends with the calls of the
    provider that it names. *)
Theorem generateAudio_call_budget
  (providers : list (TTSProvider W)) (post : Reddit.RedditPost) (st : State W) :
  let text := (formatOf post).(Formatter.text) in
  exists tried notTried segments,
    providers = (tried ++ notTried)%list
    /\ (snd (generate providers post st)).(log)
       = (st.(log) ++ List.concat segments)%list
    /\ Forall2 (fun (p : TTSProvider W) calls =>
                  (exists rest, calls = IsAvailable p.(name) :: rest)
                  /\ (List.length (filter isProbe calls) <= 3)%nat
                  /\ (List.length (filter isSynthesis calls)
                      <= List.length (filter isProbe calls))%nat
                  /\ totalWait calls <= 6000
                  /\ Forall (attemptEvent p.(name) text) calls)
         tried segments
    /\ (forall error,
          fst (generate providers post st) = Threw error -> notTried = [])
    /\ (forall result,
          fst (generate providers post st) = Returned result ->
          exists earlier p,
            tried = (earlier ++ [p])%list /\ result.(provider) = p.(name)).
Proof.
  intros text. unfold generateAudio.
  destruct (tryProviders_segments providers (formatOf post) None st)
    as (tried & notTried & segments & Hsplit & Hlog & Hall & Hthrew & Hret).
  exists tried, notTried, segments.
  split; [exact Hsplit|]. split; [exact Hlog|].
  split; [|split; [exact Hthrew|exact Hret]].
  eapply Forall2_impl; [|exact Hall].
  intros p calls [[Hp Hs Hw Hf] Hfirst].
  destruct attemptNumbers_budget as [Hthree Hsix].
  rewrite Hthree in Hp. rewrite Hsix in Hw.
  repeat split; assumption.
Qed.

Lemma isError_asError error : isError (asError error) = true.
Proof. now destruct error. Qed.

Lemma tryProviders_threw (providers : list (TTSProvider W))
  formatted lastError st error st' :
  providersFrom providers formatted lastError st = (Threw error, st') ->
  exists last evs,
    error = allProvidersFailed last
    /\ st'.(log) = (st.(log) ++ evs)%list
    /\ (forall p, In p providers -> In (IsAvailable p.(name)) evs)
    /\ (providers = [] -> last = lastError)
    /\ (providers <> [] -> exists cause, last = Some cause /\ isError cause = true).
Proof.
  revert lastError st.
  induction providers as [|p providers IH]; intros lastError st.
  - cbn. intros [= <- <-]. exists lastError, [].
    rewrite app_nil_r. repeat split; try easy.
  - cbn [tryProviders]. unfold tryCatch at 1, bind at 1.
    destruct (retryFrom_withinBudget p formatted.(Formatter.text)
                attemptNumbers None st) as (evs1 & Hlog1 & _ & Hfirst).
    fold (generateWithRetry sleep p formatted.(Formatter.text)) in Hlog1.
    destruct Hfirst as [rest Hrest]; [discriminate|].
    destruct (generateWithRetry sleep p formatted.(Formatter.text) st)
      as [[audio|failure] st1]; cbn [snd] in Hlog1; [discriminate|].
    intros Hrun. apply IH in Hrun.
    destruct Hrun as (last & evs2 & -> & Hlog2 & Hall & Hnone & Hsome).
    exists last, (evs1 ++ evs2)%list.
    split; [reflexivity|]. split; [now rewrite Hlog2, Hlog1, app_assoc|].
    split; [|split; [discriminate|]].
    + intros q [<- | Hq]; apply in_or_app.
      * left. rewrite Hrest. now left.
      * right. now apply Hall.
    + intros _. destruct providers as [|q providers].
      * rewrite (Hnone eq_refl). eexists. split; [reflexivity|].
        apply isError_asError.
      * apply Hsome. discriminate.
Qed.

(** The error that the loop over the providers keeps is the one that
    the retry loop of the last provider threw, and the state in which
    the run fails is the state in which that loop ended. *)
Lemma tryProviders_threw_last (providers : list (TTSProvider W))
  formatted lastError st error st' :
  providersFrom providers formatted lastError st = (Threw error, st') ->
  exists last,
    error = allProvidersFailed last
    /\ (providers = [] -> last = lastError)
    /\ (forall earlier lastProvider,
          providers = (earlier ++ [lastProvider])%list ->
          exists failure st1,
            generateWithRetry sleep lastProvider formatted.(Formatter.text) st1
            = (Threw failure, st')
            /\ last = Some (asError failure)).
Proof.
  revert lastError st.
  induction providers as [|p providers IH]; intros lastError st.
  - cbn. intros [= <- <-]. exists lastError.
    split; [reflexivity|]. split; [reflexivity|].
    intros [|q earlier] lastProvider; discriminate.
  - cbn [tryProviders]. unfold tryCatch at 1, bind at 1.
    destruct (generateWithRetry sleep p formatted.(Formatter.text) st)
      as [[audio|failure] st1] eqn:Hretry; [discriminate|].
    intros Hrun. pose proof Hrun as Hrest. apply IH in Hrun.
    destruct Hrun as (last & -> & Hnone & Hlast).
    exists last. split; [reflexivity|]. split; [discriminate|].
    intros earlier lastProvider Hsplit.
    destruct earlier as [|q earlier]; cbn [app] in Hsplit.
    + injection Hsplit as <- ->.
      cbn in Hrest. injection Hrest as _ <-.
      exists failure, st. split; [exact Hretry|]. now apply Hnone.
    + injection Hsplit as _ ->. exact (Hlast earlier lastProvider eq_refl).
Qed.

(** X5: the only error that [generateAudio] raises is the
    [TTSServiceError] with code ALL_PROVIDERS_FAILED, and it raises it
    only after it has probed every provider of its list. With at least
    one provider, the error that its message reports is what the retry
    loop of the last provider of the list threw (made an [Error] when it
    is none), and the run fails in the state in which that loop ended;
    with no provider there is no such error. *)
Theorem generateAudio_fails_after_all_providers
  (providers : list (TTSProvider W)) (post : Reddit.RedditPost)
  (st st' : State W) (error : Thrown) :
  let text := (formatOf post).(Formatter.text) in
  generate providers post st = (Threw error, st') ->
  exists lastError evs,
    error = TTSServiceError
              ("All TTS providers failed. Last error: "
               ++ lastErrorMessage lastError) "ALL_PROVIDERS_FAILED"
    /\ st'.(log) = (st.(log) ++ evs)%list
    /\ (forall p, In p providers -> In (IsAvailable p.(name)) evs)
    /\ (providers = [] -> lastError = None)
    /\ (forall earlier lastProvider,
          providers = (earlier ++ [lastProvider])%list ->
          exists failure st1,
            generateWithRetry sleep lastProvider text st1 = (Threw failure, st')
            /\ lastError = Some (asError failure)).
Proof.
  intros text. unfold generateAudio. intros Hrun.
  pose proof (tryProviders_threw_last _ _ _ _ Hrun) as (last & Herror & Hnone & Hlast).
  apply tryProviders_threw in Hrun.
  destruct Hrun as (last' & evs & _ & Hlog & Hall & _ & _).
  exists last, evs.
  split; [exact Herror|]. split; [exact Hlog|]. split; [exact Hall|].
  split; [exact Hnone|exact Hlast].
Qed.

(** The last attempt, when its synthesis call fails: no wait follows. *)
Lemma attempt_last_failure (p : TTSProvider W) text attempt later lastError
  st w1 error w2 :
  p.(isAvailable) st.(world) = (true, w1) ->
  p.(generateSpeech) text w1 = (Threw error, w2) ->
  retryable error ->
  maxAttempts <= attempt ->
  retryFrom sleep p text (attempt :: later) lastError st
  = retryFrom sleep p text later (Some (asError error))
      (after st [IsAvailable p.(name); GenerateSpeech p.(name) text] w2).
Proof.
  intros Hprobe Hspeech [H401 H403] Hge. cbn [retryFrom].
  unfold tryCatch at 1, bind at 1, callIsAvailable, callGenerateSpeech, call.
  rewrite Hprobe. cbn. rewrite Hspeech.
  apply Z.ltb_ge in Hge. rewrite Hge.
  destruct (providerStatusCode error) as [code|] eqn:Hcode.
  - destruct (Z.eqb_spec code 401) as [->|_]; [congruence|].
    destruct (Z.eqb_spec code 403) as [->|_]; [congruence|].
    rewrite andb_false_r. cbn. unfold bind, ret, after. cbn.
    now rewrite <- !app_assoc.
  - cbn. unfold bind, ret, after. cbn. now rewrite <- !app_assoc.
Qed.

(** X6: a provider that is available and fails all three synthesis calls
    with errors other than 401 and 403 is given up after the third call,
    without a wait behind it, and what [generateWithRetry] throws is the
    error of the third call; [generateAudio] then goes on with the next
    provider. *)
Theorem three_failures_exhaust_provider
  (p : TTSProvider W) (later : list (TTSProvider W))
  (post : Reddit.RedditPost) (st : State W)
  (w1 w2 w3 w4 w5 w6 : W) (error1 error2 error3 : Thrown) :
  let formatted := formatOf post in
  let text := formatted.(Formatter.text) in
  let st' := after st
               [IsAvailable p.(name); GenerateSpeech p.(name) text;
                Wait (delayAfter error1 1);
                IsAvailable p.(name); GenerateSpeech p.(name) text;
                Wait (delayAfter error2 2);
                IsAvailable p.(name); GenerateSpeech p.(name) text] w6 in
  p.(isAvailable) st.(world) = (true, w1) ->
  p.(generateSpeech) text w1 = (Threw error1, w2) ->
  retryable error1 ->
  p.(isAvailable) (sleep (delayAfter error1 1) w2) = (true, w3) ->
  p.(generateSpeech) text w3 = (Threw error2, w4) ->
  retryable error2 ->
  p.(isAvailable) (sleep (delayAfter error2 2) w4) = (true, w5) ->
  p.(generateSpeech) text w5 = (Threw error3, w6) ->
  retryable error3 ->
  generateWithRetry sleep p text st = (Threw (asError error3), st')
  /\ generate (p :: later) post st
     = providersFrom later formatted (Some (asError error3)) st'.
Proof.
  intros formatted text st' Ha1 Hs1 Hr1 Ha2 Hs2 Hr2 Ha3 Hs3 Hr3.
  assert (Hretry : generateWithRetry sleep p text st
                   = (Threw (asError error3), st')).
  { unfold generateWithRetry. change attemptNumbers with [1; 2; 3].
    rewrite (attempt_failure sleep p text [2; 3] None st Ha1 Hs1 Hr1)
      by reflexivity.
    erewrite attempt_failure; [|exact Ha2|exact Hs2|exact Hr2|reflexivity].
    erewrite attempt_last_failure;
      [|exact Ha3|exact Hs3|exact Hr3|unfold maxAttempts; lia].
    cbn [retryFrom]. unfold throw. now rewrite !after_after. }
  split; [exact Hretry|].
  unfold generateAudio. fold formatted.
  erewrite tryProviders_failed by exact Hretry.
  now destruct error3.
Qed.

End AnyWorld.

(** *** Sample runs *)

Definition inworldRateLimited : TTSProvider unit :=
  {| name := "inworld";
     generateSpeech := fun _ w => (Threw (InworldError "Too Many Requests" 429), w);
     isAvailable := fun w => (true, w) |}.

Lemma generateAudio_fails_after_all_providers_unauthorized :
  let st' := after (start tt)
               [IsAvailable "elevenlabs"; GenerateSpeech "elevenlabs" "Hello world";
                IsAvailable "inworld"; GenerateSpeech "inworld" "Hello world";
                Wait 2000;
                IsAvailable "inworld"; GenerateSpeech "inworld" "Hello world";
                Wait 4000;
                IsAvailable "inworld"; GenerateSpeech "inworld" "Hello world"]
               tt in
  exists lastError evs,
    allProvidersFailed (Some (InworldError "Too Many Requests" 429))
    = TTSServiceError
        ("All TTS providers failed. Last error: " ++ lastErrorMessage lastError)
        "ALL_PROVIDERS_FAILED"
    /\ st'.(log) = ([] ++ evs)%list
    /\ (forall p, In p [elevenLabsUnauthorized; inworldRateLimited] ->
          In (IsAvailable p.(name)) evs)
    /\ ([elevenLabsUnauthorized; inworldRateLimited] = [] -> lastError = None)
    /\ (forall earlier lastProvider,
          [elevenLabsUnauthorized; inworldRateLimited]
          = (earlier ++ [lastProvider])%list ->
          exists failure st1,
            generateWithRetry idle lastProvider "Hello world" st1
            = (Threw failure, st')
            /\ lastError = Some (asError failure)).
Proof.
  apply (@generateAudio_fails_after_all_providers unit idle defaultVoiceId
           defaultCharacter unchanged unchanged
           [elevenLabsUnauthorized; inworldRateLimited]
           helloPost (start tt)
           (after (start tt)
              [IsAvailable "elevenlabs"; GenerateSpeech "elevenlabs" "Hello world";
               IsAvailable "inworld"; GenerateSpeech "inworld" "Hello world";
               Wait 2000;
               IsAvailable "inworld"; GenerateSpeech "inworld" "Hello world";
               Wait 4000;
               IsAvailable "inworld"; GenerateSpeech "inworld" "Hello world"]
              tt)
           (allProvidersFailed (Some (InworldError "Too Many Requests" 429)))).
  vm_compute. reflexivity.
Defined.

Lemma three_failures_exhaust_provider_rate_limited :
  let error := InworldError "Too Many Requests" 429 in
  let st' := after (start tt)
               [IsAvailable "inworld"; GenerateSpeech "inworld" "Hello world";
                Wait 2000;
                IsAvailable "inworld"; GenerateSpeech "inworld" "Hello world";
                Wait 4000;
                IsAvailable "inworld"; GenerateSpeech "inworld" "Hello world"]
               tt in
  generateWithRetry idle inworldRateLimited "Hello world" (start tt)
  = (Threw error, st')
  /\ generateAudio idle defaultVoiceId defaultCharacter unchanged unchanged
       [inworldRateLimited; inworldReady] helloPost (start tt)
     = tryProviders idle defaultVoiceId defaultCharacter
         [inworldReady] helloFormatted (Some error) st'.
Proof.
  apply (@three_failures_exhaust_provider unit idle defaultVoiceId
           defaultCharacter unchanged unchanged inworldRateLimited
           [inworldReady] helloPost (start tt) tt tt tt tt tt tt
           (InworldError "Too Many Requests" 429)
           (InworldError "Too Many Requests" 429)
           (InworldError "Too Many Requests" 429));
    try reflexivity; split; discriminate.
Defined.

End FailoverBounds.

(* ================================================================== *)
(** ** The calls of a run of the orchestrator, and how it fails *)
(* ================================================================== *)

Section OrchestrationTraces.
Import Effects EffectsFacts Orchestrator.
Local Open Scope string_scope.

(** A call of the TTS service: a probe, a synthesis call or a wait. *)
Definition isSpeechCall (ev : Event) : bool :=
  match ev with
  | IsAvailable _ | GenerateSpeech _ _ | Wait _ => true
  | _ => false
  end.

(** The three calls that store the audio of a post, in the order of the
    steps 4 to 6. *)
Definition storeCalls (fileName fileUrl : string) (durationSeconds : Z)
  (postId audioFileId : string) : list Event :=
  [UploadAudioFile fileName "audio/mpeg";
   SaveAudioFile fileUrl durationSeconds;
   LinkAudioToPost postId audioFileId].

(** The codes of the [OrchestrationError]s that the orchestrator builds. *)
Definition errorCodes : list string :=
  ["EMPTY_POSTS_ARRAY"; "NO_VALID_POSTS"; "POST_SAVE_FAILED";
   "POST_ALREADY_PROCESSED"; "TTS_FAILED"; "UPLOAD_FAILED";
   "METADATA_SAVE_FAILED"; "LINK_FAILED"; "UNEXPECTED_ERROR"].

(** The code of a failure of the steps 3 to 6, with the number of store
    calls that the run had made when it failed. *)
Definition storeFailures : list (string * nat) :=
  [("TTS_FAILED", 0%nat); ("UPLOAD_FAILED", 1%nat);
   ("METADATA_SAVE_FAILED", 2%nat); ("LINK_FAILED", 3%nat)].

Lemma attemptEvent_isSpeechCall name text ev :
  attemptEvent name text ev -> isSpeechCall ev = true.
Proof. intros [-> | [-> | [d ->]]]; reflexivity. Qed.

Section AnyWorld.
Variable W : Type.
Variable supabaseStorage : StorageService W.
Variable providers : list (TTS.TTSProvider W).
Variable sleep : Z -> W -> W.
Variable elevenLabsVoiceId inworldCharacter : string.
Variable cleanMarkdown addPauses : string -> string.
Variable clock : W -> nat -> R.
Variable nowMs : W -> Z.

Local Abbreviation run :=
  (processPostToAudio supabaseStorage providers sleep elevenLabsVoiceId
     inworldCharacter cleanMarkdown addPauses clock nowMs).
Local Abbreviation remainingSteps :=
  (generateAndStore supabaseStorage providers sleep elevenLabsVoiceId
     inworldCharacter cleanMarkdown addPauses nowMs).
Local Abbreviation synthesize :=
  (ttsGenerateAudio providers sleep elevenLabsVoiceId inworldCharacter
     cleanMarkdown addPauses).

Lemma ttsGenerateAudio_trace post st :
  exists tts,
    (snd (synthesize post st)).(log) = (st.(log) ++ tts)%list
    /\ forallb isSpeechCall tts = true.
Proof.
  unfold ttsGenerateAudio, TTS.generateAudio.
  destruct (tryProviders_withinBudget sleep elevenLabsVoiceId inworldCharacter
              providers (Formatter.formatForTTS cleanMarkdown addPauses post)
              None st) as (tts & Hlog & _ & _ & _ & Hall).
  exists tts. split; [exact Hlog|].
  apply forallb_forall. rewrite Forall_forall in Hall.
  intros ev Hev. destruct (Hall ev Hev) as (p & _ & Hp).
  eapply attemptEvent_isSpeechCall; eassumption.
Qed.

(** The steps 3 to 6 make the calls of the TTS service and then the
    store calls in their order; the code of a failure tells how far they
    came. *)
Lemma generateAndStore_trace bestPost savedPost st outcome st' :
  remainingSteps bestPost savedPost st = (outcome, st') ->
  exists tts n fileName fileUrl durationSeconds audioFileId,
    st'.(log)
    = (st.(log) ++ tts
       ++ firstn n (storeCalls fileName fileUrl durationSeconds
                      savedPost.(Database.sp_id) audioFileId))%list
    /\ forallb isSpeechCall tts = true
    /\ match outcome with
       | Returned result =>
           n = 3%nat
           /\ result.(selectedPost) = savedPost
           /\ audioFileId = result.(audioFile).(Database.id)
           /\ fileUrl = result.(audioUrl)
           /\ durationSeconds = result.(duration)
       | Threw error =>
           exists message code cause,
             error = OrchestrationError message code cause
             /\ In (code, n) storeFailures
       end.
Proof.
  destruct (ttsGenerateAudio_trace bestPost.(Analyzer.post) st)
    as (tts & Htts & Hall).
  unfold generateAndStore.
  unfold bind at 1, tryCatch at 1.
  destruct (synthesize bestPost.(Analyzer.post) st)
    as [[audioResult|error] st1]; cbn [snd] in Htts.
  - unfold generateAudioFileName, bind at 1, bind at 1, getWorld, ret at 1.
    unfold bind at 1, tryCatch at 1, call at 1.
    destruct (supabaseStorage.(uploadAudioFile) _ _ _ _)
      as [[uploadResult|e1] w1].
    + unfold bind at 1, tryCatch at 1, call at 1. cbn [world log].
      destruct (supabaseStorage.(saveAudioFile) _ _) as [[audioFile|e2] w2].
      * unfold bind at 1, tryCatch at 1, call at 1. cbn [world log].
        destruct (supabaseStorage.(linkAudioToPost) _ _ _) as [[[]|e3] w3].
        -- unfold ret. intros [= <- <-].
           exists tts, 3%nat. eexists.
           exists uploadResult.(publicUrl), audioResult.(TTS.duration),
             audioFile.(Database.id).
           cbn. rewrite Htts, <- !app_assoc.
           split; [reflexivity|]. split; [exact Hall|]. repeat split.
        -- unfold throw. intros [= <- <-].
           exists tts, 3%nat. eexists.
           exists uploadResult.(publicUrl), audioResult.(TTS.duration),
             audioFile.(Database.id).
           cbn. rewrite Htts, <- !app_assoc.
           split; [reflexivity|]. split; [exact Hall|].
           do 3 eexists. split; [reflexivity|]. tauto.
      * unfold throw. intros [= <- <-].
        exists tts, 2%nat. eexists.
        exists uploadResult.(publicUrl), audioResult.(TTS.duration), "".
        cbn. rewrite Htts, <- !app_assoc.
        split; [reflexivity|]. split; [exact Hall|].
        do 3 eexists. split; [reflexivity|]. tauto.
    + unfold throw. intros [= <- <-].
      exists tts, 1%nat. eexists. exists "", 0%Z, "".
      cbn. rewrite Htts, <- !app_assoc.
      split; [reflexivity|]. split; [exact Hall|].
      do 3 eexists. split; [reflexivity|]. tauto.
  - unfold throw. intros [= <- <-].
    exists tts, 0%nat, "", "", 0%Z, "".
    cbn. rewrite Htts, app_nil_r.
    split; [reflexivity|]. split; [exact Hall|].
    do 3 eexists. split; [reflexivity|]. tauto.
Qed.

(** Step 2 makes the save call and, behind a duplicate error, the
    lookup. What it throws is an [OrchestrationError] of its own, or
    what the lookup threw. *)
Lemma saveOrReuse_trace bestPost st outcome st' :
  let sourceId := bestPost.(Analyzer.post).(Reddit.id) in
  saveOrReuse supabaseStorage bestPost st = (outcome, st') ->
  exists lookups,
    st'.(log) = (st.(log) ++ SaveSelectedPost sourceId :: lookups)%list
    /\ (lookups = [] \/ lookups = [GetSelectedPostByRedditId sourceId])
    /\ match outcome with
       | Returned _ => True
       | Threw error =>
           (exists message code cause,
               error = OrchestrationError message code cause
               /\ (code = "POST_SAVE_FAILED" \/ code = "POST_ALREADY_PROCESSED"))
           \/ (exists w w',
                 supabaseStorage.(getSelectedPostByRedditId) sourceId w
                 = (Threw error, w'))
       end.
Proof.
  intros sourceId. unfold saveOrReuse, tryCatch, call.
  destruct (supabaseStorage.(saveSelectedPost) _ _ _) as [[saved|e] w1].
  - intros [= <- <-]. exists []. cbn. auto.
  - destruct (isDuplicatePost e).
    + unfold bind, call. cbn [world log]. fold sourceId.
      destruct (supabaseStorage.(getSelectedPostByRedditId) sourceId w1)
        as [[[existing|]|e'] w2] eqn:Hlookup.
      * destruct (audioReferenceSet existing); unfold throw, ret;
          intros [= <- <-]; exists [GetSelectedPostByRedditId sourceId];
          cbn; rewrite <- app_assoc; (split; [reflexivity|]);
          (split; [now right|]); [|exact I].
        left. do 3 eexists. split; [reflexivity|]. now right.
      * unfold throw. intros [= <- <-].
        exists [GetSelectedPostByRedditId sourceId].
        cbn. rewrite <- app_assoc. split; [reflexivity|]. split; [now right|].
        left. do 3 eexists. split; [reflexivity|]. now left.
      * intros [= <- <-]. exists [GetSelectedPostByRedditId sourceId].
        cbn. rewrite <- app_assoc. split; [reflexivity|]. split; [now right|].
        right. eauto.
    + unfold throw. intros [= <- <-]. exists []. cbn.
      split; [reflexivity|]. split; [now left|].
      left. do 3 eexists. split; [reflexivity|]. now left.
Qed.

Lemma storeFailures_errorCodes code n :
  In (code, n) storeFailures -> In code errorCodes.
Proof.
  unfold storeFailures, errorCodes. cbn.
  intros [[= <- _] | [[= <- _] | [[= <- _] | [[= <- _] | []]]]]; tauto.
Qed.

(** What a run does: nothing, when the analysis selects no post; else
    the save call, perhaps the lookup, the calls of the TTS service, and
    the store calls in their order. *)
Lemma processPostToAudio_cases posts st outcome st' :
  run posts st = (outcome, st') ->
  (st' = st
   /\ exists message code,
        outcome = Threw (OrchestrationError message code None)
        /\ ((posts = [] /\ code = "EMPTY_POSTS_ARRAY")
            \/ (posts <> [] /\ code = "NO_VALID_POSTS"
                /\ Analyzer.selectBestPost (clock st.(world)) posts = None)))
  \/ (exists best lookups tts n fileName fileUrl durationSeconds postId audioFileId,
        let sourceId := best.(Analyzer.post).(Reddit.id) in
        Analyzer.selectBestPost (clock st.(world)) posts = Some best
        /\ st'.(log)
           = (st.(log) ++ SaveSelectedPost sourceId :: lookups ++ tts
              ++ firstn n (storeCalls fileName fileUrl durationSeconds
                             postId audioFileId))%list
        /\ (lookups = [] \/ lookups = [GetSelectedPostByRedditId sourceId])
        /\ forallb isSpeechCall tts = true
        /\ match outcome with
           | Returned result =>
               n = 3%nat
               /\ postId = result.(selectedPost).(Database.sp_id)
               /\ audioFileId = result.(audioFile).(Database.id)
               /\ fileUrl = result.(audioUrl)
               /\ durationSeconds = result.(duration)
           | Threw error =>
               exists message code cause,
                 error = OrchestrationError message code cause
                 /\ (In code errorCodes
                     \/ exists w w',
                          supabaseStorage.(getSelectedPostByRedditId) sourceId w
                          = (Threw error, w'))
           end).
Proof.
  unfold processPostToAudio. destruct posts as [|p0 posts'].
  - unfold throw. intros [= <- <-]. left. split; [reflexivity|].
    do 2 eexists. split; [reflexivity|]. now left.
  - unfold tryCatch at 1, bind at 1, getWorld.
    destruct (Analyzer.selectBestPost (clock st.(world)) (p0 :: posts'))
      as [best|] eqn:Hbest.
    + intros Hrun. right. unfold bind at 1 in Hrun.
      destruct (saveOrReuse supabaseStorage best st) as [[saved|e] st1] eqn:Hsave.
      * apply saveOrReuse_trace in Hsave.
        destruct Hsave as (lookups & Hlog1 & Hlookups & _).
        destruct (remainingSteps best saved st1) as [outcome2 st2] eqn:Hrest.
        apply generateAndStore_trace in Hrest.
        destruct Hrest as (tts & n & fileName & fileUrl & durationSeconds
                           & audioFileId & Hlog2 & Hall & Hout).
        exists best, lookups, tts, n, fileName, fileUrl, durationSeconds,
          saved.(Database.sp_id), audioFileId.
        cbv zeta. split; [reflexivity|].
        assert (Hlog : st2.(log)
                       = (st.(log)
                          ++ SaveSelectedPost best.(Analyzer.post).(Reddit.id)
                          :: lookups ++ tts
                          ++ firstn n (storeCalls fileName fileUrl durationSeconds
                                         saved.(Database.sp_id) audioFileId))%list).
        { rewrite Hlog2, Hlog1, <- app_assoc. reflexivity. }
        destruct outcome2 as [result|error].
        -- injection Hrun as <- <-.
           split; [exact Hlog|]. split; [exact Hlookups|]. split; [exact Hall|].
           destruct Hout as (-> & -> & -> & -> & ->). repeat split.
        -- destruct Hout as (message & code & cause & -> & Hcode).
           cbn in Hrun. injection Hrun as <- <-.
           split; [exact Hlog|]. split; [exact Hlookups|]. split; [exact Hall|].
           do 3 eexists. split; [reflexivity|]. left.
           eapply storeFailures_errorCodes; eassumption.
      * apply saveOrReuse_trace in Hsave.
        destruct Hsave as (lookups & Hlog1 & Hlookups & Herr).
        exists best, lookups, [], 0%nat, "", "", 0%Z, "", "".
        cbv zeta. split; [reflexivity|].
        assert (Hlog : st1.(log)
                       = (st.(log)
                          ++ SaveSelectedPost best.(Analyzer.post).(Reddit.id)
                          :: lookups ++ [] ++ [])%list).
        { rewrite Hlog1. cbn. now rewrite app_nil_r. }
        unfold rethrowOrWrap in Hrun.
        destruct Herr as [(message & code & cause & -> & Hcode) | Hthrown].
        -- cbn in Hrun. injection Hrun as <- <-.
           split; [exact Hlog|]. split; [exact Hlookups|]. split; [reflexivity|].
           do 3 eexists. split; [reflexivity|]. left.
           unfold errorCodes. destruct Hcode as [-> | ->]; cbn; tauto.
        -- destruct (isOrchestrationError e) eqn:Horch.
           ++ destruct e; try discriminate Horch.
              cbn in Hrun. injection Hrun as <- <-.
              split; [exact Hlog|]. split; [exact Hlookups|]. split; [reflexivity|].
              do 3 eexists. split; [reflexivity|]. right. exact Hthrown.
           ++ cbn in Hrun. injection Hrun as <- <-.
              split; [exact Hlog|]. split; [exact Hlookups|]. split; [reflexivity|].
              do 3 eexists. split; [reflexivity|]. left.
              unfold errorCodes. cbn. tauto.
    + unfold throw. cbn. intros [= <- <-]. left. split; [reflexivity|].
      do 2 eexists. split; [reflexivity|]. right.
      split; [discriminate|]. split; reflexivity.
Qed.

(** X7: whatever the store and the providers do, the only errors that
    [processPostToAudio] raises are [OrchestrationError]s, and the code is
    one of the nine codes of the orchestrator, unless the error is an
    [OrchestrationError] that the lookup of the store threw itself. *)
Theorem processPostToAudio_error_codes
  (posts : list Reddit.RedditPost) (st st' : State W) (error : Thrown) :
  run posts st = (Threw error, st') ->
  exists message code cause,
    error = OrchestrationError message code cause
    /\ (In code errorCodes
        \/ exists sourceId w w',
             supabaseStorage.(getSelectedPostByRedditId) sourceId w
             = (Threw error, w')).
Proof.
  intros Hrun. apply processPostToAudio_cases in Hrun.
  destruct Hrun as [(_ & message & code & [= ->] & Hcode) | Hrun].
  - do 3 eexists. split; [reflexivity|]. left. unfold errorCodes.
    destruct Hcode as [[_ ->] | (_ & -> & _)]; cbn; tauto.
  - destruct Hrun as (best & lookups & tts & n & fileName & fileUrl
                      & durationSeconds & postId & audioFileId
                      & _ & _ & _ & _ & message & code & cause & -> & Hcode).
    do 3 eexists. split; [reflexivity|].
    destruct Hcode as [Hcode | (w & w' & Hthrown)]; [now left|].
    right. eauto.
Qed.

Lemma selectBestPost_none_usable clock' (posts : list Reddit.RedditPost) :
  Forall (fun p => Analyzer.hasUsableTextContent p = false) posts ->
  Analyzer.selectBestPost clock' posts = None.
Proof.
  intros Hall. rewrite AnalyzerFacts.selectBestPost_unfold.
  unfold AnalyzerFacts.scoredPosts.
  replace (filter Analyzer.hasUsableTextContent posts) with (@nil Reddit.RedditPost);
    [reflexivity|].
  induction Hall as [|p posts Hp _ IH]; cbn; [reflexivity|].
  now rewrite Hp.
Qed.

(** X8: a batch without a usable post (too few words, or a body that is
    a link) ends the run with an [OrchestrationError] that has no cause,
    [EMPTY_POSTS_ARRAY] for the empty batch and [NO_VALID_POSTS]
    otherwise; the run calls neither the store nor a TTS provider. *)
Theorem unusable_batch_makes_no_call
  (posts : list Reddit.RedditPost) (st : State W) :
  Forall (fun p => Analyzer.hasUsableTextContent p = false) posts ->
  exists message,
    run posts st
    = (Threw (OrchestrationError message
                (match posts with
                 | [] => "EMPTY_POSTS_ARRAY"
                 | _ => "NO_VALID_POSTS"
                 end) None), st).
Proof.
  intros Hall.
  pose proof (selectBestPost_none_usable (clock st.(world)) Hall) as Hnone.
  unfold processPostToAudio. destruct posts as [|p0 posts'].
  - eexists. reflexivity.
  - unfold tryCatch, bind, getWorld. rewrite Hnone. cbn. eexists. reflexivity.
Qed.

(** X9: the calls of a run come in the order of its steps. When the
    analysis selects no post there is no call. Else the first call saves
    the selected post; a lookup of the same post may follow; then come
    the calls of the TTS service; then the upload, the metadata and the
    link, each at most once and none without the one before it. A run
    that returns has made all three, and its link call names the record
    and the audio file of its result. *)
Theorem processPostToAudio_call_order
  (posts : list Reddit.RedditPost) (st st' : State W)
  (outcome : Outcome PostToAudioResult) :
  run posts st = (outcome, st') ->
  match Analyzer.selectBestPost (clock st.(world)) posts with
  | None => st' = st
  | Some best =>
      let sourceId := best.(Analyzer.post).(Reddit.id) in
      exists lookups tts n fileName fileUrl durationSeconds postId audioFileId,
        st'.(log)
        = (st.(log) ++ SaveSelectedPost sourceId :: lookups ++ tts
           ++ firstn n (storeCalls fileName fileUrl durationSeconds
                          postId audioFileId))%list
        /\ (lookups = [] \/ lookups = [GetSelectedPostByRedditId sourceId])
        /\ forallb isSpeechCall tts = true
        /\ forall result,
             outcome = Returned result ->
             n = 3%nat
             /\ postId = result.(selectedPost).(Database.sp_id)
             /\ audioFileId = result.(audioFile).(Database.id)
             /\ fileUrl = result.(audioUrl)
             /\ durationSeconds = result.(duration)
  end.
Proof.
  intros Hrun. apply processPostToAudio_cases in Hrun.
  destruct Hrun as [(-> & message & code & _ & Hcode) | Hrun].
  - destruct Hcode as [[-> _] | (_ & _ & ->)]; reflexivity.
  - destruct Hrun as (best & lookups & tts & n & fileName & fileUrl
                      & durationSeconds & postId & audioFileId
                      & -> & Hlog & Hlookups & Hall & Hout).
    cbv zeta. exists lookups, tts, n, fileName, fileUrl, durationSeconds,
      postId, audioFileId.
    split; [exact Hlog|]. split; [exact Hlookups|]. split; [exact Hall|].
    intros result ->. exact Hout.
Qed.

End AnyWorld.

(** *** Sample runs *)

Lemma processPostToAudio_error_codes_not_found :
  let duplicate :=
    StorageError "Post test123 has already been selected" "DUPLICATE_POST" in
  let error :=
    OrchestrationError "Post marked as duplicate but not found in database"
      "POST_SAVE_FAILED" (Some duplicate) in
  exists message code cause,
    error = OrchestrationError message code cause
    /\ (In code errorCodes
        \/ exists sourceId w w',
             (storeWithLookup None).(getSelectedPostByRedditId) sourceId w
             = (Threw error, w')).
Proof.
  apply (@processPostToAudio_error_codes unit (storeWithLookup None)
           [inworldReady] idle defaultVoiceId defaultCharacter unchanged
           unchanged (fun _ _ => 3600%R) (fun _ => 1736208000000%Z)
           [popularPost] (start tt)
           (after (start tt) [SaveSelectedPost "test123";
                              GetSelectedPostByRedditId "test123"] tt)).
  exact (proj1 sampleRun_other_cases).
Defined.

Lemma unusable_batch_makes_no_call_short_and_link :
  exists message,
    sampleRun [shortPost; linkOnlyPost] (start tt)
    = (Threw (OrchestrationError message "NO_VALID_POSTS" None), start tt).
Proof.
  apply (@unusable_batch_makes_no_call unit storeWithInterruptedRun
           [inworldReady] idle defaultVoiceId defaultCharacter unchanged
           unchanged (fun _ _ => 3600%R) (fun _ => 1736208000000%Z)
           [shortPost; linkOnlyPost] (start tt)).
  repeat constructor.
Defined.

Lemma processPostToAudio_call_order_resumed :
  let result :=
    {| selectedPost := storedWithoutAudio;
       audioFile :=
         savedAudioFile
           {| fileUrl := "https://example.com/audio.mp3";
              durationSeconds := 7;
              fileSizeBytes := 3;
              format := "mp3";
              ttsProvider := "inworld";
              voiceUsed := defaultCharacter |};
       audioUrl := "https://example.com/audio.mp3";
       duration := 7 |} in
  exists lookups tts n fileName fileUrl durationSeconds postId audioFileId,
    [SaveSelectedPost "test123";
     GetSelectedPostByRedditId "test123";
     IsAvailable "inworld";
     GenerateSpeech "inworld"
       "Test Post Title. This is test content for the post. It has more than ten words.";
     UploadAudioFile "test123_inworld_1736208000000.mp3" "audio/mpeg";
     SaveAudioFile "https://example.com/audio.mp3" 7;
     LinkAudioToPost "post-uuid" "audio-uuid"]
    = ([] ++ SaveSelectedPost "test123" :: lookups ++ tts
       ++ firstn n (storeCalls fileName fileUrl durationSeconds
                      postId audioFileId))%list
    /\ (lookups = [] \/ lookups = [GetSelectedPostByRedditId "test123"])
    /\ forallb isSpeechCall tts = true
    /\ forall result',
         Returned result = Returned result' ->
         n = 3%nat
         /\ postId = result'.(selectedPost).(Database.sp_id)
         /\ audioFileId = result'.(audioFile).(Database.id)
         /\ fileUrl = result'.(audioUrl)
         /\ durationSeconds = result'.(duration).
Proof.
  intros result.
  pose proof (@processPostToAudio_call_order unit storeWithInterruptedRun
                [inworldReady] idle defaultVoiceId defaultCharacter unchanged
                unchanged (fun _ _ => 3600%R) (fun _ => 1736208000000%Z)
                [popularPost] (start tt) _ _ sampleRun_resumes) as Horder.
  cbv beta in Horder.
  rewrite (@AnalyzerFacts.selectBestPost_singleton (fun _ => 3600%R) popularPost)
    in Horder by (vm_compute; reflexivity).
  exact Horder.
Defined.

End OrchestrationTraces.

(* ================================================================== *)
(** ** Subreddit names *)
(* ================================================================== *)

Section SubredditNames.
Import JS Subreddit.

Ltac by_code_unit c :=
  destruct c as [[] [] [] [] [] [] [] []];
  try reflexivity; try discriminate.

Lemma isLowerNameChar_isNameChar c :
  isLowerNameChar c = true -> isNameChar c = true.
Proof. unfold isNameChar. now intros ->. Qed.

Lemma toLowerChar_lower c : isLowerNameChar c = true -> toLowerChar c = c.
Proof. by_code_unit c. Qed.

Lemma toLowerChar_name c :
  isNameChar c = true -> isLowerNameChar (toLowerChar c) = true.
Proof. by_code_unit c. Qed.

Lemma isLowerNameChar_no_slash c :
  isLowerNameChar c = true -> c <> "/"%char.
Proof. by_code_unit c. Qed.

Lemma toLowerCase_lower l :
  forallb isLowerNameChar l = true -> toLowerCase l = l.
Proof.
  unfold toLowerCase.
  induction l as [|c l IH]; cbn; [reflexivity|].
  intros H. apply andb_prop in H. destruct H as [Hc Hl].
  now rewrite toLowerChar_lower, IH.
Qed.

Lemma toLowerCase_name l :
  forallb isNameChar l = true -> forallb isLowerNameChar (toLowerCase l) = true.
Proof.
  unfold toLowerCase.
  induction l as [|c l IH]; cbn; [reflexivity|].
  intros H. apply andb_prop in H. destruct H as [Hc Hl].
  now rewrite toLowerChar_name, IH.
Qed.

Lemma stripPrefix_lower l :
  forallb isLowerNameChar l = true -> stripPrefix l = l.
Proof.
  destruct l as [|c l]; [reflexivity|]. cbn [forallb].
  intros H. apply andb_prop in H. destruct H as [Hc Hl].
  pose proof (isLowerNameChar_no_slash Hc) as Hslash.
  unfold stripPrefix.
  replace (match c :: l with
           | "/"%char :: rest => rest
           | _ => c :: l
           end) with (c :: l)
    by (by_code_unit c; exfalso; now apply Hslash).
  destruct l as [|d l].
  - by_code_unit c.
  - cbn [forallb] in Hl. apply andb_prop in Hl. destruct Hl as [Hd _].
    pose proof (isLowerNameChar_no_slash Hd) as Hslash'.
    clear Hc Hd. by_code_unit c; try (exfalso; now apply Hslash).
    by_code_unit d. exfalso. now apply Hslash'.
Qed.

Lemma filter_all (A : Type) (p : A -> bool) (l : list A) :
  forallb p l = true -> filter p l = l.
Proof.
  induction l as [|x l IH]; cbn; [reflexivity|].
  intros H. apply andb_prop in H. destruct H as [-> Hl]. now rewrite IH.
Qed.

Lemma forallb_filter (A : Type) (p : A -> bool) (l : list A) :
  forallb p (filter p l) = true.
Proof.
  induction l as [|x l IH]; cbn; [reflexivity|].
  destruct (p x) eqn:Hx; cbn; [now rewrite Hx|exact IH].
Qed.

Lemma forallb_firstn (A : Type) (p : A -> bool) n (l : list A) :
  forallb p l = true -> forallb p (firstn n l) = true.
Proof.
  revert n. induction l as [|x l IH]; intros [|n]; cbn; auto.
  intros H. apply andb_prop in H. destruct H as [-> Hl]. now apply IH.
Qed.

(** A name of lower-case letters, digits and underscores that is not
    longer than 21 is what sanitizing makes of it. *)
Lemma sanitizeSubreddit_fixed l :
  forallb isLowerNameChar l = true -> (List.length l <= 21)%nat ->
  sanitizeSubreddit l = l.
Proof.
  intros Hall Hlen. unfold sanitizeSubreddit.
  rewrite toLowerCase_lower, stripPrefix_lower, filter_all by assumption.
  now apply firstn_all2.
Qed.

Lemma sanitizeSubreddit_lower l :
  forallb isLowerNameChar (sanitizeSubreddit l) = true.
Proof. unfold sanitizeSubreddit. apply forallb_firstn, forallb_filter. Qed.

Lemma sanitizeSubreddit_length l : (List.length (sanitizeSubreddit l) <= 21)%nat.
Proof. unfold sanitizeSubreddit. apply firstn_le_length. Qed.

Lemma forallb_impl (A : Type) (p q : A -> bool) (l : list A) :
  (forall x, p x = true -> q x = true) ->
  forallb p l = true -> forallb q l = true.
Proof.
  intros Hpq. induction l as [|x l IH]; cbn; [reflexivity|].
  intros H. apply andb_prop in H. destruct H as [Hx Hl].
  now rewrite (Hpq x Hx), IH.
Qed.

Lemma validateSubredditFormat_sanitized l :
  validateSubredditFormat (sanitizeSubreddit l)
  = (3 <=? List.length (sanitizeSubreddit l))%nat.
Proof.
  pose proof (sanitizeSubreddit_lower l) as Hlower.
  pose proof (sanitizeSubreddit_length l) as Hlength.
  unfold validateSubredditFormat.
  rewrite (@forallb_impl _ _ _ _ isLowerNameChar_isNameChar Hlower).
  apply Nat.leb_le in Hlength. rewrite Hlength.
  now rewrite andb_true_r.
Qed.

(** X10: whatever the input, the sanitized subreddit name consists of
    lower-case letters, digits and underscores only and has at most 21
    characters; sanitizing it again changes nothing; and it passes the
    format check exactly when it has at least three characters. *)
Theorem sanitizeSubreddit_normal_form (subreddit : chars) :
  let name := sanitizeSubreddit subreddit in
  forallb isLowerNameChar name = true
  /\ (List.length name <= 21)%nat
  /\ sanitizeSubreddit name = name
  /\ validateSubredditFormat name = (3 <=? List.length name)%nat.
Proof.
  intros name.
  pose proof (sanitizeSubreddit_lower subreddit) as Hlower.
  pose proof (sanitizeSubreddit_length subreddit) as Hlength.
  fold name in Hlower, Hlength.
  split; [exact Hlower|]. split; [exact Hlength|].
  split; [now apply sanitizeSubreddit_fixed|].
  apply validateSubredditFormat_sanitized.
Qed.

(** X11: a name that passes the format check is only put in lower case
    by sanitizing, and the result passes the check again. *)
Theorem valid_name_only_changes_case (subreddit : chars) :
  validateSubredditFormat subreddit = true ->
  sanitizeSubreddit subreddit = toLowerCase subreddit
  /\ validateSubredditFormat (sanitizeSubreddit subreddit) = true.
Proof.
  unfold validateSubredditFormat. intros H.
  apply andb_prop in H. destruct H as [H Hmax].
  apply andb_prop in H. destruct H as [Hall Hmin].
  assert (Hlen : List.length (toLowerCase subreddit) = List.length subreddit)
    by apply length_map.
  assert (Hlower : forallb isLowerNameChar (toLowerCase subreddit) = true)
    by now apply toLowerCase_name.
  assert (Heq : sanitizeSubreddit subreddit = toLowerCase subreddit).
  { unfold sanitizeSubreddit.
    rewrite stripPrefix_lower, filter_all by assumption.
    apply firstn_all2. rewrite Hlen. now apply Nat.leb_le. }
  split; [exact Heq|].
  rewrite Heq, Hlen, Hmin, Hmax.
  now rewrite (@forallb_impl _ _ _ _ isLowerNameChar_isNameChar Hlower).
Qed.

Lemma valid_name_only_changes_case_AskReddit :
  let name := ofString "AskReddit"%string in
  sanitizeSubreddit name = toLowerCase name
  /\ validateSubredditFormat (sanitizeSubreddit name) = true.
Proof.
  apply (@valid_name_only_changes_case (ofString "AskReddit"%string)).
  reflexivity.
Defined.

Example sanitizeSubreddit_samples :
  map (fun s => toString (sanitizeSubreddit (ofString s)))
      ["/r/AskReddit"; "r/test"; "Test-Sub!"; "r/r/aww"; "ab"]%string
  = ["askreddit"; "test"; "testsub"; "raww"; "ab"]%string.
Proof. reflexivity. Qed.

End SubredditNames.

(* ================================================================== *)
(** ** The rate limiter *)
(* ================================================================== *)

Section RateLimiterFacts.
Import RateLimiter.
Local Open Scope Z_scope.

Lemma oldestRequest_le first others :
  oldestRequest first others <= first
  /\ Forall (fun time => oldestRequest first others <= time) others.
Proof.
  unfold oldestRequest. revert first.
  induction others as [|x others IH]; intros first; cbn.
  - split; [lia|constructor].
  - destruct (IH (Z.min first x)) as [Hfirst Hothers].
    split; [lia|]. constructor; [lia|exact Hothers].
Qed.

Lemma oldestRequest_in first others :
  In (oldestRequest first others) (first :: others).
Proof.
  unfold oldestRequest. revert first.
  induction others as [|x others IH]; intros first; cbn; [now left|].
  destruct (IH (Z.min first x)) as [Heq | Hin].
  - rewrite <- Heq. destruct (Z.min_spec first x) as [[_ ->] | [_ ->]]; auto.
  - right. now right.
Qed.

Lemma filter_length_lt (A : Type) (p : A -> bool) (l : list A) x :
  In x l -> p x = false -> (List.length (filter p l) < List.length l)%nat.
Proof.
  induction l as [|y l IH]; cbn; [tauto|].
  intros [-> | Hin] Hx.
  - rewrite Hx. pose proof (filter_length_le p l). lia.
  - specialize (IH Hin Hx). destruct (p y); cbn; lia.
Qed.

(** X12: the wait that the limiter reports is long enough. When it
    holds at most 60 timestamps, as it always does, a request made once
    the reported time has passed is let through. *)
Theorem reported_wait_suffices (requests : list Z) (now later : Z) :
  (List.length requests <= maxRequests)%nat ->
  now + getTimeUntilReset now requests <= later ->
  fst (canMakeRequest later requests) = true.
Proof.
  intros Hlen Hlater. unfold canMakeRequest. cbn [fst].
  apply Nat.ltb_lt. destruct requests as [|first others]; [cbn; unfold maxRequests; lia|].
  unfold getTimeUntilReset in Hlater.
  pose proof (oldestRequest_in first others) as Hin.
  enough (List.length (filter (fun time => (later - time <? windowMs)%Z)
                         (first :: others))
          < List.length (first :: others))%nat by lia.
  apply filter_length_lt with (x := oldestRequest first others); [exact Hin|].
  apply Z.ltb_ge. lia.
Qed.

Lemma reported_wait_suffices_full_window :
  fst (canMakeRequest 61000 (repeat 1000 60)) = true.
Proof.
  apply (@reported_wait_suffices (repeat 1000 60) 30000 61000).
  - apply Nat.leb_le. reflexivity.
  - vm_compute. intros H. discriminate H.
Defined.

End RateLimiterFacts.

(* ================================================================== *)
(** ** Reddit authentication and client *)
(* ================================================================== *)

Section RedditServiceFacts.
Import RedditService.
Local Open Scope string_scope.
Local Open Scope Z_scope.

Section AnyWorld.
Variable W : Type.
Variable dateNow : W -> Z * W.
Variable fetchToken : Request -> W -> Result (Response RedditTokenResponse) * W.
Variable fetchListing : Request -> W -> Result (Response RedditApiResponse) * W.
Variable fetchAbout : Request -> W -> Result (Response unit) * W.
Variable clientId clientSecret userAgent : string.
Variable base64 : string -> string.

Local Abbreviation accessToken' :=
  (getAccessToken dateNow fetchToken clientId clientSecret userAgent base64).
Local Abbreviation headers' :=
  (getAuthenticatedHeaders dateNow fetchToken clientId clientSecret userAgent base64).
Local Abbreviation request' :=
  (makeRequest dateNow fetchToken clientId clientSecret userAgent base64).
Local Abbreviation topPosts :=
  (fetchTopPosts dateNow fetchToken fetchListing clientId clientSecret
     userAgent base64).
Local Abbreviation validate :=
  (validateSubreddit dateNow fetchToken fetchAbout clientId clientSecret
     userAgent base64).

(** The client after the world moved on to [w]. *)
Definition movedTo (c : Client W) (w : W) : Client W :=
  {| cachedToken := c.(cachedToken); requests := c.(requests); world := w |}.

Ltac crunch H :=
  repeat (cbn [world cachedToken requests negb fst snd] in H;
          match type of H with
          | context [match ?x with _ => _ end] =>
              lazymatch x with
              | context [match _ with _ => _ end] => fail
              | context [if _ then _ else _] => fail
              | _ => destruct x eqn:?
              end
          | context [if ?b then _ else _] =>
              lazymatch b with
              | context [match _ with _ => _ end] => fail
              | context [if _ then _ else _] => fail
              | _ => destruct b eqn:?
              end
          end);
  cbn [world cachedToken requests negb fst snd] in H.

Lemma requestToken_cases (c : Client W) outcome c' :
  requestToken dateNow fetchToken clientId clientSecret userAgent base64 c
  = (outcome, c') ->
  c'.(requests) = c.(requests)
  /\ match outcome with
     | Ok token =>
         exists cached,
           c'.(cachedToken) = Some cached /\ cached.(accessToken) = token
     | Fail _ => c'.(cachedToken) = c.(cachedToken)
     end.
Proof.
  unfold requestToken, bind, callFetch, readJson, readClock, setCachedToken,
    ret, throw.
  intros H. crunch H; injection H as <- <-; cbn; split; try reflexivity.
  eexists. split; reflexivity.
Qed.

(** What [getAccessToken] does to the client. *)
Lemma getAccessToken_cases (c : Client W) outcome c' :
  accessToken' c = (outcome, c') ->
  c'.(requests) = c.(requests)
  /\ match outcome with
     | Ok token =>
         exists cached,
           c'.(cachedToken) = Some cached /\ cached.(accessToken) = token
     | Fail error =>
         c'.(cachedToken) = c.(cachedToken) /\ isRedditAuthError error = true
     end.
Proof.
  unfold getAccessToken, bind at 1, validCachedToken.
  destruct (cachedToken c) as [token|] eqn:Hcache.
  - unfold bind at 1, readClock, ret at 1.
    destruct (dateNow (world c)) as [now w].
    destruct (now + tokenBufferMs <? expiresAt token).
    + unfold ret. intros [= <- <-]. cbn. split; [reflexivity|]. now exists token.
    + unfold tryCatch.
      destruct (requestToken _ _ _ _ _ _ _) as [[token'|e] c1] eqn:Hrequest;
        apply requestToken_cases in Hrequest; destruct Hrequest as [Hr Hc].
      * intros [= <- <-]. split; assumption.
      * unfold rethrowAuthError, throw.
        destruct (isRedditAuthError e) eqn:He; intros [= <- <-];
          cbn in *; rewrite Hr, Hc; auto.
  - unfold tryCatch.
    destruct (requestToken _ _ _ _ _ _ _) as [[token'|e] c1] eqn:Hrequest;
      apply requestToken_cases in Hrequest; destruct Hrequest as [Hr Hc].
    + intros [= <- <-]. split; assumption.
    + unfold rethrowAuthError, throw.
      destruct (isRedditAuthError e) eqn:He; intros [= <- <-];
        cbn in *; rewrite Hr, Hc; auto.
Qed.

Lemma limiterCanMakeRequest_run (c : Client W) now w :
  dateNow c.(world) = (now, w) ->
  limiterCanMakeRequest dateNow c
  = (Ok (fst (RateLimiter.canMakeRequest now c.(requests))),
     {| cachedToken := c.(cachedToken);
        requests := snd (RateLimiter.canMakeRequest now c.(requests));
        world := w |}).
Proof.
  intros Hnow.
  unfold limiterCanMakeRequest, bind, readClock, setRequests, ret.
  rewrite Hnow. reflexivity.
Qed.

(** What the [try] block of [makeRequest] does: it records at most one
    timestamp, and what it returns is the body of a response that was
    [ok]. *)
Lemma sendRequest_cases T (fetch : Request -> W -> Result (Response T) * W)
  endpoint (c : Client W) outcome c' :
  sendRequest dateNow fetchToken clientId clientSecret userAgent base64
    fetch endpoint c = (outcome, c') ->
  (c'.(requests) = c.(requests)
   \/ exists now, c'.(requests) = (c.(requests) ++ [now])%list)
  /\ match outcome with
     | Ok body =>
         exists request w response w',
           fetch request w = (Ok response, w')
           /\ response.(ok) = true
           /\ response.(json) = Ok body
           /\ request.(url) = baseUrl ++ endpoint
           /\ request.(method) = "GET"
     | Fail _ => True
     end.
Proof.
  unfold sendRequest, bind at 1, getAuthenticatedHeaders, bind at 1.
  destruct (accessToken' c) as [[token|e] c1] eqn:Htoken;
    apply getAccessToken_cases in Htoken; destruct Htoken as [Hr _].
  - unfold ret at 1, bind at 1, callFetch.
    destruct (fetch _ (world c1)) as [[response|e] w1] eqn:Hfetch.
    + unfold bind at 1, limiterRecordRequest, bind at 1, readClock, setRequests.
      cbn [world cachedToken requests].
      destruct (dateNow w1) as [now w2]. cbn [world cachedToken requests].
      unfold RateLimiter.recordRequest. rewrite Hr.
      destruct (ok response) eqn:Hok; cbn [negb].
      * unfold readJson. intros [= <- <-]. cbn [requests].
        split; [right; eauto|].
        destruct (json response) as [body|e] eqn:Hjson; [|exact I].
        do 4 eexists. split; [exact Hfetch|]. cbn. auto.
      * unfold throw. intros H.
        assert (Hc : c'.(requests) = (requests c ++ [now])%list
                     /\ exists e, outcome = Fail e).
        { destruct (status response =? 404); [injection H as <- <-; cbn; eauto|].
          destruct (status response =? 403); [injection H as <- <-; cbn; eauto|].
          destruct (status response =? 429); injection H as <- <-; cbn; eauto. }
        destruct Hc as [Hc [e ->]]. split; [right; eauto|exact I].
    + intros [= <- <-]. cbn. rewrite Hr. auto.
  - intros [= <- <-]. rewrite Hr. auto.
Qed.

(** The limiter holds at most 60 timestamps. *)
Definition limiterBounded (c : Client W) : Prop :=
  (List.length c.(requests) <= RateLimiter.maxRequests)%nat.

Lemma canMakeRequest_kept now requests :
  (List.length (snd (RateLimiter.canMakeRequest now requests))
   <= List.length requests)%nat
  /\ (fst (RateLimiter.canMakeRequest now requests) = true ->
      (List.length (snd (RateLimiter.canMakeRequest now requests))
       < RateLimiter.maxRequests)%nat).
Proof.
  unfold RateLimiter.canMakeRequest. cbn [fst snd].
  split; [apply filter_length_le|]. apply Nat.ltb_lt.
Qed.

Lemma limiterGetTimeUntilReset_requests (c : Client W) :
  (snd (limiterGetTimeUntilReset dateNow c)).(requests) = c.(requests)
  /\ (snd (limiterGetTimeUntilReset dateNow c)).(cachedToken) = c.(cachedToken)
  /\ exists waitTime, fst (limiterGetTimeUntilReset dateNow c) = Ok waitTime.
Proof.
  unfold limiterGetTimeUntilReset, bind, readClock, ret.
  destruct (requests c) eqn:Hrequests; cbn; [eauto|].
  destruct (dateNow (world c)); cbn. eauto.
Qed.

(** What [makeRequest] does: the limiter stays within its bound; what is
    thrown is an error of the two services; what is returned is the body
    of a response that was [ok]. *)
Lemma makeRequest_cases T (fetch : Request -> W -> Result (Response T) * W)
  endpoint (c : Client W) outcome c' :
  request' fetch endpoint c = (outcome, c') ->
  (limiterBounded c -> limiterBounded c')
  /\ match outcome with
     | Ok body =>
         exists request w response w',
           fetch request w = (Ok response, w')
           /\ response.(ok) = true
           /\ response.(json) = Ok body
           /\ request.(url) = baseUrl ++ endpoint
           /\ request.(method) = "GET"
     | Fail error => isRedditError error = true
     end.
Proof.
  unfold makeRequest, bind at 1.
  destruct (dateNow (world c)) as [now w] eqn:Hnow.
  rewrite (limiterCanMakeRequest_run c Hnow).
  destruct (canMakeRequest_kept now (requests c)) as [Hle Hlt].
  destruct (fst (RateLimiter.canMakeRequest now (requests c))) eqn:Hcan;
    cbn [negb].
  - specialize (Hlt eq_refl). unfold tryCatch.
    destruct (sendRequest _ _ _ _ _ _ _ _ _) as [[body|e] c1] eqn:Hsend;
      apply sendRequest_cases in Hsend; destruct Hsend as [Hr Hbody];
      cbn [requests] in Hr.
    + intros [= <- <-]. split; [|exact Hbody].
      intros _. unfold limiterBounded.
      destruct Hr as [-> | [t ->]];
        [|rewrite length_app; cbn [List.length]]; lia.
    + unfold rethrowOrWrap, throw.
      destruct (isRedditError e) eqn:He; intros [= <- <-];
        (split; [|auto]); intros _; unfold limiterBounded;
        destruct Hr as [-> | [t ->]];
        try rewrite length_app; cbn [List.length]; lia.
  - unfold rateLimitExceeded, bind, throw.
    match goal with
    | |- context [limiterGetTimeUntilReset dateNow ?c0] =>
        destruct (limiterGetTimeUntilReset_requests c0) as (Hr & _ & waitTime & Hw);
        destruct (limiterGetTimeUntilReset dateNow c0) as [r c1]
    end.
    cbn [fst snd requests] in Hr, Hw. subst r.
    intros [= <- <-]. split; [|reflexivity].
    unfold limiterBounded. rewrite Hr. lia.
Qed.

Lemma in_firstn (A : Type) n (l : list A) x : In x (firstn n l) -> In x l.
Proof.
  intros H. rewrite <- (firstn_skipn n l). apply in_or_app. now left.
Qed.

Lemma postsOf_length limit body posts :
  postsOf (requestLimit limit) body = Some posts ->
  (List.length posts <= 25)%nat
  /\ Z.of_nat (List.length posts) <= Z.max 1 limit
  /\ exists listing children',
       body.(data) = Some listing /\ listing.(children) = Some children'
       /\ Forall (fun post =>
                    exists child,
                      In child children' /\ child.(kind) = "t3"
                      /\ post = transformPost child.(child_data)) posts.
Proof.
  unfold postsOf.
  destruct (data body) as [listing|] eqn:Hdata; [|discriminate].
  destruct (children listing) as [children'|] eqn:Hchildren; [|discriminate].
  intros [= <-].
  pose proof (firstn_le_length (Z.to_nat (requestLimit limit))
                (map (fun child => transformPost child.(child_data))
                   (filter (fun child => String.eqb child.(kind) "t3")
                      children'))) as Hlen.
  unfold requestLimit in *.
  split; [lia|]. split; [lia|].
  exists listing, children'. split; [reflexivity|]. split; [exact Hchildren|].
  apply Forall_forall. intros post Hpost.
  apply in_firstn, in_map_iff in Hpost. destruct Hpost as (child & <- & Hchild).
  apply filter_In in Hchild. destruct Hchild as [Hin Hkind].
  exists child. split; [exact Hin|]. split; [|reflexivity].
  now apply String.eqb_eq.
Qed.

Lemma validateSubredditFormat_short subreddit :
  validateSubredditFormat (sanitizeSubreddit subreddit)
  = (3 <=? List.length (Subreddit.sanitizeSubreddit (JS.ofString subreddit)))%nat.
Proof.
  unfold validateSubredditFormat, sanitizeSubreddit.
  rewrite JSFacts.ofString_toString.
  apply validateSubredditFormat_sanitized.
Qed.

Lemma fetchTopPosts_cases subreddit limit (c : Client W) outcome c' :
  topPosts subreddit limit c = (outcome, c') ->
  (limiterBounded c -> limiterBounded c')
  /\ match outcome with
     | Ok posts =>
         exists request w response w' body,
           fetchListing request w = (Ok response, w')
           /\ response.(ok) = true
           /\ response.(json) = Ok body
           /\ request.(url)
              = baseUrl ++ "/r/" ++ sanitizeSubreddit subreddit
                ++ "/hot.json?limit=" ++ Orchestrator.decimal (requestLimit limit)
           /\ request.(method) = "GET"
           /\ postsOf (requestLimit limit) body = Some posts
     | Fail error => isRedditError error = true
     end.
Proof.
  unfold fetchTopPosts.
  destruct (validateSubredditFormat (sanitizeSubreddit subreddit)); cbn [negb].
  - unfold tryCatch, bind at 1.
    destruct (makeRequest _ _ _ _ _ _ _ _ _) as [[body|e] c1] eqn:Hrequest;
      apply makeRequest_cases in Hrequest; destruct Hrequest as [Hb Hbody].
    + destruct (postsOf (requestLimit limit) body) as [posts|] eqn:Hposts.
      * unfold ret. intros [= <- <-]. split; [exact Hb|].
        destruct Hbody as (request & w & response & w' & Hf & Hok & Hjson & Hurl & Hm).
        exists request, w, response, w', body. auto 10.
      * unfold throw, rethrowOrWrap. cbn. intros [= <- <-]. auto.
    + unfold rethrowOrWrap. rewrite Hbody. unfold throw.
      intros [= <- <-]. auto.
  - unfold throw. intros [= <- <-]. auto.
Qed.

(** X13: what [fetchTopPosts] returns are at most 25 posts, and at most
    [limit] of them when [limit] is positive; they are the children of
    kind [t3] of a listing that a GET request to the [hot] endpoint of
    the sanitized subreddit returned with an [ok] response, transformed,
    in the order of the listing and cut to the requested number. *)
Theorem fetchTopPosts_result
  (subreddit : string) (limit : Z) (c c' : Client W)
  (posts : list Reddit.RedditPost) :
  topPosts subreddit limit c = (Ok posts, c') ->
  (List.length posts <= 25)%nat
  /\ Z.of_nat (List.length posts) <= Z.max 1 limit
  /\ exists request w response w' body,
       fetchListing request w = (Ok response, w')
       /\ response.(ok) = true
       /\ response.(json) = Ok body
       /\ request.(url)
          = baseUrl ++ "/r/" ++ sanitizeSubreddit subreddit
            ++ "/hot.json?limit=" ++ Orchestrator.decimal (requestLimit limit)
       /\ request.(method) = "GET"
       /\ postsOf (requestLimit limit) body = Some posts
       /\ exists listing children',
            body.(data) = Some listing /\ listing.(children) = Some children'
            /\ Forall (fun post =>
                         exists child,
                           In child children' /\ child.(kind) = "t3"
                           /\ post = transformPost child.(child_data)) posts.
Proof.
  intros Hrun. apply fetchTopPosts_cases in Hrun.
  destruct Hrun as (_ & request & w & response & w' & body
                    & Hf & Hok & Hjson & Hurl & Hm & Hposts).
  destruct (postsOf_length limit body Hposts) as (H25 & Hlimit & Hchildren).
  split; [exact H25|]. split; [exact Hlimit|].
  exists request, w, response, w', body. auto 10.
Qed.

(** X14: the only errors that [fetchTopPosts] raises are
    [RedditAPIError]s and [RedditAuthError]s, whatever the network does;
    and a name of which fewer than three characters remain after
    sanitizing is refused with status 400 before the clock, the token
    cache, the limiter or the network is touched. *)
Theorem fetchTopPosts_failures
  (subreddit : string) (limit : Z) (c : Client W) :
  (forall error c',
      topPosts subreddit limit c = (Fail error, c') ->
      isRedditError error = true)
  /\ ((List.length (Subreddit.sanitizeSubreddit (JS.ofString subreddit)) < 3)%nat ->
      topPosts subreddit limit c
      = (Fail (RedditAPIError "Invalid subreddit name format" 400), c)).
Proof.
  split.
  - intros error c' Hrun. apply fetchTopPosts_cases in Hrun. apply Hrun.
  - intros Hshort. unfold fetchTopPosts.
    rewrite validateSubredditFormat_short.
    apply Nat.leb_gt in Hshort. now rewrite Hshort.
Qed.

(** The message of the error that a full limiter causes. *)
Definition rateLimitMessage (waitTime : Z) : string :=
  "Rate limit exceeded. Please wait "
  ++ Orchestrator.decimal (waitSeconds waitTime) ++ " seconds.".

Lemma makeRequest_rate_limited T
  (fetch : Request -> W -> Result (Response T) * W) endpoint
  (c : Client W) now now' w1 w2 :
  let kept := snd (RateLimiter.canMakeRequest now c.(requests)) in
  dateNow c.(world) = (now, w1) ->
  dateNow w1 = (now', w2) ->
  fst (RateLimiter.canMakeRequest now c.(requests)) = false ->
  request' fetch endpoint c
  = (Fail (RedditAPIError
             (rateLimitMessage (RateLimiter.getTimeUntilReset now' kept)) 429),
     {| cachedToken := c.(cachedToken); requests := kept; world := w2 |}).
Proof.
  intros kept Hnow Hnow' Hfull.
  unfold makeRequest, bind at 1.
  rewrite (limiterCanMakeRequest_run c Hnow), Hfull. cbn [negb].
  fold kept.
  assert (Hkept : kept <> []).
  { intros Hnil. unfold RateLimiter.canMakeRequest in Hfull, kept.
    cbn [fst snd] in Hfull, kept. fold kept in Hfull. now rewrite Hnil in Hfull. }
  unfold rateLimitExceeded, bind at 1, limiterGetTimeUntilReset.
  cbn [requests world cachedToken].
  destruct kept as [|first others] eqn:Hk; [contradiction|].
  unfold bind, readClock, ret, throw. cbn [requests world cachedToken].
  rewrite Hnow'. reflexivity.
Qed.

(** X15: a full limiter stops a request before anything leaves the
    process. When 60 recorded requests lie within the window at the
    clock reading, [fetchTopPosts] fails with status 429 and a message
    that tells the seconds to wait; the clock has been read twice, the
    token cache is untouched and no request was sent. In the same state
    [validateSubreddit] answers that the subreddit is valid, exists and
    is public, with that message as the reason. *)
Theorem rate_limited_request_makes_no_call
  (subreddit : string) (limit : Z) (c : Client W) (now now' : Z) (w1 w2 : W) :
  let kept := snd (RateLimiter.canMakeRequest now c.(requests)) in
  let message := rateLimitMessage (RateLimiter.getTimeUntilReset now' kept) in
  let c' := {| cachedToken := c.(cachedToken); requests := kept; world := w2 |} in
  validateSubredditFormat (sanitizeSubreddit subreddit) = true ->
  dateNow c.(world) = (now, w1) ->
  dateNow w1 = (now', w2) ->
  fst (RateLimiter.canMakeRequest now c.(requests)) = false ->
  topPosts subreddit limit c = (Fail (RedditAPIError message 429), c')
  /\ validate subreddit c
     = (Ok {| isValid := true; exists_ := true; isPublic := true;
              reason := Some message |}, c').
Proof.
  intros kept message c' Hvalid Hnow Hnow' Hfull.
  split.
  - unfold fetchTopPosts. rewrite Hvalid. cbn [negb].
    unfold tryCatch, bind at 1.
    now rewrite (makeRequest_rate_limited _ _ c Hnow Hnow' Hfull).
  - unfold validateSubreddit. rewrite Hvalid. cbn [negb].
    unfold tryCatch, bind at 1.
    now rewrite (makeRequest_rate_limited _ _ c Hnow Hnow' Hfull).
Qed.

(** X16: [validateSubreddit] always answers. In its answer the three
    flags are nested: public only if existing, existing only if valid;
    an answer without reason has all three set. A name of which fewer
    than three characters remain after sanitizing is answered as invalid
    without any effect. *)
Theorem validateSubreddit_answers (subreddit : string) (c : Client W) :
  (exists answer,
      fst (validate subreddit c) = Ok answer
      /\ (answer.(isPublic) = true -> answer.(exists_) = true)
      /\ (answer.(exists_) = true -> answer.(isValid) = true)
      /\ (answer.(reason) = None -> answer.(isPublic) = true))
  /\ ((List.length (Subreddit.sanitizeSubreddit (JS.ofString subreddit)) < 3)%nat ->
      validate subreddit c
      = (Ok {| isValid := false; exists_ := false; isPublic := false;
               reason := Some "Invalid subreddit name format" |}, c)).
Proof.
  split.
  - unfold validateSubreddit.
    destruct (validateSubredditFormat (sanitizeSubreddit subreddit)); cbn [negb].
    + unfold tryCatch, bind at 1.
      destruct (makeRequest _ _ _ _ _ _ _ _ _) as [[[]|e] c1].
      * eexists. cbn. split; [reflexivity|]. auto.
      * destruct e as [message statusCode| | |]; cbn;
          eexists; (split; [reflexivity|]); cbn;
          repeat split; try discriminate; auto.
        intros H. destruct (statusCode =? 404); [|reflexivity].
        rewrite andb_false_r in H. discriminate H.
    + eexists. cbn. split; [reflexivity|]. repeat split; discriminate.
  - intros Hshort. unfold validateSubreddit.
    rewrite validateSubredditFormat_short.
    apply Nat.leb_gt in Hshort. now rewrite Hshort.
Qed.

(** X17: the token cache. A token that [getAccessToken] returned is in
    the cache afterwards, and as long as the clock reads more than five
    minutes before its expiry, [getAccessToken] returns it again without
    a request, reading the clock once. What [getAccessToken] throws is a
    [RedditAuthError], and a failure leaves the cache as it was. *)
Theorem cached_token_is_reused (c c1 : Client W) (outcome : Result string) :
  accessToken' c = (outcome, c1) ->
  match outcome with
  | Ok token =>
      exists cached,
        c1.(cachedToken) = Some cached
        /\ cached.(accessToken) = token
        /\ forall (c2 : Client W) now w,
             c2.(cachedToken) = Some cached ->
             dateNow c2.(world) = (now, w) ->
             now + 300000 < cached.(expiresAt) ->
             accessToken' c2 = (Ok token, movedTo c2 w)
  | Fail error =>
      isRedditAuthError error = true /\ c1.(cachedToken) = c.(cachedToken)
  end.
Proof.
  intros Hrun. apply getAccessToken_cases in Hrun. destruct Hrun as [_ Hrun].
  destruct outcome as [token|error]; [|tauto].
  destruct Hrun as (cached & Hcached & Htoken).
  exists cached. split; [exact Hcached|]. split; [exact Htoken|].
  intros c2 now w Hc2 Hnow Hfresh.
  unfold getAccessToken, bind at 1, validCachedToken.
  rewrite Hc2. unfold bind, readClock, ret. rewrite Hnow.
  apply Z.ltb_lt in Hfresh. unfold tokenBufferMs. rewrite Hfresh.
  now rewrite Htoken.
Qed.

Lemma getRateLimitStatus_bounded (c : Client W) :
  limiterBounded c -> limiterBounded (snd (getRateLimitStatus dateNow c)).
Proof.
  intros Hb. unfold getRateLimitStatus, bind at 1.
  destruct (dateNow (world c)) as [now w] eqn:Hnow.
  rewrite (limiterCanMakeRequest_run c Hnow).
  unfold bind at 1.
  match goal with
  | |- context [limiterGetTimeUntilReset dateNow ?c0] =>
      destruct (limiterGetTimeUntilReset_requests c0) as (Hr & _ & waitTime & Hw);
      destruct (limiterGetTimeUntilReset dateNow c0) as [r c1]
  end.
  cbn [fst snd requests] in Hr, Hw. subst r. cbn.
  unfold limiterBounded in *. rewrite Hr.
  pose proof (canMakeRequest_kept now (requests c)) as [Hle _]. lia.
Qed.

(** X18: the limiter never holds more than 60 timestamps. Each method of
    the client keeps the bound, whatever the clock and the network do,
    when the calls are made one after the other. *)
Theorem limiter_stays_bounded
  (subreddit : string) (limit : Z) (c : Client W) :
  limiterBounded c ->
  limiterBounded (snd (topPosts subreddit limit c))
  /\ limiterBounded (snd (validate subreddit c))
  /\ limiterBounded (snd (getRateLimitStatus dateNow c)).
Proof.
  intros Hb. split; [|split].
  - destruct (topPosts subreddit limit c) as [outcome c'] eqn:Hrun.
    apply fetchTopPosts_cases in Hrun. now apply Hrun.
  - unfold validateSubreddit.
    destruct (validateSubredditFormat (sanitizeSubreddit subreddit));
      cbn [negb]; [|exact Hb].
    unfold tryCatch, bind at 1.
    destruct (makeRequest _ _ _ _ _ _ _ _ _) as [[[]|e] c1] eqn:Hrequest;
      apply makeRequest_cases in Hrequest; destruct Hrequest as [Hb' _].
    + cbn. now apply Hb'.
    + destruct e; cbn; now apply Hb'.
  - now apply getRateLimitStatus_bounded.
Qed.

End AnyWorld.

(** *** A sample network *)

(** The world is the time in milliseconds; a reading of the clock takes
    one millisecond, a request a hundred. *)
Definition sampleClock : Z -> Z * Z := fun time => (time, time + 1).

Definition tokenServer
  : Request -> Z -> Result (Response RedditTokenResponse) * Z :=
  fun _ time =>
    (Ok {| ok := true; status := 200; statusText := "OK";
           json := Ok {| access_token := "token-1"; expires_in := 3600 |} |},
     time + 100).

Definition sampleChild (kind' id : string) : Child :=
  {| kind := kind';
     child_data :=
       {| api_id := id; api_title := "Post " ++ id; api_author := "someone";
          api_score := 10; api_num_comments := 2; api_created_utc := 0%R;
          api_selftext := None; api_permalink := "/r/askreddit/comments/" ++ id;
          api_subreddit := "askreddit" |} |}.

Definition sampleListing : RedditApiResponse :=
  {| data :=
       Some {| children := Some [sampleChild "t3" "a"; sampleChild "t1" "b";
                                 sampleChild "t3" "c"];
               after := None; before := None |} |}.

Definition listingServer
  : Request -> Z -> Result (Response RedditApiResponse) * Z :=
  fun _ time =>
    (Ok {| ok := true; status := 200; statusText := "OK";
           json := Ok sampleListing |}, time + 100).

Definition aboutServer : Request -> Z -> Result (Response unit) * Z :=
  fun _ time =>
    (Ok {| ok := true; status := 200; statusText := "OK"; json := Ok tt |},
     time + 100).

Definition freshClient : Client Z :=
  {| cachedToken := None; requests := []; world := 0 |}.

(** A client that has recorded 60 requests within the last minute. *)
Definition busyClient : Client Z :=
  {| cachedToken := None; requests := repeat 1000 60; world := 30000 |}.

Definition sampleTopPosts :=
  fetchTopPosts sampleClock tokenServer listingServer
    "client" "secret" "agent" (fun s => s).

Definition sampleValidate :=
  validateSubreddit sampleClock tokenServer aboutServer
    "client" "secret" "agent" (fun s => s).

Definition sampleAccessToken :=
  getAccessToken sampleClock tokenServer "client" "secret" "agent" (fun s => s).

Lemma fetchTopPosts_result_first_post :
  let posts := [transformPost (sampleChild "t3" "a").(child_data)] in
  (List.length posts <= 25)%nat
  /\ Z.of_nat (List.length posts) <= Z.max 1 1
  /\ exists request w response w' body,
       listingServer request w = (Ok response, w')
       /\ response.(ok) = true
       /\ response.(json) = Ok body
       /\ request.(url)
          = baseUrl ++ "/r/" ++ sanitizeSubreddit "/r/AskReddit"
            ++ "/hot.json?limit=" ++ Orchestrator.decimal (requestLimit 1)
       /\ request.(method) = "GET"
       /\ postsOf (requestLimit 1) body = Some posts
       /\ exists listing children',
            body.(data) = Some listing /\ listing.(children) = Some children'
            /\ Forall (fun post =>
                         exists child,
                           In child children' /\ child.(kind) = "t3"
                           /\ post = transformPost child.(child_data)) posts.
Proof.
  intros posts.
  eapply (@fetchTopPosts_result Z sampleClock tokenServer listingServer
            "client" "secret" "agent" (fun s => s) "/r/AskReddit" 1 freshClient).
  vm_compute. reflexivity.
Defined.

Lemma rate_limited_request_makes_no_call_busy :
  let message := "Rate limit exceeded. Please wait 31 seconds." in
  let c' := {| cachedToken := None; requests := repeat 1000 60; world := 30002 |} in
  sampleTopPosts "AskReddit" 10 busyClient = (Fail (RedditAPIError message 429), c')
  /\ sampleValidate "AskReddit" busyClient
     = (Ok {| isValid := true; exists_ := true; isPublic := true;
              reason := Some message |}, c').
Proof.
  apply (@rate_limited_request_makes_no_call Z sampleClock tokenServer
           listingServer aboutServer "client" "secret" "agent" (fun s => s)
           "AskReddit" 10 busyClient 30000 30001 30001 30002);
    vm_compute; reflexivity.
Defined.

Lemma cached_token_is_reused_sample :
  let c1 := {| cachedToken := Some {| accessToken := "token-1";
                                      expiresAt := 3600100 |};
               requests := []; world := 101 |} in
  exists cached,
    c1.(cachedToken) = Some cached
    /\ cached.(accessToken) = "token-1"
    /\ forall (c2 : Client Z) now w,
         c2.(cachedToken) = Some cached ->
         sampleClock c2.(world) = (now, w) ->
         now + 300000 < cached.(expiresAt) ->
         sampleAccessToken c2 = (Ok "token-1", movedTo c2 w).
Proof.
  apply (@cached_token_is_reused Z sampleClock tokenServer
           "client" "secret" "agent" (fun s => s) freshClient
           {| cachedToken := Some {| accessToken := "token-1";
                                     expiresAt := 3600100 |};
              requests := []; world := 101 |}
           (Ok "token-1")).
  vm_compute. reflexivity.
Defined.

Lemma limiter_stays_bounded_fresh :
  limiterBounded (snd (sampleTopPosts "AskReddit" 10 freshClient))
  /\ limiterBounded (snd (sampleValidate "AskReddit" freshClient))
  /\ limiterBounded (snd (getRateLimitStatus sampleClock freshClient)).
Proof.
  apply (@limiter_stays_bounded Z sampleClock tokenServer listingServer
           aboutServer "client" "secret" "agent" (fun s => s)
           "AskReddit" 10 freshClient).
  apply Nat.leb_le. reflexivity.
Defined.

Example sampleTopPosts_value :
  fst (sampleTopPosts "/r/AskReddit" 10 freshClient)
  = Ok [transformPost (sampleChild "t3" "a").(child_data);
        transformPost (sampleChild "t3" "c").(child_data)]
  /\ (snd (sampleTopPosts "/r/AskReddit" 10 freshClient)).(requests) = [202]
  /\ (snd (sampleTopPosts "/r/AskReddit" 10 freshClient)).(world) = 203.
Proof. vm_compute. repeat split. Qed.

End RedditServiceFacts.

(* ================================================================== *)
(** ** The TTS providers behind the service *)
(* ================================================================== *)

Section ProviderFacts.
Import Effects EffectsFacts TTS TTSFacts Providers.
Local Open Scope string_scope.
Local Open Scope Z_scope.

Section AnyWorld.
Variable W : Type.
Variable fetch : HttpRequest -> W -> Outcome HttpResponse * W.
Variable parseErrorBody : string -> option ErrorBody.
Variable env : Env.
Variable sleep : Z -> W -> W.
Variable cleanMarkdown addPauses : string -> string.

Local Abbreviation elevenLabs := (elevenLabsService fetch parseErrorBody env).
Local Abbreviation inworld := (inworldService fetch parseErrorBody env).
Local Abbreviation generate :=
  (Providers.generateAudio env sleep cleanMarkdown addPauses).
Local Abbreviation providersFrom :=
  (tryProviders sleep (ELEVENLABS_voiceId env) (INWORLD_character env)).
Local Abbreviation formatOf := (Formatter.formatForTTS cleanMarkdown addPauses).

Lemma elevenLabsRethrow_error error :
  exists message statusCode,
    elevenLabsRethrow error = ElevenLabsError message statusCode.
Proof. unfold elevenLabsRethrow. destruct error; cbn; eauto. Qed.

Lemma inworldRethrow_error error :
  exists message statusCode,
    inworldRethrow error = InworldError message statusCode.
Proof. unfold inworldRethrow. destruct error; cbn; eauto. Qed.

(** What a synthesis call of ElevenLabs comes to. *)
Lemma elevenLabsGenerateSpeech_cases apiKey text w outcome w' :
  elevenLabsGenerateSpeech fetch parseErrorBody env apiKey text w = (outcome, w') ->
  match outcome with
  | Returned audio =>
      exists response,
        fetch (elevenLabsSpeechRequest env apiKey text) w = (Returned response, w')
        /\ response.(ok) = true
        /\ response.(arrayBuffer) = Returned audio
  | Threw error =>
      exists message statusCode, error = ElevenLabsError message statusCode
  end.
Proof.
  unfold elevenLabsGenerateSpeech.
  destruct (fetch _ w) as [[response|e] w1] eqn:Hfetch.
  - destruct (ok response) eqn:Hok; cbn [negb].
    + destruct (arrayBuffer response) as [audio|e] eqn:Hbody;
        intros [= <- <-]; [eauto|apply elevenLabsRethrow_error].
    + destruct (Providers.text response) as [errorText|e];
        intros [= <- <-]; [eauto|apply elevenLabsRethrow_error].
  - intros [= <- <-]. apply elevenLabsRethrow_error.
Qed.

Lemma inworldGenerateSpeech_cases apiKey workspaceId text w outcome w' :
  inworldGenerateSpeech fetch parseErrorBody env apiKey workspaceId text w
  = (outcome, w') ->
  match outcome with
  | Returned audio =>
      exists response,
        fetch (inworldSpeechRequest env apiKey workspaceId text) w
        = (Returned response, w')
        /\ response.(ok) = true
        /\ response.(arrayBuffer) = Returned audio
  | Threw error =>
      exists message statusCode, error = InworldError message statusCode
  end.
Proof.
  unfold inworldGenerateSpeech.
  destruct (fetch _ w) as [[response|e] w1] eqn:Hfetch.
  - destruct (ok response) eqn:Hok; cbn [negb].
    + destruct (arrayBuffer response) as [audio|e] eqn:Hbody;
        intros [= <- <-]; [eauto|apply inworldRethrow_error].
    + destruct (Providers.text response) as [errorText|e];
        intros [= <- <-]; [eauto|apply inworldRethrow_error].
  - intros [= <- <-]. apply inworldRethrow_error.
Qed.

(** The providers that the constructor of the TTS service can set up. *)
Definition configured (p : TTSProvider W) : Prop :=
  (exists apiKey, p = elevenLabs apiKey)
  \/ (exists apiKey workspaceId, p = inworld apiKey workspaceId).

Lemma initializeProviders_cases :
  match initializeProviders fetch parseErrorBody env with
  | Returned providers =>
      providers <> []
      /\ providers
         = (match present env.(ELEVENLABS_API_KEY) with
            | Some apiKey => [elevenLabs apiKey]
            | None => []
            end
            ++ match present env.(INWORLD_API_KEY),
                     present env.(INWORLD_WORKSPACE_ID) with
               | Some apiKey, Some workspaceId => [inworld apiKey workspaceId]
               | _, _ => []
               end)%list
  | Threw error =>
      error = TTSServiceError
                "No TTS providers configured. Please set ELEVENLABS_API_KEY or INWORLD_API_KEY."
                "NO_PROVIDERS"
      /\ present env.(ELEVENLABS_API_KEY) = None
      /\ (present env.(INWORLD_API_KEY) = None
          \/ present env.(INWORLD_WORKSPACE_ID) = None)
  end.
Proof.
  unfold initializeProviders, pushIfAvailable, getElevenLabs, getInworld.
  destruct (present (ELEVENLABS_API_KEY env)) as [k1|];
    destruct (present (INWORLD_API_KEY env)) as [k2|];
    destruct (present (INWORLD_WORKSPACE_ID env)) as [ws|]; cbn;
    try (split; [discriminate|reflexivity]); auto.
Qed.

Lemma initializeProviders_configured providers :
  initializeProviders fetch parseErrorBody env = Returned providers ->
  Forall configured providers.
Proof.
  intros Hinit. pose proof initializeProviders_cases as Hcases.
  rewrite Hinit in Hcases. destruct Hcases as [_ ->].
  apply Forall_app. split.
  - destruct (present (ELEVENLABS_API_KEY env)) as [apiKey|]; constructor;
      [left; eauto|constructor].
  - destruct (present (INWORLD_API_KEY env)) as [apiKey|]; [|constructor].
    destruct (present (INWORLD_WORKSPACE_ID env)) as [workspaceId|];
      constructor; [right; eauto|constructor].
Qed.

(** X19: the constructor of the TTS service sets up ElevenLabs when its
    key is set, then Inworld when its key and its workspace are set, in
    this order; without either it fails with [NO_PROVIDERS]. An empty
    value counts as not set. *)
Theorem initializeProviders_priority :
  let elevenLabsSet :=
    match present env.(ELEVENLABS_API_KEY) with
    | Some _ => true
    | None => false
    end in
  let inworldSet :=
    match present env.(INWORLD_API_KEY), present env.(INWORLD_WORKSPACE_ID) with
    | Some _, Some _ => true
    | _, _ => false
    end in
  match initializeProviders fetch parseErrorBody env with
  | Returned providers =>
      map (@name W) providers
      = ((if elevenLabsSet then ["elevenlabs"] else [])
         ++ (if inworldSet then ["inworld"] else []))%list
      /\ providers <> []
      /\ Forall configured providers
  | Threw error =>
      error = TTSServiceError
                "No TTS providers configured. Please set ELEVENLABS_API_KEY or INWORLD_API_KEY."
                "NO_PROVIDERS"
      /\ elevenLabsSet = false /\ inworldSet = false
  end.
Proof.
  intros elevenLabsSet inworldSet.
  pose proof initializeProviders_cases as Hcases.
  pose proof initializeProviders_configured as Hconfigured.
  destruct (initializeProviders fetch parseErrorBody env) as [providers|error].
  - destruct Hcases as [Hne Heq]. split; [|split; [exact Hne|now apply Hconfigured]].
    rewrite Heq, map_app. subst elevenLabsSet inworldSet.
    destruct (present (ELEVENLABS_API_KEY env));
      destruct (present (INWORLD_API_KEY env));
      destruct (present (INWORLD_WORKSPACE_ID env)); reflexivity.
  - destruct Hcases as (-> & Hel & Hiw). split; [reflexivity|].
    subst elevenLabsSet inworldSet. rewrite Hel. split; [reflexivity|].
    destruct Hiw as [-> | ->]; [reflexivity|].
    now destruct (present (INWORLD_API_KEY env)).
Qed.

(** X20: what a synthesis call of either provider throws is an error of
    that provider's own class, whatever [fetch] and the reading of the
    body do; what it returns are the bytes of a response that was [ok]
    to its POST request. *)
Theorem generateSpeech_throws_provider_errors
  (apiKey workspaceId text : string) (w : W) :
  match (elevenLabs apiKey).(generateSpeech) text w with
  | (Returned audio, w') =>
      exists response,
        fetch (elevenLabsSpeechRequest env apiKey text) w = (Returned response, w')
        /\ response.(ok) = true /\ response.(arrayBuffer) = Returned audio
  | (Threw error, _) =>
      exists message statusCode, error = ElevenLabsError message statusCode
  end
  /\ match (inworld apiKey workspaceId).(generateSpeech) text w with
     | (Returned audio, w') =>
         exists response,
           fetch (inworldSpeechRequest env apiKey workspaceId text) w
           = (Returned response, w')
           /\ response.(ok) = true /\ response.(arrayBuffer) = Returned audio
     | (Threw error, _) =>
         exists message statusCode, error = InworldError message statusCode
     end.
Proof.
  split; cbn [generateSpeech elevenLabsService inworldService].
  - destruct (elevenLabsGenerateSpeech _ _ _ _ _ _) as [outcome w'] eqn:Hrun.
    apply elevenLabsGenerateSpeech_cases in Hrun. now destruct outcome.
  - destruct (inworldGenerateSpeech _ _ _ _ _ _ _) as [outcome w'] eqn:Hrun.
    apply inworldGenerateSpeech_cases in Hrun. now destruct outcome.
Qed.

Lemma tryProviders_returned_voice (providers : list (TTSProvider W))
  formatted lastError st result st' :
  providersFrom providers formatted lastError st = (Returned result, st') ->
  exists p w w',
    In p providers
    /\ result.(provider) = p.(name)
    /\ result.(voice) = voiceOf (ELEVENLABS_voiceId env) (INWORLD_character env) p
    /\ p.(generateSpeech) formatted.(Formatter.text) w
       = (Returned result.(audioBuffer), w').
Proof.
  revert lastError st.
  induction providers as [|p providers IH]; intros lastError st.
  - cbn. discriminate.
  - cbn [tryProviders]. unfold tryCatch at 1, bind at 1.
    destruct (generateWithRetry sleep p formatted.(Formatter.text) st)
      as [[audio|error] st1] eqn:Hretry.
    + unfold ret. intros [= <- <-]. cbn.
      apply retryFrom_returned in Hretry. destruct Hretry as (w & w' & Hw).
      exists p, w, w'. split; [now left|]. auto.
    + intros H. apply IH in H. destruct H as (q & w & w' & Hq & Hrest).
      exists q, w, w'. split; [now right|exact Hrest].
Qed.

(** X21: the voice that the result reports is the voice that was asked
    for. When the service is set up from the environment and
    [generateAudio] returns, the audio is the body of an [ok] response to
    a POST request whose URL names the reported voice: the voice id for
    ElevenLabs, the character for Inworld. *)
Theorem reported_voice_is_requested_voice
  (providers : list (TTSProvider W)) (post : Reddit.RedditPost)
  (st st' : State W) (result : AudioGenerationResult) :
  initializeProviders fetch parseErrorBody env = Returned providers ->
  generate providers post st = (Returned result, st') ->
  exists request w response w',
    fetch request w = (Returned response, w')
    /\ response.(ok) = true
    /\ response.(arrayBuffer) = Returned result.(audioBuffer)
    /\ request.(method) = "POST"
    /\ ((result.(provider) = "elevenlabs"
         /\ request.(url)
            = elevenLabsBaseUrl ++ "/text-to-speech/" ++ result.(voice))
        \/ (result.(provider) = "inworld"
            /\ exists workspaceId,
                 request.(url)
                 = inworldBaseUrl ++ "/workspaces/" ++ workspaceId
                   ++ "/characters/" ++ result.(voice) ++ "/tts")).
Proof.
  intros Hinit Hrun. apply initializeProviders_configured in Hinit.
  unfold Providers.generateAudio, TTS.generateAudio in Hrun.
  apply tryProviders_returned_voice in Hrun.
  destruct Hrun as (p & w & w' & Hp & Hname & Hvoice & Hspeech).
  rewrite Forall_forall in Hinit.
  destruct (Hinit p Hp) as [[apiKey ->] | (apiKey & workspaceId & ->)];
    cbn [generateSpeech name elevenLabsService inworldService] in *.
  - apply elevenLabsGenerateSpeech_cases in Hspeech.
    destruct Hspeech as (response & Hfetch & Hok & Hbody).
    do 4 eexists. split; [exact Hfetch|]. split; [exact Hok|].
    split; [exact Hbody|]. split; [reflexivity|]. left.
    split; [exact Hname|]. now rewrite Hvoice.
  - apply inworldGenerateSpeech_cases in Hspeech.
    destruct Hspeech as (response & Hfetch & Hok & Hbody).
    do 4 eexists. split; [exact Hfetch|]. split; [exact Hok|].
    split; [exact Hbody|]. split; [reflexivity|]. right.
    split; [exact Hname|]. exists workspaceId. now rewrite Hvoice.
Qed.


(** The calls on a provider that is never available. *)
Definition probesOf (p : TTSProvider W) : list Event :=
  [IsAvailable p.(name); Wait 1000; IsAvailable p.(name); Wait 2000;
   IsAvailable p.(name)].

Lemma generateWithRetry_unavailable (p : TTSProvider W) text st :
  (forall w, fst (p.(isAvailable) w) = false) ->
  exists w',
    generateWithRetry sleep p text st
    = (Threw (unavailableError p), after st (probesOf p) w').
Proof.
  intros Hdown.
  assert (Hprobe : forall w, p.(isAvailable) w = (false, snd (p.(isAvailable) w))).
  { intros w. specialize (Hdown w). destruct (isAvailable p w) as [b w'].
    cbn in *. now subst b. }
  eexists. unfold generateWithRetry. change attemptNumbers with [1; 2; 3].
  rewrite (attempt_unavailable sleep p text 1 [2; 3] None st (Hprobe _)).
  change (1 <? maxAttempts) with true. cbv iota.
  unfold bind at 1. rewrite waitWithBackoff_returns, after_after.
  change (backoffDelay 1) with 1000.
  erewrite attempt_unavailable by apply Hprobe.
  change (2 <? maxAttempts) with true. cbv iota.
  unfold bind at 1. rewrite waitWithBackoff_returns, !after_after.
  change (backoffDelay 2) with 2000.
  erewrite attempt_unavailable by apply Hprobe.
  change (3 <? maxAttempts) with false. cbv iota.
  unfold bind, ret. cbn [retryFrom]. unfold throw.
  rewrite after_after. reflexivity.
Qed.

(** The error that is left when each of [providers] was found
    unavailable. *)
Definition lastUnavailable (providers : list (TTSProvider W))
  (lastError : option Thrown) : option Thrown :=
  fold_left (fun _ p => Some (unavailableError p)) providers lastError.

Lemma tryProviders_unavailable (providers : list (TTSProvider W))
  formatted lastError st :
  Forall (fun p => forall w, fst (p.(isAvailable) w) = false) providers ->
  exists w',
    providersFrom providers formatted lastError st
    = (Threw (allProvidersFailed (lastUnavailable providers lastError)),
       after st (flat_map probesOf providers) w').
Proof.
  intros Hdown. revert lastError st.
  induction Hdown as [|p providers Hp _ IH]; intros lastError st.
  - exists st.(world). cbn. unfold throw, after. rewrite app_nil_r.
    now destruct st.
  - destruct (generateWithRetry_unavailable p formatted.(Formatter.text) st Hp)
      as [w1 Hretry].
    erewrite tryProviders_failed by exact Hretry.
    destruct (IH (Some (asError (unavailableError p)))
                 (after st (probesOf p) w1)) as [w' Hrest].
    exists w'. rewrite Hrest, after_after. reflexivity.
Qed.

(** X23: a provider whose probe request is never answered [ok] (the
    network is down, or the key is refused) is never asked to
    synthesize. With such answers to every GET request, [generateAudio]
    probes each provider three times, waits 1000 ms and 2000 ms between
    the probes, and fails with [ALL_PROVIDERS_FAILED]; the last error
    names the last provider as not available. *)
Theorem failed_probes_prevent_synthesis
  (providers : list (TTSProvider W)) (post : Reddit.RedditPost) (st : State W) :
  (forall request w,
      request.(method) = "GET" ->
      match fetch request w with
      | (Returned response, _) => response.(ok) = false
      | (Threw _, _) => True
      end) ->
  Forall configured providers ->
  exists w',
    generate providers post st
    = (Threw (allProvidersFailed (lastUnavailable providers None)),
       after st (flat_map probesOf providers) w').
Proof.
  intros Hget Hconfigured.
  unfold Providers.generateAudio, TTS.generateAudio.
  apply tryProviders_unavailable.
  eapply Forall_impl; [|exact Hconfigured].
  intros p [[apiKey ->] | (apiKey & workspaceId & ->)] w;
    cbn [isAvailable elevenLabsService inworldService];
    unfold elevenLabsIsAvailable, inworldIsAvailable.
  - specialize (Hget (elevenLabsUserRequest apiKey) w eq_refl).
    destruct (fetch _ w) as [[response|e] w']; [exact Hget|reflexivity].
  - specialize (Hget (inworldWorkspaceRequest apiKey workspaceId) w eq_refl).
    destruct (fetch _ w) as [[response|e] w']; [exact Hget|reflexivity].
Qed.

End AnyWorld.

(** *** Sample networks *)

Definition audioResponse : HttpResponse :=
  {| ok := true; status := 200; statusText := "OK";
     Providers.text := Returned "";
     arrayBuffer := Returned sampleAudio;
     json := Threw (PlainError "Unexpected end of JSON input") |}.


Definition healthyNetwork : HttpRequest -> unit -> Outcome HttpResponse * unit :=
  fun _ w => (Returned audioResponse, w).


Definition deadNetwork : HttpRequest -> unit -> Outcome HttpResponse * unit :=
  fun _ w => (Threw (PlainError "fetch failed"), w).

(** No error body is JSON. *)
Definition plainErrorBodies : string -> option ErrorBody := fun _ => None.

Definition elevenLabsOnly : Env :=
  {| ELEVENLABS_API_KEY := Some "key-1"; ELEVENLABS_VOICE_ID := None;
     INWORLD_API_KEY := None; INWORLD_WORKSPACE_ID := None;
     INWORLD_CHARACTER_ID := None |}.

Definition bothProviders : Env :=
  {| ELEVENLABS_API_KEY := Some "key-1"; ELEVENLABS_VOICE_ID := None;
     INWORLD_API_KEY := Some "key-2"; INWORLD_WORKSPACE_ID := Some "workspace-1";
     INWORLD_CHARACTER_ID := Some "storyteller" |}.

Lemma reported_voice_is_requested_voice_default :
  let result := {| audioBuffer := sampleAudio; provider := "elevenlabs";
                   voice := "21m00Tcm4TlvDq8ikWAM"; duration := 1;
                   sizeBytes := 3 |} in
  exists request w response w',
    healthyNetwork request w = (Returned response, w')
    /\ response.(ok) = true
    /\ response.(arrayBuffer) = Returned result.(audioBuffer)
    /\ request.(method) = "POST"
    /\ ((result.(provider) = "elevenlabs"
         /\ request.(url)
            = elevenLabsBaseUrl ++ "/text-to-speech/" ++ result.(voice))
        \/ (result.(provider) = "inworld"
            /\ exists workspaceId,
                 request.(url)
                 = inworldBaseUrl ++ "/workspaces/" ++ workspaceId
                   ++ "/characters/" ++ result.(voice) ++ "/tts")).
Proof.
  intros result.
  eapply (@reported_voice_is_requested_voice unit healthyNetwork
            plainErrorBodies elevenLabsOnly idle unchanged unchanged
            [elevenLabsService healthyNetwork plainErrorBodies elevenLabsOnly "key-1"]
            helloPost (start tt) _ result).
  - reflexivity.
  - vm_compute. reflexivity.
Defined.


Lemma failed_probes_prevent_synthesis_dead_network :
  let providers :=
    [elevenLabsService deadNetwork plainErrorBodies bothProviders "key-1";
     inworldService deadNetwork plainErrorBodies bothProviders
       "key-2" "workspace-1"] in
  exists w',
    Providers.generateAudio bothProviders idle unchanged unchanged
      providers helloPost (start tt)
    = (Threw (allProvidersFailed (lastUnavailable providers None)),
       after (start tt) (flat_map (@probesOf unit) providers) w').
Proof.
  intros providers.
  apply (@failed_probes_prevent_synthesis unit deadNetwork plainErrorBodies
           bothProviders idle unchanged unchanged providers helloPost (start tt)).
  - intros request w _. exact I.
  - constructor; [left; now exists "key-1"|].
    constructor; [right; now exists "key-2", "workspace-1"|]. constructor.
Defined.

Example dead_network_run :
  Providers.generateAudio bothProviders idle unchanged unchanged
    [elevenLabsService deadNetwork plainErrorBodies bothProviders "key-1";
     inworldService deadNetwork plainErrorBodies bothProviders
       "key-2" "workspace-1"]
    helloPost (start tt)
  = (Threw (TTSServiceError
              "All TTS providers failed. Last error: Provider inworld is not available"
              "ALL_PROVIDERS_FAILED"),
     after (start tt)
       [IsAvailable "elevenlabs"; Wait 1000; IsAvailable "elevenlabs"; Wait 2000;
        IsAvailable "elevenlabs";
        IsAvailable "inworld"; Wait 1000; IsAvailable "inworld"; Wait 2000;
        IsAvailable "inworld"] tt).
Proof. vm_compute. reflexivity. Qed.

End ProviderFacts.

(* ================================================================== *)
(** ** The store behind the orchestrator *)
(* ================================================================== *)

Section StorageFacts.
Import Effects EffectsFacts Orchestrator SupabaseStorage.
Local Open Scope string_scope.

(** The codes of the [StorageError]s that the five methods build. *)
Definition storageCodes : list string :=
  ["DUPLICATE_POST"; "DB_INSERT_ERROR"; "NO_DATA"; "DB_ERROR";
   "DB_UPDATE_ERROR"; "UPLOAD_ERROR"; "URL_ERROR"; "STORAGE_ERROR";
   "DB_SELECT_ERROR"].

Section AnyWorld.
Variable W : Type.
Variable createServerClient : option (SupabaseClient W).
Variable toISOString : R -> option string.

Local Abbreviation store := (supabaseStorage createServerClient toISOString).

(** What a method of the store may throw: the error of a missing secret
    key, with the world untouched, or a [StorageError] with one of the
    codes. *)
Definition storageFailure (w : W) (error : Thrown) (w' : W) : Prop :=
  (createServerClient = None /\ error = missingSecretKey /\ w' = w)
  \/ (exists message code,
         error = StorageError message code /\ In code storageCodes).

Ltac storage_cases :=
  repeat match goal with
    | |- context [match ?x with _ => _ end] =>
        lazymatch x with
        | context [match _ with _ => _ end] => fail
        | context [if _ then _ else _] => fail
        | _ => destruct x eqn:?
        end
    | |- context [if ?b then _ else _] =>
        lazymatch b with
        | context [match _ with _ => _ end] => fail
        | context [if _ then _ else _] => fail
        | _ => destruct b eqn:?
        end
    end.

Ltac storage_failure :=
  intros [= <- <-];
  first [ left; repeat split; (assumption || reflexivity)
        | right; do 2 eexists; split; [reflexivity|];
          unfold storageCodes; cbn; tauto ].

Lemma saveSelectedPost_throws post score w error w' :
  store.(Orchestrator.saveSelectedPost) post score w = (Threw error, w') ->
  storageFailure w error w'.
Proof.
  cbn [Orchestrator.saveSelectedPost supabaseStorage]. unfold SupabaseStorage.saveSelectedPost.
  storage_cases; try discriminate; storage_failure.
Qed.

Lemma getSelectedPostByRedditId_throws redditPostId w error w' :
  store.(Orchestrator.getSelectedPostByRedditId) redditPostId w = (Threw error, w') ->
  storageFailure w error w'.
Proof.
  cbn [Orchestrator.getSelectedPostByRedditId supabaseStorage].
  unfold SupabaseStorage.getSelectedPostByRedditId.
  storage_cases; try discriminate; storage_failure.
Qed.

Lemma uploadAudioFile_throws audio fileName contentType w error w' :
  store.(Orchestrator.uploadAudioFile) audio fileName contentType w = (Threw error, w') ->
  storageFailure w error w'.
Proof.
  cbn [Orchestrator.uploadAudioFile supabaseStorage]. unfold SupabaseStorage.uploadAudioFile.
  storage_cases; try discriminate; storage_failure.
Qed.

Lemma saveAudioFile_throws audioData w error w' :
  store.(Orchestrator.saveAudioFile) audioData w = (Threw error, w') ->
  storageFailure w error w'.
Proof.
  cbn [Orchestrator.saveAudioFile supabaseStorage]. unfold SupabaseStorage.saveAudioFile.
  storage_cases; try discriminate; storage_failure.
Qed.

Lemma linkAudioToPost_throws postId audioFileId w error w' :
  store.(Orchestrator.linkAudioToPost) postId audioFileId w = (Threw error, w') ->
  storageFailure w error w'.
Proof.
  cbn [Orchestrator.linkAudioToPost supabaseStorage]. unfold SupabaseStorage.linkAudioToPost.
  storage_cases; try discriminate; storage_failure.
Qed.

(** X24: what the five methods of the store throw. Without the secret
    key each of them throws the error of [createServerClient] and leaves
    the world as it is; else what it throws is a [StorageError] with one
    of nine codes, whatever the client answers or rejects with. *)
Theorem storage_methods_throw_storage_errors :
  (forall post score w error w',
      store.(Orchestrator.saveSelectedPost) post score w = (Threw error, w') ->
      storageFailure w error w')
  /\ (forall redditPostId w error w',
        store.(Orchestrator.getSelectedPostByRedditId) redditPostId w
        = (Threw error, w') ->
        storageFailure w error w')
  /\ (forall audio fileName contentType w error w',
        store.(Orchestrator.uploadAudioFile) audio fileName contentType w
        = (Threw error, w') ->
        storageFailure w error w')
  /\ (forall audioData w error w',
        store.(Orchestrator.saveAudioFile) audioData w = (Threw error, w') ->
        storageFailure w error w')
  /\ (forall postId audioFileId w error w',
        store.(Orchestrator.linkAudioToPost) postId audioFileId w
        = (Threw error, w') ->
        storageFailure w error w').
Proof.
  split; [exact saveSelectedPost_throws|].
  split; [exact getSelectedPostByRedditId_throws|].
  split; [exact uploadAudioFile_throws|].
  split; [exact saveAudioFile_throws|exact linkAudioToPost_throws].
Qed.

(** X25: [saveSelectedPost] reports a duplicate exactly when the insert
    was answered with the error code 23505 of a unique violation; the
    message then names the Reddit id of the post. No other answer, and
    no rejection, is taken for a duplicate. *)
Theorem duplicate_iff_unique_violation
  (supabase : SupabaseClient W) (post : Reddit.RedditPost)
  (score : Analyzer.PostScore) (w w' : W)
  (outcome : Outcome Database.SelectedPost) :
  createServerClient = Some supabase ->
  store.(Orchestrator.saveSelectedPost) post score w = (outcome, w') ->
  ((exists error, outcome = Threw error /\ isDuplicatePost error = true)
   <-> exists created reply error,
         toISOString (post.(Reddit.created_utc) * 1000)%R = Some created
         /\ supabase.(insertSelectedPost) (postData post score created) w
            = (Answered reply, w')
         /\ reply.(reply_error) = Some error
         /\ error.(error_code) = "23505")
  /\ (forall error,
        outcome = Threw error -> isDuplicatePost error = true ->
        error = StorageError
                  ("Post " ++ post.(Reddit.id) ++ " has already been selected")
                  "DUPLICATE_POST").
Proof.
  intros Hclient.
  cbn [Orchestrator.saveSelectedPost supabaseStorage].
  unfold SupabaseStorage.saveSelectedPost. rewrite Hclient.
  destruct (toISOString _) as [created|] eqn:Hiso.
  - destruct (insertSelectedPost supabase _ w) as [[reply|r] w1] eqn:Hinsert.
    + destruct (reply_error reply) as [error|] eqn:Herror.
      * destruct (String.eqb_spec (error_code error) "23505") as [Hcode|Hcode];
          intros [= <- <-].
        -- split.
           ++ split; [|eauto].
              intros _. exists created, reply, error. auto.
           ++ intros e [= <-] _. reflexivity.
        -- split.
           ++ split.
              ** intros (e & [= <-] & Hdup). discriminate Hdup.
              ** intros (created' & reply' & error' & [= <-] & Hi & He & Hc).
                 rewrite Hinsert in Hi. injection Hi as <-.
                 rewrite Herror in He. injection He as <-. contradiction.
           ++ intros e [= <-] Hdup. discriminate Hdup.
      * destruct (reply_data reply) as [row|]; intros [= <- <-].
        -- split.
           ++ split.
              ** intros (e & He & _). discriminate He.
              ** intros (created' & reply' & error' & [= <-] & Hi & He & Hc).
                 rewrite Hinsert in Hi. injection Hi as <-.
                 rewrite Herror in He. discriminate He.
           ++ intros e He. discriminate He.
        -- split.
           ++ split.
              ** intros (e & [= <-] & Hdup). discriminate Hdup.
              ** intros (created' & reply' & error' & [= <-] & Hi & He & Hc).
                 rewrite Hinsert in Hi. injection Hi as <-.
                 rewrite Herror in He. discriminate He.
           ++ intros e [= <-] Hdup. discriminate Hdup.
    + intros [= <- <-]. split.
      * split.
        -- intros (e & [= <-] & Hdup). discriminate Hdup.
        -- intros (created' & reply' & error' & [= <-] & Hi & _).
           rewrite Hinsert in Hi. discriminate Hi.
      * intros e [= <-] Hdup. discriminate Hdup.
  - intros [= <- <-]. split.
    + split.
      * intros (e & [= <-] & Hdup). discriminate Hdup.
      * intros (created' & reply' & error' & Hc & _). discriminate Hc.
    + intros e [= <-] Hdup. discriminate Hdup.
Qed.

Section WithOrchestrator.
Variable providers : list (TTS.TTSProvider W).
Variable sleep : Z -> W -> W.
Variable elevenLabsVoiceId inworldCharacter : string.
Variable cleanMarkdown addPauses : string -> string.
Variable clock : W -> nat -> R.
Variable nowMs : W -> Z.

Local Abbreviation run :=
  (processPostToAudio store providers sleep elevenLabsVoiceId
     inworldCharacter cleanMarkdown addPauses clock nowMs).

Lemma storageFailure_not_orchestration w error w' :
  storageFailure w error w' -> isOrchestrationError error = false.
Proof.
  intros [(_ & -> & _) | (message & code & -> & _)]; reflexivity.
Qed.

(** X26: with the store of the repository behind it, the orchestrator
    raises [OrchestrationError]s with its nine codes and nothing else,
    whatever the database, the file storage and the TTS providers do. *)
Theorem orchestrator_codes_with_store
  (posts : list Reddit.RedditPost) (st st' : State W) (error : Thrown) :
  run posts st = (Threw error, st') ->
  exists message code cause,
    error = OrchestrationError message code cause /\ In code errorCodes.
Proof.
  intros Hrun. apply processPostToAudio_cases in Hrun.
  destruct Hrun as [(_ & message & code & [= ->] & Hcode) | Hrun].
  - do 3 eexists. split; [reflexivity|]. unfold errorCodes.
    destruct Hcode as [[_ ->] | (_ & -> & _)]; cbn; tauto.
  - destruct Hrun as (best & lookups & tts & n & fileName & fileUrl
                      & durationSeconds & postId & audioFileId
                      & _ & _ & _ & _ & message & code & cause & -> & Hcode).
    do 3 eexists. split; [reflexivity|].
    destruct Hcode as [Hcode | (w & w' & Hthrown)]; [exact Hcode|].
    apply getSelectedPostByRedditId_throws, storageFailure_not_orchestration
      in Hthrown.
    discriminate Hthrown.
Qed.

(** X27: without the secret key of the store nothing is synthesized.
    The run of a batch with a usable post fails at its first call, the
    save of the selected post, with [POST_SAVE_FAILED] and the error of
    the missing key as its cause; no TTS provider is called. *)
Theorem missing_store_key_stops_before_synthesis
  (posts : list Reddit.RedditPost) (st : State W) (best : Analyzer.PostScore) :
  createServerClient = None ->
  Analyzer.selectBestPost (clock st.(world)) posts = Some best ->
  run posts st
  = (Threw (OrchestrationError "Failed to save selected post" "POST_SAVE_FAILED"
              (Some missingSecretKey)),
     after st [SaveSelectedPost best.(Analyzer.post).(Reddit.id)] st.(world)).
Proof.
  intros Hclient Hbest.
  apply (@save_failure_other W store providers sleep elevenLabsVoiceId
           inworldCharacter cleanMarkdown addPauses clock nowMs posts st best
           missingSecretKey st.(world) Hbest).
  - cbn [Orchestrator.saveSelectedPost supabaseStorage].
    unfold SupabaseStorage.saveSelectedPost. now rewrite Hclient.
  - reflexivity.
Qed.

End WithOrchestrator.

End AnyWorld.

(** *** A sample database *)

Definition uniqueViolation : PostgrestError :=
  {| error_message := "duplicate key value violates unique constraint";
     error_code := "23505" |}.

(** A database that holds the post already and answers every insert with
    a unique violation. *)
Definition duplicateClient : SupabaseClient unit :=
  {| insertSelectedPost := fun _ w =>
       (Answered {| reply_data := None; reply_error := Some uniqueViolation |}, w);
     insertAudioFile := fun _ w =>
       (Answered {| reply_data := None; reply_error := Some uniqueViolation |}, w);
     updateAudioFileId := fun _ _ w => (Answered None, w);
     upload := fun _ fileName _ _ w =>
       (Answered {| reply_data := Some {| path := fileName |};
                    reply_error := None |}, w);
     getPublicUrl := fun _ path' _ =>
       Answered (Some ("https://example.com/" ++ path'));
     selectByRedditPostId := fun _ w =>
       (Answered {| reply_data := Some storedWithAudio; reply_error := None |}, w)
  |}.

Definition epoch : R -> option string := fun _ => Some "1970-01-01T00:00:00.000Z".

Lemma duplicate_iff_unique_violation_sample :
  let post := popularPost in
  let score := Analyzer.scorePost 3600 popularPost in
  let outcome : Outcome Database.SelectedPost :=
    Threw (StorageError "Post test123 has already been selected" "DUPLICATE_POST") in
  ((exists error, outcome = Threw error /\ isDuplicatePost error = true)
   <-> exists created reply error,
         epoch (post.(Reddit.created_utc) * 1000)%R = Some created
         /\ duplicateClient.(insertSelectedPost) (postData post score created) tt
            = (Answered reply, tt)
         /\ reply.(reply_error) = Some error
         /\ error.(error_code) = "23505")
  /\ (forall error,
        outcome = Threw error -> isDuplicatePost error = true ->
        error = StorageError
                  ("Post " ++ post.(Reddit.id) ++ " has already been selected")
                  "DUPLICATE_POST").
Proof.
  apply (@duplicate_iff_unique_violation unit (Some duplicateClient) epoch
           duplicateClient popularPost (Analyzer.scorePost 3600 popularPost)
           tt tt);
    reflexivity.
Defined.

Lemma orchestrator_codes_with_store_missing_key :
  exists message code cause,
    OrchestrationError "Failed to save selected post" "POST_SAVE_FAILED"
      (Some missingSecretKey)
    = OrchestrationError message code cause
    /\ In code errorCodes.
Proof.
  apply (@orchestrator_codes_with_store unit None epoch [inworldReady] idle
           defaultVoiceId defaultCharacter unchanged unchanged
           (fun _ _ => 3600%R) (fun _ => 1736208000000%Z)
           [popularPost] (start tt)
           (after (start tt) [SaveSelectedPost "test123"] tt)).
  apply (@save_failure_other unit (supabaseStorage None epoch) [inworldReady]
           idle defaultVoiceId defaultCharacter unchanged unchanged
           (fun _ _ => 3600%R) (fun _ => 1736208000000%Z)
           [popularPost] (start tt) (Analyzer.scorePost 3600 popularPost)
           missingSecretKey tt).
  - apply AnalyzerFacts.selectBestPost_singleton. vm_compute. reflexivity.
  - reflexivity.
  - reflexivity.
Defined.

Lemma missing_store_key_stops_before_synthesis_sample :
  processPostToAudio (supabaseStorage None epoch) [inworldReady] idle
    defaultVoiceId defaultCharacter unchanged unchanged
    (fun _ _ => 3600%R) (fun _ => 1736208000000%Z) [popularPost] (start tt)
  = (Threw (OrchestrationError "Failed to save selected post" "POST_SAVE_FAILED"
              (Some missingSecretKey)),
     after (start tt) [SaveSelectedPost "test123"] tt).
Proof.
  apply (@missing_store_key_stops_before_synthesis unit None epoch
           [inworldReady] idle defaultVoiceId defaultCharacter unchanged
           unchanged (fun _ _ => 3600%R) (fun _ => 1736208000000%Z)
           [popularPost] (start tt) (Analyzer.scorePost 3600 popularPost)).
  - reflexivity.
  - apply AnalyzerFacts.selectBestPost_singleton. vm_compute. reflexivity.
Defined.

End StorageFacts.

(* ================================================================== *)
(** ** The window of the rate limiter *)
(* ================================================================== *)

Section LimiterWindow.
Import RateLimiter LimiterUse.
Local Open Scope Z_scope.

(** The timestamps of [history] in the 60 seconds up to [time]. *)
Definition upTo (time : Z) (history : list Z) : list Z :=
  filter (fun r => (time - windowMs <? r) && (r <=? time)) history.

(** The timestamps of [history] that are younger than [cutoff]. *)
Definition youngerThan (cutoff : Z) (history : list Z) : list Z :=
  filter (fun r => cutoff <? r) history.

Lemma filter_length_impl (A : Type) (p q : A -> bool) (l : list A) :
  (forall x, In x l -> p x = true -> q x = true) ->
  (List.length (filter p l) <= List.length (filter q l))%nat.
Proof.
  induction l as [|x l IH]; cbn; [lia|].
  intros Hpq.
  assert (IH' : (List.length (filter p l) <= List.length (filter q l))%nat).
  { apply IH. intros y Hy. apply Hpq. now right. }
  destruct (p x) eqn:Hp.
  - rewrite (Hpq x (or_introl eq_refl) Hp). cbn. lia.
  - destruct (q x); cbn; lia.
Qed.

Lemma youngerThan_youngerThan c1 c2 history :
  c1 <= c2 ->
  filter (fun time => c2 + windowMs - time <? windowMs) (youngerThan c1 history)
  = youngerThan c2 history.
Proof.
  intros Hle. unfold youngerThan.
  induction history as [|r history IH]; [reflexivity|].
  cbn [filter].
  destruct (Z.ltb_spec c1 r) as [H1|H1]; cbn [filter].
  - destruct (Z.ltb_spec (c2 + windowMs - r) windowMs) as [H2|H2];
      destruct (Z.ltb_spec c2 r) as [H3|H3]; try lia; now rewrite IH.
  - destruct (Z.ltb_spec c2 r) as [H3|H3]; [lia|exact IH].
Qed.

(** What holds between the limiter, the history and the clock. *)
Definition consistent (since : Z) (requests history : list Z) : Prop :=
  exists cutoff,
    cutoff + windowMs <= since
    /\ requests = youngerThan cutoff history
    /\ Forall (fun r => r <= since) history
    /\ Forall (fun time =>
                 (List.length (upTo time history) <= maxRequests)%nat) history.

Lemma upTo_app time history later :
  upTo time (history ++ later) = (upTo time history ++ upTo time later)%list.
Proof. apply filter_app. Qed.

(** One call keeps the limiter consistent with the history. *)
Lemma useLimiter_consistent since use requests history :
  consistent since requests history ->
  since <= use.(checked) ->
  (forall now, use.(answered) = Some now -> use.(checked) <= now) ->
  consistent (match use.(answered) with
              | Some now => now
              | None => use.(checked)
              end)
    (useLimiter use requests) (history ++ recorded use requests).
Proof.
  intros (c & Hc & Hr & Hp & Hw) Hsince Hanswered.
  assert (HW : 0 < windowMs) by reflexivity.
  unfold useLimiter, recorded.
  set (t1 := checked use) in *.
  assert (Hkept : snd (canMakeRequest t1 requests)
                  = youngerThan (t1 - windowMs) history).
  { unfold canMakeRequest. cbn [snd]. rewrite Hr.
    rewrite <- (@youngerThan_youngerThan c (t1 - windowMs)) by lia.
    apply filter_ext. intros r. f_equal. lia. }
  destruct (canMakeRequest t1 requests) as [can kept] eqn:Hcheck.
  cbn [fst snd] in *.
  assert (Hcan : can = (List.length kept <? maxRequests)%nat).
  { unfold canMakeRequest in Hcheck. now injection Hcheck as <- <-. }
  assert (Hstay : forall since',
             t1 <= since' ->
             consistent since' kept (history ++ [])).
  { intros since' Hs. rewrite app_nil_r.
    exists (t1 - windowMs). split; [lia|]. split; [exact Hkept|].
    split; [|exact Hw].
    eapply Forall_impl; [|exact Hp]. cbn. intros r Hr'. lia. }
  destruct can.
  2: { destruct (answered use) as [t2|] eqn:Ha; apply Hstay;
         [now apply Hanswered|lia]. }
  destruct (answered use) as [t2|] eqn:Ha; [|apply Hstay; lia].
  specialize (Hanswered t2 eq_refl).
  symmetry in Hcan. apply Nat.ltb_lt in Hcan.
  assert (Hnew : (List.length (upTo t2 (history ++ [t2])) <= maxRequests)%nat).
  { rewrite upTo_app, length_app.
    assert (Hold : (List.length (upTo t2 history) <= List.length kept)%nat).
    { rewrite Hkept. unfold upTo, youngerThan.
      apply filter_length_impl. intros r _ Hin.
      apply andb_prop in Hin. destruct Hin as [Hin _].
      apply Z.ltb_lt in Hin. apply Z.ltb_lt. lia. }
    assert (Hone : (List.length (upTo t2 [t2]) <= 1)%nat).
    { unfold upTo. cbn [filter]. destruct (_ && _); cbn; lia. }
    lia. }
  exists (t1 - windowMs). split; [lia|]. split; [|split].
  - unfold recordRequest, youngerThan. rewrite filter_app. cbn [filter].
    destruct (Z.ltb_spec (t1 - windowMs) t2) as [_|Hlt]; [|lia].
    now rewrite Hkept.
  - apply Forall_app. split.
    + eapply Forall_impl; [|exact Hp]. cbn. intros r Hr'. lia.
    + constructor; [lia|constructor].
  - apply Forall_app. split; [|constructor; [exact Hnew|constructor]].
    rewrite Forall_forall in *. intros t Ht.
    destruct (Z.eq_dec t t2) as [->|Hne]; [exact Hnew|].
    rewrite upTo_app, length_app.
    assert (Hnone : upTo t [t2] = []).
    { unfold upTo. cbn [filter]. pose proof (Hp t Ht) as Hpast. cbn in Hpast.
      destruct (Z.leb_spec t2 t) as [Hle|_]; [lia|].
      now rewrite andb_false_r. }
    rewrite Hnone. cbn [List.length]. specialize (Hw t Ht). cbn beta in Hw. lia.
Qed.

Lemma useAll_consistent uses since requests history :
  consistent since requests history ->
  chronological since uses ->
  exists since',
    consistent since' (fst (useAll uses requests history))
      (snd (useAll uses requests history)).
Proof.
  revert since requests history.
  induction uses as [|use uses IH]; intros since requests history Hc Hchron.
  - exists since. exact Hc.
  - cbn [useAll]. cbn [chronological] in Hchron. destruct Hchron as [Hsince Hrest].
    assert (Hanswered : forall now, answered use = Some now -> checked use <= now).
    { intros now Hnow. rewrite Hnow in Hrest. tauto. }
    pose proof (useLimiter_consistent use Hc Hsince Hanswered) as Hstep.
    destruct (answered use) as [now|]; eapply IH; try exact Hstep; tauto.
Qed.

(** The youngest timestamp of a window that is not empty. *)
Lemma inWindow_youngest start history :
  inWindow start history = []
  \/ exists time,
       In time history
       /\ start <= time < start + windowMs
       /\ Forall (fun r => r <= time) (inWindow start history).
Proof.
  unfold inWindow. induction history as [|r history IH]; [now left|].
  cbn [filter].
  destruct ((start <=? r) && (r <? start + windowMs)) eqn:Hr.
  - right. apply andb_prop in Hr. destruct Hr as [Hlow Hhigh].
    apply Z.leb_le in Hlow. apply Z.ltb_lt in Hhigh.
    destruct IH as [-> | (time & Hin & Hrange & Hall)].
    + exists r. split; [now left|]. split; [lia|].
      constructor; [lia|constructor].
    + destruct (Z.le_ge_cases r time) as [Hle|Hge].
      * exists time. split; [now right|]. split; [exact Hrange|].
        constructor; assumption.
      * exists r. split; [now left|]. split; [lia|].
        constructor; [lia|].
        eapply Forall_impl; [|exact Hall]. cbn. intros x Hx. lia.
  - destruct IH as [-> | (time & Hin & Hrange & Hall)]; [now left|].
    right. exists time. split; [now right|]. split; assumption.
Qed.

Lemma consistent_window since requests history start :
  consistent since requests history ->
  (List.length (inWindow start history) <= maxRequests)%nat.
Proof.
  intros (c & _ & _ & _ & Hw).
  destruct (inWindow_youngest start history)
    as [-> | (time & Hin & Hrange & Hall)]; [cbn; lia|].
  rewrite Forall_forall in Hw. specialize (Hw time Hin). cbn beta in Hw.
  etransitivity; [|exact Hw].
  unfold inWindow, upTo. apply filter_length_impl.
  intros r Hr Hp.
  assert (Hle : r <= time).
  { rewrite Forall_forall in Hall. apply Hall. apply filter_In. now split. }
  apply andb_prop in Hp. destruct Hp as [Hlow _]. apply Z.leb_le in Hlow.
  apply andb_true_intro. split; [apply Z.ltb_lt|apply Z.leb_le]; lia.
Qed.

(** X28: the limit of the limiter. For calls of [makeRequest] made one
    after the other from a fresh limiter, under a clock that does not
    run backwards, no window of 60 seconds holds more than 60 recorded
    requests, whatever the times of the calls and whichever of them are
    answered. *)
Theorem requests_per_window_bounded (uses : list Use) (since start : Z) :
  chronological since uses ->
  (List.length (inWindow start (snd (useAll uses [] []))) <= 60)%nat.
Proof.
  intros Hchron.
  assert (Hfresh : consistent since [] []).
  { exists (since - windowMs). split; [lia|]. split; [reflexivity|].
    split; constructor. }
  destruct (useAll_consistent uses Hfresh Hchron) as [since' Hc].
  exact (consistent_window start Hc).
Qed.

(** A burst of 61 calls within the same millisecond, each answered at
    once. *)
Definition burst : list Use :=
  repeat {| checked := 5000; answered := Some 5000 |} 61.

Lemma requests_per_window_bounded_burst :
  (List.length (inWindow 0 (snd (useAll burst [] []))) <= 60)%nat.
Proof.
  apply (@requests_per_window_bounded burst 0 0).
  unfold burst. cbn [repeat chronological checked answered].
  repeat split; (apply Z.leb_le; reflexivity).
Defined.

Example burst_records_sixty :
  List.length (snd (useAll burst [] [])) = 60%nat
  /\ List.length (fst (useAll burst [] [])) = 60%nat.
Proof. vm_compute. split; reflexivity. Qed.

Section AnyWorld.
Import RedditService.
Variable W : Type.
Variable dateNow : W -> Z * W.
Variable fetchToken : Request -> W -> Result (Response RedditTokenResponse) * W.
Variable clientId clientSecret userAgent : string.
Variable base64 : string -> string.

(** What [makeRequest] does to the limiter is one use of it, checked at
    the first reading of the clock. *)
Lemma makeRequest_uses_limiter T
  (fetch : Request -> W -> Result (Response T) * W) endpoint (c : Client W) :
  exists answered',
    (snd (makeRequest dateNow fetchToken clientId clientSecret userAgent base64
            fetch endpoint c)).(requests)
    = useLimiter {| checked := fst (dateNow c.(world)); answered := answered' |}
        c.(requests).
Proof.
  unfold makeRequest, bind at 1, useLimiter. cbn [checked answered].
  destruct (dateNow (world c)) as [now w] eqn:Hnow.
  rewrite (@limiterCanMakeRequest_run W dateNow c now w Hnow). cbn [fst].
  destruct (canMakeRequest now (requests c)) as [can kept] eqn:Hcheck.
  cbn [fst snd]. destruct can; cbn [negb].
  - unfold tryCatch.
    destruct (sendRequest _ _ _ _ _ _ _ _ _) as [[body|e] c1] eqn:Hsend;
      apply sendRequest_cases in Hsend; destruct Hsend as [Hr _];
      cbn [requests] in Hr.
    + destruct Hr as [Hr | [t Hr]]; [exists None|exists (Some t)];
        cbn; exact Hr.
    + unfold rethrowOrWrap, throw.
      destruct Hr as [Hr | [t Hr]]; [exists None|exists (Some t)];
        destruct (isRedditError e); cbn; exact Hr.
  - exists None. unfold rateLimitExceeded, bind, throw.
    match goal with
    | |- context [limiterGetTimeUntilReset dateNow ?c0] =>
        destruct (limiterGetTimeUntilReset_requests dateNow c0)
          as (Hr & _ & waitTime & Hw);
        destruct (limiterGetTimeUntilReset dateNow c0) as [r c1]
    end.
    cbn [fst snd requests] in Hr, Hw. subst r. cbn. exact Hr.
Qed.

End AnyWorld.

End LimiterWindow.

(* ================================================================== *)
(** ** The text handed to speech synthesis *)
(* ================================================================== *)

Section FormattedTextFacts.
Import JS Regex.
Local Open Scope nat_scope.

(** A character of a cleaned text: the only whitespace is the space, and
    the two characters that are not read well are gone. *)
Definition plain (c : ascii) : Prop :=
  (isSpace c = true -> c = " "%char) /\ c <> "#"%char /\ c <> "|"%char.

Lemma plain_space : plain " "%char.
Proof. repeat split; intros; congruence. Qed.

Lemma plain_dot : plain "."%char.
Proof. repeat split; intros; discriminate. Qed.

Lemma plain_not_newline c : plain c -> isNewline c = false.
Proof.
  intros [Hspace _]. destruct (isNewline c) eqn:Hc; [|reflexivity].
  unfold isNewline in Hc. apply Nat.eqb_eq in Hc.
  assert (Hs : isSpace c = true) by (unfold isSpace; now rewrite Hc).
  apply Hspace in Hs. subst c. discriminate Hc.
Qed.

Lemma isSentenceEnd_not_space c : isSentenceEnd c = true -> isSpace c = false.
Proof.
  unfold isSentenceEnd, isSpace. cbv zeta. generalize (codeUnit c) as n.
  intros n H. rewrite !orb_true_iff, !Nat.eqb_eq in H.
  destruct H as [[-> | ->] | ->]; reflexivity.
Qed.

Lemma ofString_app (a b : string) :
  ofString (a ++ b) = (ofString a ++ ofString b)%list.
Proof. induction a as [|c a IH]; simpl; [reflexivity | now f_equal]. Qed.

Lemma forallb_takeWhile p l : forallb p (takeWhile p l) = true.
Proof.
  induction l as [|c l IH]; simpl; [reflexivity|].
  destruct (p c) eqn:Hc; simpl; [now rewrite Hc | reflexivity].
Qed.

Lemma firstn_takeWhile p l :
  firstn (List.length (takeWhile p l)) l = takeWhile p l.
Proof.
  induction l as [|c l IH]; simpl; [reflexivity|].
  destruct (p c); simpl; [now f_equal | reflexivity].
Qed.

(** *** What a rewriting pass leaves in the text *)

Lemma replaceFrom_Forall (P : ascii -> Prop) (r : TextFormatter.rule) :
  (forall b l n replacement,
     Forall P l -> r b l = Some (n, replacement) -> Forall P replacement) ->
  forall l skip b, Forall P l -> Forall P (TextFormatter.replaceFrom r skip b l).
Proof.
  intros Hr. induction l as [|c l IH]; intros skip b Hl; [constructor|].
  pose proof (Forall_inv Hl) as Hc. pose proof (Forall_inv_tail Hl) as Hl'.
  cbn [TextFormatter.replaceFrom].
  destruct skip as [|k]; [|now apply IH].
  destruct (r b (c :: l)) as [[[|n] replacement]|] eqn:Hrule.
  - constructor; [exact Hc | now apply IH].
  - apply Forall_app; split; [exact (Hr b (c :: l) (S n) replacement Hl Hrule) | now apply IH].
  - constructor; [exact Hc | now apply IH].
Qed.

Lemma whitespace_pass skip b l :
  Forall (fun c => isSpace c = true -> c = " "%char)
    (TextFormatter.replaceFrom TextFormatter.whitespaceRule skip b l).
Proof.
  revert skip b; induction l as [|c l IH]; intros skip b; [constructor|].
  cbn [TextFormatter.replaceFrom].
  destruct skip as [|k]; [|apply IH].
  unfold TextFormatter.whitespaceRule, TextFormatter.run.
  cbn [takeWhile]. destruct (isSpace c) eqn:Hc; cbn [List.length app].
  - constructor; [reflexivity | apply IH].
  - constructor; [congruence | apply IH].
Qed.

Definition special (c : ascii) : bool :=
  TextFormatter.isChar "#" c || TextFormatter.isChar "|" c.

Lemma special_pass b l :
  TextFormatter.replaceFrom TextFormatter.specialCharacterRule 0 b l
  = filter (fun c => negb (special c)) l.
Proof.
  revert b; induction l as [|c l IH]; intros b; [reflexivity|].
  cbn [TextFormatter.replaceFrom TextFormatter.specialCharacterRule filter].
  fold (special c). destruct (special c); cbn [negb app]; now rewrite IH.
Qed.

Lemma Forall_dropWhile (P : ascii -> Prop) p l :
  Forall P l -> Forall P (dropWhile p l).
Proof.
  induction 1 as [|c l Hc Hl IH]; simpl; [constructor|].
  destruct (p c); [exact IH | now constructor].
Qed.

Lemma Forall_trim (P : ascii -> Prop) l : Forall P l -> Forall P (trim l).
Proof.
  intros H. unfold trim, trimEnd, trimStart.
  apply Forall_rev, Forall_dropWhile, Forall_rev, Forall_dropWhile, H.
Qed.

Lemma cleanMarkdownChars_plain l :
  Forall plain (TextFormatter.cleanMarkdownChars l).
Proof.
  unfold TextFormatter.cleanMarkdownChars. cbv zeta.
  apply Forall_trim. unfold TextFormatter.replaceAll. rewrite special_pass.
  apply Forall_forall. intros c Hin. apply filter_In in Hin as [Hin Hsp].
  pose proof (whitespace_pass 0 true) as Hws.
  match type of Hin with In c (TextFormatter.replaceFrom _ _ _ ?t) =>
    specialize (Hws t) end.
  rewrite Forall_forall in Hws. specialize (Hws c Hin).
  split; [exact Hws|].
  split; intros ->; discriminate Hsp.
Qed.

Lemma cleanMarkdown_plain s :
  Forall plain (ofString (TextFormatter.cleanMarkdown s)).
Proof.
  unfold TextFormatter.cleanMarkdown. rewrite JSFacts.ofString_toString.
  apply cleanMarkdownChars_plain.
Qed.

(** *** Truncation keeps a cleaned text clean *)

Lemma splitRunsFrom_Forall (P : ascii -> Prop) p cur insep l :
  Forall P cur -> Forall P l -> Forall (Forall P) (splitRunsFrom p cur insep l).
Proof.
  intros Hcur Hl; revert cur insep Hcur.
  induction Hl as [|c l Hc Hl IH]; intros cur insep Hcur; simpl.
  - constructor; [now apply Forall_rev | constructor].
  - destruct (p c).
    + destruct insep; [now apply IH|].
      constructor; [now apply Forall_rev | now apply IH].
    + apply IH. now constructor.
Qed.

Lemma join_Forall (P : ascii -> Prop) sep ws :
  Forall P sep -> Forall (Forall P) ws -> Forall P (join sep ws).
Proof.
  intros Hsep; induction 1 as [|w ws Hw Hws IH]; simpl; [constructor|].
  destruct ws as [|w' ws']; [exact Hw|].
  apply Forall_app; split; [exact Hw|]. apply Forall_app; split; assumption.
Qed.

Lemma Forall_firstn_any {A} (P : A -> Prop) n (l : list A) :
  Forall P l -> Forall P (firstn n l).
Proof.
  intros H; revert n; induction H as [|x l Hx Hl IH]; intros [|n]; simpl;
    constructor; auto.
Qed.

Lemma truncateToMaxDuration_plain t maxWords :
  Forall plain (ofString t) ->
  Forall plain (ofString (Formatter.truncateToMaxDuration t maxWords)).
Proof.
  intros Ht. unfold Formatter.truncateToMaxDuration. cbv zeta.
  destruct (_ <=? maxWords)%nat; [exact Ht|].
  assert (Htruncated :
    Forall plain (join (ofString " ") (firstn maxWords (splitSpaces (ofString t))))).
  { apply join_Forall.
    - repeat constructor; intros; congruence.
    - apply Forall_firstn_any, splitRunsFrom_Forall; [constructor | exact Ht]. }
  match goal with |- context [if ?b then _ else _] => destruct b end;
    rewrite JSFacts.ofString_toString.
  - unfold substring0. now apply Forall_firstn_any.
  - apply Forall_app; split; [exact Htruncated|].
    repeat constructor; intros; discriminate.
Qed.

(** *** The two passes of [addPauses] on a cleaned text *)

Lemma paragraph_pass b l :
  Forall (fun c => isNewline c = false) l ->
  TextFormatter.replaceFrom TextFormatter.paragraphRule 0 b l = l.
Proof.
  intros Hl; revert b; induction Hl as [|c l Hc Hl IH]; intros b; [reflexivity|].
  cbn [TextFormatter.replaceFrom].
  unfold TextFormatter.paragraphRule at 1. cbn [takeWhile]. rewrite Hc.
  cbn. now rewrite IH.
Qed.

Lemma sentenceRule_replacement b l n replacement :
  TextFormatter.sentenceRule b l = Some (n, replacement) ->
  exists c rest gap,
    l = c :: rest /\ isSentenceEnd c = true
    /\ takeWhile isSpace rest = gap /\ gap <> []
    /\ n = S (List.length gap) /\ replacement = [c; " "%char].
Proof.
  unfold TextFormatter.sentenceRule, TextFormatter.run.
  destruct l as [|c rest]; [discriminate|].
  destruct (isSentenceEnd c) eqn:Hc; [|discriminate].
  destruct (takeWhile isSpace rest) as [|s gap] eqn:Hgap; [discriminate|].
  intros H; injection H as <- <-.
  exists c, rest, (s :: gap). repeat split; auto. discriminate.
Qed.

Lemma sentence_pass_plain skip b l :
  Forall plain l ->
  Forall plain (TextFormatter.replaceFrom TextFormatter.sentenceRule skip b l).
Proof.
  apply replaceFrom_Forall.
  intros b' l' n replacement Hl' Hrule.
  apply sentenceRule_replacement in Hrule
    as (c & rest & gap & -> & _ & _ & _ & _ & ->).
  constructor; [exact (Forall_inv Hl')|].
  constructor; [exact plain_space | constructor].
Qed.

(** *** Counting words *)

(** The number of words that start in [l]; [inWord] says that the
    character before [l] belongs to a word. *)
Fixpoint wordsFrom (inWord : bool) (l : chars) : nat :=
  match l with
  | [] => 0
  | c :: l' =>
      if isSpace c then wordsFrom false l'
      else (if inWord then 0 else 1) + wordsFrom true l'
  end.

Lemma dropWhile_split p l :
  exists a, l = a ++ dropWhile p l /\ forallb p a = true.
Proof.
  induction l as [|c l (a & IH & Ha)]; simpl.
  - now exists [].
  - destruct (p c) eqn:Hc.
    + exists (c :: a). simpl. rewrite Hc. split; [now f_equal | exact Ha].
    + now exists [].
Qed.

Lemma dropWhile_head p l :
  match dropWhile p l with [] => True | c :: _ => p c = false end.
Proof.
  induction l as [|c l IH]; simpl; [exact I|].
  destruct (p c) eqn:Hc; [exact IH | exact Hc].
Qed.

Lemma wordsFrom_spaces_l s x :
  forallb isSpace s = true -> wordsFrom false (s ++ x) = wordsFrom false x.
Proof.
  induction s as [|c s IH]; simpl; [reflexivity|].
  intros H. apply andb_true_iff in H as [Hc Hs]. rewrite Hc. now apply IH.
Qed.

Lemma wordsFrom_spaces_r b x s :
  forallb isSpace s = true -> wordsFrom b (x ++ s) = wordsFrom b x.
Proof.
  intros Hs. revert b; induction x as [|c x IH]; intros b; simpl.
  - rewrite <- (app_nil_r s).
    destruct s as [|c s]; [reflexivity|].
    simpl in Hs |- *. apply andb_true_iff in Hs as [Hc Hs]. rewrite Hc.
    now rewrite wordsFrom_spaces_l.
  - destruct (isSpace c); now rewrite !IH.
Qed.

Lemma length_splitRunsFrom_words cur insep m z :
  isSpace z = false ->
  List.length (splitRunsFrom isSpace cur insep (m ++ [z]))
  = ((if insep then 0 else 1) + wordsFrom (negb insep) (m ++ [z]))%nat.
Proof.
  intros Hz. revert cur insep; induction m as [|c m IH]; intros cur insep.
  - simpl. rewrite Hz. simpl. destruct insep; reflexivity.
  - cbn [app splitRunsFrom wordsFrom]. destruct (isSpace c).
    + destruct insep; cbn [negb List.length]; rewrite IH; reflexivity.
    + rewrite IH. destruct insep; reflexivity.
Qed.

(** [countWords] counts the words, and one for a text without any. *)
Lemma length_splitSpaces_trim_words l :
  List.length (splitSpaces (trim l)) = Nat.max 1 (wordsFrom false l).
Proof.
  unfold trim, trimEnd, trimStart.
  destruct (dropWhile_split isSpace l) as (s1 & Hl & Hs1).
  pose proof (dropWhile_head isSpace l) as Hhead.
  rewrite Hl at 2. rewrite (@wordsFrom_spaces_l s1 _ Hs1).
  destruct (dropWhile isSpace l) as [|c0 d]; [reflexivity|].
  destruct (dropWhile_split isSpace (rev (c0 :: d))) as (s2 & Hd & Hs2).
  pose proof (dropWhile_head isSpace (rev (c0 :: d))) as Hlast.
  destruct (dropWhile isSpace (rev (c0 :: d))) as [|z t].
  - exfalso. rewrite app_nil_r in Hd.
    rewrite forallb_forall in Hs2.
    assert (Hin : In c0 s2) by (rewrite <- Hd; apply in_rev; rewrite rev_involutive; now left).
    apply Hs2 in Hin. congruence.
  - apply (f_equal (@rev ascii)) in Hd.
    rewrite rev_involutive, rev_app_distr in Hd.
    assert (Hs2' : forallb isSpace (rev s2) = true).
    { apply forallb_forall. intros c Hin. apply in_rev in Hin.
      rewrite forallb_forall in Hs2. now apply Hs2. }
    rewrite Hd, (@wordsFrom_spaces_r _ _ (rev s2) Hs2').
    cbn [rev] in Hd |- *.
    unfold splitSpaces, splitRuns.
    rewrite (@length_splitRunsFrom_words [] false (rev t) z Hlast).
    cbn [negb].
    destruct (rev t ++ [z])%list as [|c1 core] eqn:Hcore.
    + destruct (rev t); discriminate Hcore.
    + cbn [app] in Hd. injection Hd as <- _.
      cbn [wordsFrom]. rewrite Hhead. lia.
Qed.

(** The second pass of [addPauses] changes whitespace after the end of a
    sentence only, and leaves some: the words stay as they are. *)
Lemma wordsFrom_sentence_pass l skip b atLineStart :
  forallb isSpace (firstn skip l) = true ->
  wordsFrom (b && (skip =? 0)%nat)
    (TextFormatter.replaceFrom TextFormatter.sentenceRule skip atLineStart l)
  = wordsFrom (b && (skip =? 0)%nat) l.
Proof.
  revert skip b atLineStart; induction l as [|c l IH];
    intros skip b atLineStart Hskip; [reflexivity|].
  cbn [TextFormatter.replaceFrom].
  destruct skip as [|k].
  - cbn [Nat.eqb]. rewrite andb_true_r.
    destruct (TextFormatter.sentenceRule atLineStart (c :: l))
      as [[n replacement]|] eqn:Hrule.
    + apply sentenceRule_replacement in Hrule
        as (c' & rest & gap & Heq & Hend & Hgap & Hne & -> & ->).
      injection Heq as <- <-.
      pose proof (@isSentenceEnd_not_space c Hend) as Hc.
      cbn [app wordsFrom]. rewrite Hc.
      change (isSpace " ") with true. cbv iota.
      destruct gap as [|s gap]; [congruence|].
      specialize (IH (List.length (s :: gap)) false (TextFormatter.isLineTerminator c)).
      cbn [andb] in IH. rewrite IH.
      * destruct l as [|s' l']; [discriminate Hgap|].
        cbn [takeWhile] in Hgap. destruct (isSpace s') eqn:Hs'; [|discriminate Hgap].
        cbn [wordsFrom]. now rewrite Hs'.
      * rewrite <- Hgap, firstn_takeWhile. apply forallb_takeWhile.
    + cbn [wordsFrom]. destruct (isSpace c).
      * specialize (IH 0%nat false (TextFormatter.isLineTerminator c) eq_refl).
        cbn [Nat.eqb andb] in IH. exact IH.
      * specialize (IH 0%nat true (TextFormatter.isLineTerminator c) eq_refl).
        cbn [Nat.eqb andb] in IH. now rewrite IH.
  - cbn [Nat.eqb]. rewrite andb_false_r.
    cbn [firstn forallb] in Hskip. apply andb_true_iff in Hskip as [Hc Hk].
    cbn [wordsFrom]. rewrite Hc.
    specialize (IH k false (TextFormatter.isLineTerminator c) Hk).
    cbn [andb] in IH. exact IH.
Qed.

Lemma countWords_addPauses (t : string) :
  Forall plain (ofString t) ->
  Formatter.countWords (TextFormatter.addPauses t) = Formatter.countWords t.
Proof.
  intros Ht. unfold Formatter.countWords, TextFormatter.addPauses.
  rewrite JSFacts.ofString_toString.
  unfold TextFormatter.addPausesChars, TextFormatter.replaceAll. cbv zeta.
  rewrite paragraph_pass.
  - rewrite !length_splitSpaces_trim_words.
    pose proof (@wordsFrom_sentence_pass (ofString t) 0 false true eq_refl) as H.
    cbn [andb] in H. now rewrite H.
  - eapply Forall_impl; [|exact Ht]. apply plain_not_newline.
Qed.

Lemma addPauses_plain (t : string) :
  Forall plain (ofString t) ->
  Forall plain (ofString (TextFormatter.addPauses t)).
Proof.
  intros Ht. unfold TextFormatter.addPauses.
  rewrite JSFacts.ofString_toString.
  unfold TextFormatter.addPausesChars, TextFormatter.replaceAll. cbv zeta.
  rewrite paragraph_pass.
  - now apply sentence_pass_plain.
  - eapply Forall_impl; [|exact Ht]. apply plain_not_newline.
Qed.

(** *** [formatForTTS] with the passes of the service *)

(** The text that [formatForTTS] hands to [addPauses] is clean, and the
    counts it reports are the counts of that text. *)
Lemma formatForTTS_parts (post : Reddit.RedditPost) :
  let f := TextFormatter.formatForTTS post in
  exists combinedText,
    Forall plain (ofString combinedText)
    /\ Formatter.text f = TextFormatter.addPauses combinedText
    /\ Formatter.wordCount f = Formatter.countWords combinedText
    /\ Formatter.estimatedDuration f
       = Formatter.estimateDuration (Formatter.countWords combinedText).
Proof.
  unfold TextFormatter.formatForTTS, Formatter.formatForTTS. cbv zeta.
  set (combined := if truthy _ then _ else _).
  assert (Hcombined : Forall plain (ofString combined)).
  { subst combined.
    destruct (truthy (if truthy _ then _ else _)).
    - rewrite !ofString_app. apply Forall_app; split; [apply cleanMarkdown_plain|].
      apply Forall_app; split.
      + constructor; [exact plain_dot|]. constructor; [exact plain_space|constructor].
      + destruct (truthy (Reddit.selftext post)); [apply cleanMarkdown_plain|constructor].
    - apply cleanMarkdown_plain. }
  destruct (Formatter.MAX_DURATION_SECONDS
            <? Formatter.estimateDuration (Formatter.countWords combined))%Z.
  - exists (Formatter.truncateToMaxDuration combined Formatter.maxWordsForDuration).
    cbn [Formatter.text Formatter.wordCount Formatter.estimatedDuration].
    repeat split. now apply truncateToMaxDuration_plain.
  - exists combined.
    cbn [Formatter.text Formatter.wordCount Formatter.estimatedDuration].
    repeat split. exact Hcombined.
Qed.

(** X29. The word count and the duration that [formatForTTS] reports are
    those of the text it returns: the passes of [addPauses], which run
    after the counting, neither add nor remove a word. *)
Theorem reported_counts_describe_returned_text (post : Reddit.RedditPost) :
  let f := TextFormatter.formatForTTS post in
  Formatter.wordCount f = Formatter.countWords (Formatter.text f)
  /\ Formatter.estimatedDuration f
     = Formatter.estimateDuration (Formatter.countWords (Formatter.text f)).
Proof.
  destruct (formatForTTS_parts post) as (combined & Hplain & Htext & Hcount & Hduration).
  cbv zeta. rewrite Htext, (@countWords_addPauses combined Hplain). now split.
Qed.

(** X30. The text that [formatForTTS] returns is one line: its only
    whitespace is the space character, so no line break of the post and
    no paragraph pause of [addPauses] reaches the synthesis, and it
    contains neither [#] nor [|]. *)
Theorem formatted_text_is_one_line (post : Reddit.RedditPost) :
  Forall (fun c => (isSpace c = true -> c = " "%char)
                   /\ c <> "#"%char /\ c <> "|"%char)
    (ofString (Formatter.text (TextFormatter.formatForTTS post))).
Proof.
  destruct (formatForTTS_parts post) as (combined & Hplain & Htext & _).
  rewrite Htext. exact (@addPauses_plain combined Hplain).
Qed.

Definition markdownPost : Reddit.RedditPost :=
  {| Reddit.id := "abc123";
     Reddit.title := "**TIFU** by reading https://www.example.com/rules";
     Reddit.author := "someone";
     Reddit.score := 10;
     Reddit.num_comments := 2;
     Reddit.created_utc := 0;
     Reddit.selftext :=
       String.append "# First!" (String (ascii_of_nat 10) (String (ascii_of_nat 10)
         "- it was *bad*.   Really | bad"));
     Reddit.permalink := "/r/tifu/abc123";
     Reddit.subreddit := "tifu" |}.

Example markdownPost_formatted :
  Formatter.text (TextFormatter.formatForTTS markdownPost)
  = "TIFU by reading example.com. First! it was bad. Really  bad"%string
  /\ Formatter.wordCount (TextFormatter.formatForTTS markdownPost) = 10%nat.
Proof. vm_compute. split; reflexivity. Qed.

End FormattedTextFacts.

(* ================================================================== *)
(** ** The duration that is reported and persisted *)
(* ================================================================== *)

Section DurationClaims.
Import Effects EffectsFacts TTS Orchestrator.
Local Open Scope string_scope.
Local Open Scope Z_scope.

(** The estimate in the words of the specification:
    [ceil(wordCount / 150 * 60)] seconds, evaluated on binary64 as
    JavaScript evaluates it. *)
Definition secondsAt150WordsPerMinute (wordCount : nat) : Z :=
  Binary64.ceil
    (PrimFloat.mul
       (PrimFloat.div (Binary64.ofNat wordCount) (Binary64.ofZ 150))
       (Binary64.ofZ 60)).


(** The text of a post before truncation: the cleaned title, and the
    cleaned body behind it when there is one. *)
Definition cleanedText (post : Reddit.RedditPost) : string :=
  let title := TextFormatter.cleanMarkdown post.(Reddit.title) in
  let body :=
    if JS.truthy post.(Reddit.selftext)
    then TextFormatter.cleanMarkdown post.(Reddit.selftext)
    else "" in
  if JS.truthy body then title ++ ". " ++ body else title.



Section AnyWorld.
Variable W : Type.
Variable sleep : Z -> W -> W.
Variable elevenLabsVoiceId inworldCharacter : string.

Local Abbreviation generate :=
  (generateAudio sleep elevenLabsVoiceId inworldCharacter
     TextFormatter.cleanMarkdown TextFormatter.addPauses).



Variable supabaseStorage : StorageService W.
Variable providers : list (TTSProvider W).
Variable nowMs : W -> Z.

Local Abbreviation remainingSteps :=
  (generateAndStore supabaseStorage providers sleep elevenLabsVoiceId
     inworldCharacter TextFormatter.cleanMarkdown TextFormatter.addPauses nowMs).


End AnyWorld.

(** *** A post that is cut *)

Fixpoint repeatText (n : nat) (s : string) : string :=
  match n with
  | O => ""
  | S n' => s ++ repeatText n' s
  end.

(** A title of three words and a body of forty sentences of seven
    words. *)
Definition longPost : Reddit.RedditPost :=
  {| Reddit.id := "long1"; Reddit.title := "A **long** story";
     Reddit.author := "someone"; Reddit.score := 120; Reddit.num_comments := 14;
     Reddit.created_utc := 1736204400%R;
     Reddit.selftext := repeatText 40 "This is one more sentence of filler. ";
     Reddit.permalink := "/r/test/comments/long1"; Reddit.subreddit := "test" |}.

(** The cleaned text has 283 words, which would take 114 seconds. The
    first 225 words end inside a sentence; the text is cut behind the
    last full sentence, which leaves 220 words and 88 seconds. *)
Example longPost_is_cut :
  Formatter.countWords (cleanedText longPost) = 283%nat
  /\ secondsAt150WordsPerMinute 283 = 114
  /\ Formatter.wordCount (TextFormatter.formatForTTS longPost) = 220%nat
  /\ Formatter.estimatedDuration (TextFormatter.formatForTTS longPost) = 88.
Proof. vm_compute. repeat split. Qed.





End DurationClaims.
